(** * The evaluation engine of the RAG evaluation framework

    A shallow embedding of [eval/judges.py], [eval/metrics.py],
    [eval/reporting.py] and [eval/runner.py], with the background task of
    [api/routers/eval_router.py] that turns the outcome of a run into its
    status.

    Scores are Python floats, that is IEEE 754 binary64 values: they are
    modelled by Rocq's primitive floats, which are the same numbers with the
    same rounding.  Python dictionaries keep insertion order and the code
    iterates over them, so they are association lists.  The external model
    behind the judges is an oracle indexed by the number of requests sent so
    far, and the code that talks to it is written in a small state and
    exception monad over that counter. *)

From Stdlib Require Import Floats ZArith Uint63 List String Ascii Bool Lia.
From Stdlib Require Import Sorted Permutation PeanoNat DecimalString.
Import ListNotations.

Set Warnings "-inexact-float".
Local Open Scope string_scope.
Local Open Scope list_scope.

(** ** Python builtins used by the code *)

Module Py.

(** [sum(xs)]: the items are added from left to right, starting from 0. *)
Definition sum (xs : list float) : float :=
  fold_left PrimFloat.add xs 0%float.

(** [sum(xs)] as CPython 3.12 and later compute it for floats: the same
    left-to-right additions, with the rounding errors collected in a second
    float (Neumaier's scheme) and added at the end. *)
Definition cs_add (st : float * float) (x : float) : float * float :=
  let (total, c) := st in
  let t := (total + x)%float in
  if (abs x <=? abs total)%float
  then (t, (c + ((total - t) + x))%float)
  else (t, (c + ((x - t) + total))%float).

Definition is_finite (x : float) : bool :=
  (abs x <? infinity)%float.

Definition sum_compensated (xs : list float) : float :=
  let (total, c) := fold_left cs_add xs (0%float, 0%float) in
  if negb (c =? 0)%float && is_finite c then (total + c)%float else total.

(** [float(n)] for a length or a count [n]. *)
Definition float_of_nat (n : nat) : float :=
  PrimFloat.of_uint63 (Uint63.of_Z (Z.of_nat n)).

(** [min(a, b)] and [max(a, b)] return their first argument unless the
    second one is strictly smaller, respectively strictly greater. *)
Definition min (a b : float) : float := if (b <? a)%float then b else a.
Definition max (a b : float) : float := if (a <? b)%float then b else a.

(** [str(n)] for a natural number. *)
Definition str_of_nat (n : nat) : string :=
  NilEmpty.string_of_uint (Nat.to_uint n).

(** [s[:n]] *)
Definition str_prefix (n : nat) (s : string) : string := substring 0 n s.

(** [sorted(xs, key=key)]: a stable sort that compares keys with [<] only.
    An item goes in front of the first item of the sorted rest whose key is
    not smaller than its own, so items with equal keys keep their order. *)
Section Sorted.
Context {A : Type} (key : A -> float).

Fixpoint insert (x : A) (l : list A) : list A :=
  match l with
  | [] => [x]
  | y :: l' =>
      if (key y <? key x)%float then y :: insert x l' else x :: y :: l'
  end.

Definition sorted (l : list A) : list A := fold_right insert [] l.

(** [heapq.nsmallest(n, xs, key=key)], by its documentation
    [sorted(xs, key=key)[:n]]. *)
Definition nsmallest (n : nat) (l : list A) : list A := firstn n (sorted l).
End Sorted.

End Py.

(** ** Dictionaries

    A dictionary with string keys, in insertion order. *)

Definition dict (V : Type) : Type := list (string * V).

Module Dict.
Section Ops.
Context {V : Type}.

(** [d.get(k)] *)
Fixpoint get (k : string) (d : dict V) : option V :=
  match d with
  | [] => None
  | (k', v) :: d' => if String.eqb k k' then Some v else get k d'
  end.

(** [k in d] *)
Definition mem (k : string) (d : dict V) : bool :=
  match get k d with Some _ => true | None => false end.

(** [d[k] = v]: an existing key keeps its place, a new one goes last. *)
Fixpoint set (k : string) (v : V) (d : dict V) : dict V :=
  match d with
  | [] => [(k, v)]
  | (k', v') :: d' =>
      if String.eqb k k' then (k, v) :: d' else (k', v') :: set k v d'
  end.

Definition keys (d : dict V) : list string := map fst d.
Definition values (d : dict V) : list V := map snd d.

(** What a dictionary of the interpreter satisfies: no key twice. *)
Definition well_formed (d : dict V) : Prop := NoDup (keys d).
End Ops.
End Dict.

(** ** Exceptions *)

(** An exception, with the text [str(e)] gives. *)
Record exn : Type := Exn { exn_type : string; exn_text : string }.

(** The outcome of a call: a value, or an exception that propagates. *)
Inductive result (A : Type) : Type :=
| Ok (a : A)
| Raised (e : exn).
Arguments Ok {A} a.
Arguments Raised {A} e.


(** ** Calls to the external model

    The state is the number of requests sent to the service so far; a
    computation returns a value or raises, and leaves a new count. *)

Definition M (A : Type) : Type := nat -> result A * nat.

Definition ret {A : Type} (a : A) : M A := fun n => (Ok a, n).

Definition raise {A : Type} (e : exn) : M A := fun n => (Raised e, n).

Definition bind {A B : Type} (m : M A) (k : A -> M B) : M B :=
  fun n =>
    match m n with
    | (Ok a, n') => k a n'
    | (Raised e, n') => (Raised e, n')
    end.

Notation "x <- m ;; k" := (bind m (fun x => k))
  (at level 61, m at next level, right associativity).

(** ** eval/judges.py

    The four judges differ by the prompt they build and by nothing else; the
    text of the prompt has no part in what follows, the service being an
    oracle, so the prompt is not modelled and the four judges are one
    function under four names. *)

Module Judges.

(** The value under ["score"] in a reply, by what [float(...)] does with it. *)
Inductive score_value : Type :=
| Numeric (f : float)          (* a number, or text that reads as one *)
| NotNumericText (msg : string) (* other text: ValueError, with its text *)
| NotANumber (msg : string)     (* null, a list, an object: TypeError *)
| IntTooLarge (msg : string).   (* an integer beyond the floats: OverflowError *)

(** A reply that parsed as a JSON object (the request asks for
    [response_format = json_object]); only the two keys the code reads. *)
Record reply : Type := Reply {
  reply_score : option score_value;
  reply_verdict : option string
}.

(** What one request to the service produces. *)
Inductive attempt : Type :=
| RequestFails        (* [create] raises *)
| NotJson             (* [json.loads] raises JSONDecodeError *)
| Parsed (r : reply).

Record world : Type := World {
  (** [OpenAI()] raises with this text when it cannot build a client. *)
  client_error : option string;
  (** The outcome of the request number [n], counted from 0. *)
  service : nat -> attempt
}.

(** The loop of [_call_judge_api]: [remaining] attempts are left. *)
Fixpoint attempts (w : world) (remaining : nat) (n : nat) : option reply * nat :=
  match remaining with
  | 0 => (None, n)
  | S remaining' =>
      match service w n with
      | Parsed r =>
          match reply_score r with
          | Some _ => (Some r, S n)
          | None => attempts w remaining' (S n)
          end
      | NotJson | RequestFails => attempts w remaining' (S n)
      end
  end.

(** The client is built before the loop, outside its [try]. *)
Definition _call_judge_api (w : world) (max_retries : nat) : M (option reply) :=
  fun n =>
    match client_error w with
    | Some msg => (Raised (Exn "OpenAIError" msg), n)
    | None => let (r, n') := attempts w max_retries n in (Ok r, n')
    end.

(** The default of the parameter [max_retries]; no caller passes another. *)
Definition max_retries_default : nat := 3.

(** The dictionary a judge returns; [error] is a key of it on failure only. *)
Record judge_result : Type := JudgeResult {
  score : float;
  verdict : string;
  samples : list float;
  error : option string
}.

Definition error_result (error_msg : string) : judge_result :=
  {| score := 0; verdict := ""; samples := []; error := Some error_msg |}.

(** [max(0.0, min(1.0, score))] *)
Definition clamp (x : float) : float := Py.max 0 (Py.min 1 x).

(** [sum(samples) / len(samples) if samples else 0.0] *)
Definition average (xs : list float) : float :=
  match xs with
  | [] => 0%float
  | _ => (Py.sum xs / Py.float_of_nat (List.length xs))%float
  end.

(** [result.get("verdict", "")] *)
Definition get_verdict (r : reply) : string :=
  match reply_verdict r with Some v => v | None => "" end.

(** The sampling loop shared by the four judges: [todo] samples are left,
    [sample_num] were taken, and [acc] and [v] are the variables [samples]
    and [verdict] of the code. *)
Fixpoint sample_loop (w : world) (include_reasoning : bool)
    (todo sample_num : nat) (acc : list float) (v : string) : M judge_result :=
  match todo with
  | 0 =>
      ret {| score := average acc;
             verdict := if include_reasoning then v else "";
             samples := acc;
             error := None |}
  | S todo' =>
      result <- _call_judge_api w max_retries_default ;;
      match result with
      | None =>
          ret (error_result
                 ("Judge failed to return valid JSON after retries (sample "
                  ++ Py.str_of_nat (sample_num + 1) ++ ")"))
      | Some r =>
          match reply_score r with
          | None => raise (Exn "KeyError" "'score'")
          | Some (Numeric f) =>
              sample_loop w include_reasoning todo' (S sample_num)
                (acc ++ [clamp f])
                (if include_reasoning then get_verdict r else v)
          | Some (NotNumericText msg) | Some (NotANumber msg) =>
              ret (error_result
                     ("Invalid score format in judge response: " ++ msg))
          | Some (IntTooLarge msg) => raise (Exn "OverflowError" msg)
          end
      end
  end.

(** The settings the judges read. *)
Record Settings : Type := {
  judge_num_samples : nat;
  include_metric_reasons : bool;
  overall_score_weights : dict float;
  max_contexts_for_eval : nat
}.

(** The defaults of these fields in [rag_app/config.py]. *)
Definition default_settings : Settings :=
  {| judge_num_samples := 1;
     include_metric_reasons := false;
     overall_score_weights := [];
     max_contexts_for_eval := 3 |}.

(** [num_samples if num_samples is not None else settings.judge_num_samples] *)
Definition num_samples_or_default (settings : Settings) (num_samples : option nat)
    : nat :=
  match num_samples with Some k => k | None => judge_num_samples settings end.

(** [include_reasoning if include_reasoning is not None
     else settings.include_metric_reasons] *)
Definition include_reasoning_or_default (settings : Settings)
    (include_reasoning : option bool) : bool :=
  match include_reasoning with
  | Some b => b
  | None => include_metric_reasons settings
  end.

(** The body the four judges share once their prompt is built: parameters
    left to [None] are read from the settings. *)
Definition judge (w : world) (settings : Settings)
    (num_samples : option nat) (include_reasoning : option bool) : M judge_result :=
  sample_loop w (include_reasoning_or_default settings include_reasoning)
    (num_samples_or_default settings num_samples) 0 [] "".

Definition judge_contextual_precision := judge.
Definition judge_correctness := judge.
Definition judge_faithfulness := judge.
Definition judge_contextual_relevance := judge.

End Judges.

(** ** eval/metrics.py *)

Module Metrics.

(** The entry of one metric in the results of a record. *)
Record metric_result : Type := MetricResult {
  score : float;
  reason : string;
  samples : list float
}.

Definition judge_function : Type :=
  Judges.world -> Judges.Settings -> option nat -> option bool ->
  M Judges.judge_result.

Definition DEFAULT_METRICS : list string :=
  ["contextual_precision"; "contextual_relevance"; "correctness"; "faithfulness"].

Definition METRIC_REGISTRY : dict judge_function :=
  [("contextual_precision", Judges.judge_contextual_precision);
   ("contextual_relevance", Judges.judge_contextual_relevance);
   ("correctness", Judges.judge_correctness);
   ("faithfulness", Judges.judge_faithfulness)].

(** The [try] block of [compute_metrics] with its [except] clause: the entry
    recorded for one metric, whatever its judge does.

    [compute_metrics] does not read its argument [settings]: it calls the
    judge with the question, the contexts and the answers alone, and the
    judge reads [get_settings()] (judges.py).  The parameter [get_settings]
    below is what that call returns, not the argument of
    [compute_metrics]. *)
Definition run_judge (w : Judges.world) (get_settings : Judges.Settings)
    (judge_func : judge_function) : M metric_result :=
  fun n =>
    match judge_func w get_settings None None n with
    | (Ok result, n') =>
        match Judges.error result with
        | Some e =>
            (Ok {| score := 0; reason := "Judge Error: " ++ e; samples := [] |}, n')
        | None =>
            (Ok {| score := Judges.score result;
                   reason := Judges.verdict result;
                   samples := Judges.samples result |}, n')
        end
    | (Raised e, n') =>
        (Ok {| score := 0; reason := "Error: " ++ exn_text e; samples := [] |}, n')
    end.

(** The loop over the selected names, [results] being filled on the way. *)
Fixpoint metrics_loop (w : Judges.world) (get_settings : Judges.Settings)
    (names : list string) (results : dict metric_result) : M (dict metric_result) :=
  match names with
  | [] => ret results
  | name :: names' =>
      match Dict.get name METRIC_REGISTRY with
      | None => metrics_loop w get_settings names' results
      | Some judge_func =>
          r <- run_judge w get_settings judge_func ;;
          metrics_loop w get_settings names' (Dict.set name r results)
      end
  end.

(** [selected_metrics or DEFAULT_METRICS] *)
Definition selection (selected_metrics : option (list string)) : list string :=
  match selected_metrics with
  | None | Some [] => DEFAULT_METRICS
  | Some names => names
  end.

Definition compute_metrics (w : Judges.world) (get_settings : Judges.Settings)
    (selected_metrics : option (list string)) : M (dict metric_result) :=
  metrics_loop w get_settings (selection selected_metrics) [].

Definition compute_overall_score (metric_results : dict metric_result)
    (weights : dict float) : float :=
  match weights with
  | [] =>
      let scores := map score (Dict.values metric_results) in
      match scores with
      | [] => 0%float
      | _ => (Py.sum scores / Py.float_of_nat (List.length scores))%float
      end
  | _ =>
      let weighted :=
        flat_map (fun mw : string * float =>
                    match Dict.get (fst mw) metric_results with
                    | Some r => [(score r * snd mw)%float]
                    | None => []
                    end) weights in
      let total_weight :=
        Py.sum (flat_map (fun mw : string * float =>
                            if Dict.mem (fst mw) metric_results
                            then [snd mw] else []) weights) in
      if (0 <? total_weight)%float
      then (Py.sum weighted / total_weight)%float
      else 0%float
  end.

End Metrics.

(** ** eval/reporting.py *)

Module Reporting.

Definition TOP_N_WORST : nat := 5.
Definition METRIC_N_WORST : nat := 3.

(** The fields of a line of [report.jsonl] that the statistics read, the
    answer being a text. *)
Record eval_record : Type := EvalRecord {
  record_id : string;
  question : string;
  answer : string;
  metrics : dict Metrics.metric_result;
  overall_score : float
}.

Record worst_overall_entry : Type := WorstOverall {
  wo_record_id : string;
  wo_question : string;
  wo_overall_score : float;
  wo_answer : string
}.

Record worst_metric_entry : Type := WorstMetric {
  wm_record_id : string;
  wm_question : string;
  wm_score : float;
  wm_answer : string
}.

Record summary : Type := Summary {
  total_questions : nat;
  metric_averages : dict float;
  average_overall_score : float;
  worst_overall : list worst_overall_entry;
  worst_by_metric : dict (list worst_metric_entry)
}.

(** [result["metrics"].get(metric_name, {}).get("score", 0.0)] *)
Definition metric_score (metric_name : string) (r : eval_record) : float :=
  match Dict.get metric_name (metrics r) with
  | Some m => Metrics.score m
  | None => 0%float
  end.

(** [metric_sums[metric_name] += score]; the key is there, every name of
    [metric_names] having been given the sum 0.0 before the loop. *)
Definition add_score (metric_name : string) (x : float) (sums : dict float)
    : dict float :=
  match Dict.get metric_name sums with
  | Some s => Dict.set metric_name (s + x)%float sums
  | None => sums
  end.

(** [{m: f(m) for m in names}] *)
Definition dict_of_names {V : Type} (f : string -> V) (names : list string)
    : dict V :=
  fold_left (fun d m => Dict.set m (f m) d) names [].

(** The two nested loops that fill [metric_sums]. *)
Definition sum_metrics (metric_names : list string) (results : list eval_record)
    : dict float :=
  fold_left
    (fun sums result =>
       fold_left
         (fun sums metric_name =>
            add_score metric_name (metric_score metric_name result) sums)
         metric_names sums)
    results
    (dict_of_names (fun _ => 0%float) metric_names).

(** [metric_sums[m]] *)
Definition sum_of (sums : dict float) (m : string) : float :=
  match Dict.get m sums with Some s => s | None => 0%float end.

(** The records chosen as worst, before they are cut down to entries. *)
Definition worst_overall_records (results : list eval_record) : list eval_record :=
  Py.nsmallest overall_score TOP_N_WORST results.

Definition worst_metric_records (metric_name : string)
    (results : list eval_record) : list eval_record :=
  Py.nsmallest (metric_score metric_name) METRIC_N_WORST results.

Definition overall_entry (r : eval_record) : worst_overall_entry :=
  {| wo_record_id := record_id r;
     wo_question := question r;
     wo_overall_score := overall_score r;
     wo_answer := Py.str_prefix 200 (answer r) |}.

Definition metric_entry (metric_name : string) (r : eval_record)
    : worst_metric_entry :=
  {| wm_record_id := record_id r;
     wm_question := question r;
     wm_score := metric_score metric_name r;
     wm_answer := Py.str_prefix 200 (answer r) |}.

(** [generate_summary], from the content of [report.jsonl] ([None] when the
    file does not exist) to the statistics of the summary dictionary that
    are computed from the scores, for lines whose answer is a text.  The
    averages of the token counts and the lines whose answer is null are the
    matter of [ReportFile.generate_summary] below, which is the function the
    run calls. *)
Definition generate_summary (report : option (list eval_record)) : result summary :=
  match report with
  | None => Raised (Exn "FileNotFoundError" "No such file or directory")
  | Some [] => Raised (Exn "ValueError" "No results found")
  | Some ((first :: _) as results) =>
      let total := List.length results in
      let metric_names := Dict.keys (metrics first) in
      let metric_sums := sum_metrics metric_names results in
      Ok {| total_questions := total;
            metric_averages :=
              dict_of_names
                (fun m => (sum_of metric_sums m / Py.float_of_nat total)%float)
                metric_names;
            average_overall_score :=
              (Py.sum (map overall_score results) / Py.float_of_nat total)%float;
            worst_overall := map overall_entry (worst_overall_records results);
            worst_by_metric :=
              dict_of_names
                (fun m => map (metric_entry m) (worst_metric_records m results))
                metric_names |}
  end.

End Reporting.

(** ** The token averages of the summary, in eval/reporting.py *)

Module TokenUsage.

(** A token count of a line: the key is missing, or holds null, or holds an
    integer. *)
Inductive token_field : Type :=
| Absent
| Null
| Count (n : Z).

(** The three token counts of a line of the report. *)
Record row : Type := Row {
  prompt_tokens : token_field;
  completion_tokens : token_field;
  total_tokens : token_field
}.

(** [r.get(key) is not None] *)
Definition reported (f : token_field) : bool :=
  match f with Count _ => true | Absent | Null => false end.

(** [r.get(key, 0)]: the default stands for a missing key only. *)
Definition get_or_zero (f : token_field) : option Z :=
  match f with Absent => Some 0%Z | Null => None | Count n => Some n end.

(** [sum] over integers and [None]: the first [None] raises. *)
Fixpoint sum_ints (xs : list (option Z)) (acc : Z) : result Z :=
  match xs with
  | [] => Ok acc
  | Some x :: xs' => sum_ints xs' (acc + x)%Z
  | None :: _ =>
      Raised (Exn "TypeError"
                "unsupported operand type(s) for +: 'int' and 'NoneType'")
  end.

Definition int_to_spec (a : Z) : spec_float :=
  match a with
  | Z0 => S754_zero false
  | Zpos m => S754_finite false m 0
  | Zneg m => S754_finite true m 0
  end.

(** [a / b] on integers: the float nearest to the quotient. *)
Definition int_true_div (a b : Z) : result float :=
  match b with
  | Z0 => Raised (Exn "ZeroDivisionError" "division by zero")
  | _ =>
      match SFdiv prec emax (int_to_spec a) (int_to_spec b) with
      | S754_infinity _ | S754_nan =>
          Raised (Exn "OverflowError"
                    "integer division result too large for a float")
      | q => Ok (SF2Prim q)
      end
  end.

(** [sum(r.get(key, 0) for r in results_with_tokens)
     / len(results_with_tokens)] *)
Definition average (field : row -> token_field) (rows : list row)
    : result float :=
  match sum_ints (map (fun r => get_or_zero (field r)) rows) 0 with
  | Raised e => Raised e
  | Ok total => int_true_div total (Z.of_nat (List.length rows))
  end.

Record averages : Type := Averages {
  average_prompt_tokens : option float;
  average_completion_tokens : option float;
  average_total_tokens : option float
}.

Definition results_with_tokens (rows : list row) : list row :=
  filter (fun r => reported (total_tokens r)) rows.

(** The token averages [generate_summary] computes from the lines. *)
Definition token_averages (rows : list row) : result averages :=
  match results_with_tokens rows with
  | [] => Ok (Averages None None None)
  | with_tokens =>
      match average prompt_tokens with_tokens with
      | Raised e => Raised e
      | Ok p =>
          match average completion_tokens with_tokens with
          | Raised e => Raised e
          | Ok c =>
              match average total_tokens with_tokens with
              | Raised e => Raised e
              | Ok t => Ok (Averages (Some p) (Some c) (Some t))
              end
          end
      end
  end.

(** Three lines: one with its three counts, one without token data, and
    one that lacks the key of the completion tokens. *)
Definition three_rows : list row :=
  [ Row (Count 10) (Count 5) (Count 15);
    Row Null Null Null;
    Row (Count 20) Absent (Count 25) ].

End TokenUsage.

(** ** The lines of [report.jsonl] and the whole of [generate_summary]

    A line as the run writes it holds, with the fields above, an answer that
    is null when the model returned no text ([response.message.content] is
    optional) and the three token counts of the answer.  On such lines
    [generate_summary] can raise after its guard: in the sums of the token
    counts, and where it cuts the answer of a worst record.  Nothing is
    written before the summary is complete, so a call that raises leaves the
    folder as it was.  The averages of the timings, which are floats on every
    line, and the text of [summary.md] are left out. *)

Module ReportFile.

Record line : Type := Line {
  record_id : string;
  question : string;
  answer : option string;
  metrics : dict Metrics.metric_result;
  overall_score : float;
  tokens : TokenUsage.row
}.

(** The fields of a line that [Reporting.generate_summary] reads, an answer
    that is null being shown as the empty text. *)
Definition scores (r : line) : Reporting.eval_record :=
  {| Reporting.record_id := record_id r;
     Reporting.question := question r;
     Reporting.answer := match answer r with Some a => a | None => "" end;
     Reporting.metrics := metrics r;
     Reporting.overall_score := overall_score r |}.

(** [result["metrics"].get(metric_name, {}).get("score", 0.0)] *)
Definition metric_score (metric_name : string) (r : line) : float :=
  match Dict.get metric_name (metrics r) with
  | Some m => Metrics.score m
  | None => 0%float
  end.

(** [r["answer"][:200]] *)
Definition answer_prefix (r : line) : result string :=
  match answer r with
  | Some a => Ok (Py.str_prefix 200 a)
  | None => Raised (Exn "TypeError" "'NoneType' object is not subscriptable")
  end.

(** [[f(r) for r in l]], the first item that raises ending the whole. *)
Fixpoint comprehension {A B : Type} (f : A -> result B) (l : list A)
    : result (list B) :=
  match l with
  | [] => Ok []
  | x :: l' =>
      match f x with
      | Raised e => Raised e
      | Ok y =>
          match comprehension f l' with
          | Raised e => Raised e
          | Ok ys => Ok (y :: ys)
          end
      end
  end.

Definition overall_entry (r : line) : result Reporting.worst_overall_entry :=
  match answer_prefix r with
  | Raised e => Raised e
  | Ok a =>
      Ok {| Reporting.wo_record_id := record_id r;
            Reporting.wo_question := question r;
            Reporting.wo_overall_score := overall_score r;
            Reporting.wo_answer := a |}
  end.

Definition metric_entry (metric_name : string) (r : line)
    : result Reporting.worst_metric_entry :=
  match answer_prefix r with
  | Raised e => Raised e
  | Ok a =>
      Ok {| Reporting.wm_record_id := record_id r;
            Reporting.wm_question := question r;
            Reporting.wm_score := metric_score metric_name r;
            Reporting.wm_answer := a |}
  end.

(** The records chosen as worst. *)
Definition worst_overall_records (results : list line) : list line :=
  Py.nsmallest overall_score Reporting.TOP_N_WORST results.

Definition worst_metric_records (metric_name : string) (results : list line)
    : list line :=
  Py.nsmallest (metric_score metric_name) Reporting.METRIC_N_WORST results.

(** The loop that fills [worst_by_metric]. *)
Fixpoint worst_by_metric_loop (metric_names : list string)
    (results : list line)
    (worst_by_metric : dict (list Reporting.worst_metric_entry))
    : result (dict (list Reporting.worst_metric_entry)) :=
  match metric_names with
  | [] => Ok worst_by_metric
  | metric_name :: metric_names' =>
      match comprehension (metric_entry metric_name)
              (worst_metric_records metric_name results) with
      | Raised e => Raised e
      | Ok entries =>
          worst_by_metric_loop metric_names' results
            (Dict.set metric_name entries worst_by_metric)
      end
  end.

Record summary_dict : Type := SummaryDict {
  total_questions : nat;
  metric_averages : dict float;
  average_overall_score : float;
  token_averages : TokenUsage.averages;
  worst_overall : list Reporting.worst_overall_entry;
  worst_by_metric : dict (list Reporting.worst_metric_entry)
}.

(** [generate_summary], from the content of [report.jsonl] ([None] when the
    file does not exist) to the dictionary written in [summary.json], in the
    order of the code: the guard, the averages of the scores, the averages
    of the token counts, the worst records of each metric, and the worst
    records overall, whose answers are cut when the dictionary is built. *)
Definition generate_summary (report : option (list line))
    : result summary_dict :=
  match report with
  | None => Raised (Exn "FileNotFoundError" "No such file or directory")
  | Some [] => Raised (Exn "ValueError" "No results found")
  | Some ((first :: _) as results) =>
      let total := List.length results in
      let metric_names := Dict.keys (metrics first) in
      let metric_sums :=
        Reporting.sum_metrics metric_names (map scores results) in
      let averages :=
        Reporting.dict_of_names
          (fun m =>
             (Reporting.sum_of metric_sums m / Py.float_of_nat total)%float)
          metric_names in
      let overall :=
        (Py.sum (map overall_score results) / Py.float_of_nat total)%float in
      match TokenUsage.token_averages (map tokens results) with
      | Raised e => Raised e
      | Ok token_usage =>
          match worst_by_metric_loop metric_names results [] with
          | Raised e => Raised e
          | Ok by_metric =>
              match comprehension overall_entry
                      (worst_overall_records results) with
              | Raised e => Raised e
              | Ok entries =>
                  Ok {| total_questions := total;
                        metric_averages := averages;
                        average_overall_score := overall;
                        token_averages := token_usage;
                        worst_overall := entries;
                        worst_by_metric := by_metric |}
              end
          end
      end
  end.

(** The part of the dictionary that [Reporting.summary] holds. *)
Definition statistics (s : summary_dict) : Reporting.summary :=
  {| Reporting.total_questions := total_questions s;
     Reporting.metric_averages := metric_averages s;
     Reporting.average_overall_score := average_overall_score s;
     Reporting.worst_overall := worst_overall s;
     Reporting.worst_by_metric := worst_by_metric s |}.

End ReportFile.

(** ** eval/runner.py

    The run folder is reduced to its report and its summary; the metadata
    and the configuration snapshot, written before the loop, and the
    progress callback have no part in what follows.  The dataset is loaded
    and the folder created: [create_run_folder] names the folder after the
    second of the clock and the run name and creates it with
    [exist_ok=True], so the folder of a run can be the folder of an earlier
    run, with the report and the summary that run left. *)

Module Runner.

Record DatasetRecord : Type := {
  id : string;
  question : string;
  expected_answer : string
}.









(** [records[:stop]]: a negative [stop] counts from the end. *)
Definition slice_to {A : Type} (stop : Z) (records : list A) : list A :=
  if (0 <=? stop)%Z
  then firstn (Z.to_nat stop) records
  else firstn (Z.to_nat (Z.of_nat (List.length records) + stop)) records.

(** [if num_questions and num_questions < len(dataset):
       dataset.records = dataset.records[:num_questions]];
    [num_questions] is any integer, or [None]. *)
Definition limit_records (num_questions : option Z)
    (records : list DatasetRecord) : list DatasetRecord :=
  match num_questions with
  | None => records
  | Some k =>
      if (k =? 0)%Z then records
      else if (k <? Z.of_nat (List.length records))%Z
           then slice_to k records
           else records
  end.


End Runner.

(** ** api/routers/eval_router.py *)

Module EvalRouter.



End EvalRouter.

(** * Specifications *)

(** ** The overall score, in the words of its description *)

Module OverallSpec.

(** The unweighted arithmetic mean of all present metric scores, 0.0 when no
    metric is present. *)
Definition unweighted_mean (metric_results : dict Metrics.metric_result) : float :=
  Judges.average (map Metrics.score (Dict.values metric_results)).

(** The weights whose metric is present in the results. *)
Definition matched (metric_results : dict Metrics.metric_result)
    (weights : dict float) : dict float :=
  filter (fun mw => Dict.mem (fst mw) metric_results) weights.

(** The score of a metric of the results. *)
Definition score_of (metric_results : dict Metrics.metric_result) (m : string)
    : float :=
  match Dict.get m metric_results with
  | Some r => Metrics.score r
  | None => 0%float
  end.

Definition total_weight (metric_results : dict Metrics.metric_result)
    (weights : dict float) : float :=
  Py.sum (map snd (matched metric_results weights)).

(** Sigma(score * weight) / Sigma(weight) over the metrics present in both
    the results and the weights. *)
Definition weighted_mean (metric_results : dict Metrics.metric_result)
    (weights : dict float) : float :=
  (Py.sum (map (fun mw => (score_of metric_results (fst mw) * snd mw)%float)
             (matched metric_results weights))
   / total_weight metric_results weights)%float.

(** The score as described: the unweighted mean when no weights are
    configured or none of them matches a present metric, the weighted mean
    otherwise. *)
Definition described (metric_results : dict Metrics.metric_result)
    (weights : dict float) : float :=
  match weights, matched metric_results weights with
  | [], _ | _, [] => unweighted_mean metric_results
  | _, _ => weighted_mean metric_results weights
  end.

(** The score as computed: the unweighted mean when no weights are
    configured; otherwise the weighted mean when the matched weights add up
    to more than 0, and 0.0 when they do not. *)
Definition computed (metric_results : dict Metrics.metric_result)
    (weights : dict float) : float :=
  match weights with
  | [] => unweighted_mean metric_results
  | _ =>
      if (0 <? total_weight metric_results weights)%float
      then weighted_mean metric_results weights
      else 0%float
  end.

(** Results with the scores {a: 0.8, b: 0.6}. *)
Definition scores_a_b : dict Metrics.metric_result :=
  [("a", Metrics.MetricResult 0.8 "" [0.8%float]);
   ("b", Metrics.MetricResult 0.6 "" [0.6%float])].

(** Weights for a metric the results do not have: {c: 1.0}. *)
Definition weights_c : dict float := [("c", 1%float)].

End OverallSpec.

(** ** Sample invocations, in the words of the metric protocol *)

Module Protocol.

(** What one sample invocation comes to, after its retries. *)
Inductive invocation : Type :=
| Scored (raw : float) (r : Judges.reply) (* a reply whose score is a number *)
| NoReply                                (* the invoker returned null *)
| BadScore (msg : string)                (* the score is not convertible *)
| Crashed (e : exn).                     (* an exception no clause catches *)

(** A reply the invoker accepts: it parsed as JSON and has a score field. *)
Definition usable (a : Judges.attempt) : bool :=
  match a with
  | Judges.Parsed r =>
      match Judges.reply_score r with Some _ => true | None => false end
  | Judges.NotJson | Judges.RequestFails => false
  end.

Definition invoke (w : Judges.world) (n : nat) : invocation * nat :=
  match Judges._call_judge_api w Judges.max_retries_default n with
  | (Raised e, n') => (Crashed e, n')
  | (Ok None, n') => (NoReply, n')
  | (Ok (Some r), n') =>
      match Judges.reply_score r with
      | None => (Crashed (Exn "KeyError" "'score'"), n')
      | Some (Judges.Numeric f) => (Scored f r, n')
      | Some (Judges.NotNumericText msg) | Some (Judges.NotANumber msg) =>
          (BadScore msg, n')
      | Some (Judges.IntTooLarge msg) => (Crashed (Exn "OverflowError" msg), n')
      end
  end.

(** An invocation that failed: the two cases of the metric protocol. *)
Definition failure_text (sample_num : nat) (i : invocation) : option string :=
  match i with
  | NoReply =>
      Some ("Judge failed to return valid JSON after retries (sample "
            ++ Py.str_of_nat (sample_num + 1) ++ ")")%string
  | BadScore msg =>
      Some ("Invalid score format in judge response: " ++ msg)%string
  | Scored _ _ | Crashed _ => None
  end.

(** [k] invocations in a row that all succeed, from the request count [n]:
    their raw scores and replies, and the request count they leave. *)
Fixpoint successes (w : Judges.world) (k : nat) (n : nat)
    : option (list (float * Judges.reply) * nat) :=
  match k with
  | 0 => Some ([], n)
  | S k' =>
      match invoke w n with
      | (Scored raw r, n') =>
          match successes w k' n' with
          | Some (rest, n'') => Some ((raw, r) :: rest, n'')
          | None => None
          end
      | _ => None
      end
  end.

(** The verdict of the last of a list of successful samples. *)
Definition last_verdict (l : list (float * Judges.reply)) : string :=
  match rev l with
  | [] => ""
  | (_, r) :: _ => Judges.get_verdict r
  end.

(** The verdict the sampling loop holds after a list of successful samples,
    when it held [v] before them. *)
Definition verdict_after (ir : bool) (v : string)
    (l : list (float * Judges.reply)) : string :=
  fold_left (fun v p => if ir then Judges.get_verdict (snd p) else v) l v.

(** A service that answers the requests 0, 1, 2, ... with the given scores
    and no verdict, and 0.0 afterwards. *)
Definition scoring (scores : list float) : Judges.world :=
  {| Judges.client_error := None;
     Judges.service := fun n =>
       Judges.Parsed (Judges.Reply (Some (Judges.Numeric (nth n scores 0%float))) None) |}.

(** A service whose replies to the requests 0, 1 and 2 score 0.5 and carry
    the verdicts "first", "second" and "third"; later replies are not JSON. *)
Definition three_verdicts : Judges.world :=
  {| Judges.client_error := None;
     Judges.service := fun n =>
       match n with
       | 0 => Judges.Parsed (Judges.Reply (Some (Judges.Numeric 0.5)) (Some "first"))
       | 1 => Judges.Parsed (Judges.Reply (Some (Judges.Numeric 0.5)) (Some "second"))
       | 2 => Judges.Parsed (Judges.Reply (Some (Judges.Numeric 0.5)) (Some "third"))
       | _ => Judges.NotJson
       end |}.

(** A service whose first reply has a verdict and no score and whose later
    replies score 0.7. *)
Definition score_missing_once : Judges.world :=
  {| Judges.client_error := None;
     Judges.service := fun n =>
       match n with
       | 0 => Judges.Parsed (Judges.Reply None (Some "looks fine"))
       | _ => Judges.Parsed (Judges.Reply (Some (Judges.Numeric 0.7)) None)
       end |}.

(** A service whose replies score an integer that no float holds, such as
    a 1 followed by 400 zeros, which [json.loads] reads as an [int]. *)
Definition integer_beyond_floats : Judges.world :=
  {| Judges.client_error := None;
     Judges.service := fun _ =>
       Judges.Parsed
         (Judges.Reply
            (Some (Judges.IntTooLarge "int too large to convert to float"))
            (Some "fully supported")) |}.

(** A service whose replies score the text "high". *)
Definition text_score : Judges.world :=
  {| Judges.client_error := None;
     Judges.service := fun _ =>
       Judges.Parsed
         (Judges.Reply
            (Some (Judges.NotNumericText
                     "could not convert string to float: 'high'"))
            (Some "fully supported")) |}.

(** A service whose first reply scores 0.9 and whose later replies are not
    JSON. *)
Definition one_good_reply : Judges.world :=
  {| Judges.client_error := None;
     Judges.service := fun n =>
       match n with
       | 0 => Judges.Parsed (Judges.Reply (Some (Judges.Numeric 0.9)) None)
       | _ => Judges.NotJson
       end |}.

End Protocol.

(** ** The results of [compute_metrics], in the words of its description *)

Module MetricsSpec.

(** A metric the registry knows. *)
Definition known (name : string) : bool := Dict.mem name Metrics.METRIC_REGISTRY.

(** The keys a loop over [names] leaves in a dictionary that had the keys
    [ks]: each known name once, where it came first. *)
Definition keys_after (names ks : list string) : list string :=
  fold_left
    (fun ks name =>
       if known name && negb (existsb (String.eqb name) ks)
       then ks ++ [name] else ks)
    names ks.

(** The entry of a metric whose judge failed: score 0.0, no samples and a
    reason made of a prefix and the text of the error. *)
Definition failed_entry (prefix text : string) : Metrics.metric_result :=
  {| Metrics.score := 0;
     Metrics.reason := prefix ++ text;
     Metrics.samples := [] |}.


(** A world in which no client can be built: every judge raises. *)
Definition no_client : Judges.world :=
  {| Judges.client_error := Some "The api_key client option must be set";
     Judges.service := fun _ => Judges.NotJson |}.

(** A service whose first three replies are not JSON and whose later replies
    score 0.9: the first judge of a record gives up, the next ones succeed. *)
Definition first_judge_fails : Judges.world :=
  {| Judges.client_error := None;
     Judges.service := fun n =>
       if Nat.ltb n 3 then Judges.NotJson
       else Judges.Parsed (Judges.Reply (Some (Judges.Numeric 0.9)) None) |}.

End MetricsSpec.

(** ** The summary, in the words of its description *)

Module ReportingSpec.



(** The scores of a metric over all the records, 0.0 standing for the score
    of a record that lacks the metric. *)
Definition scores_or_zero (metric_name : string)
    (results : list Reporting.eval_record) : list float :=
  map (Reporting.metric_score metric_name) results.

(** No key is NaN, the one float that no comparison orders. *)
Definition comparable {A : Type} (key : A -> float) (l : list A) : bool :=
  forallb (fun r => (key r =? key r)%float) l.

(** The items of [l] with the key [k], in the order of [l]. *)
Definition with_key {A : Type} (key : A -> float) (k : float) (l : list A)
    : list A :=
  filter (fun r => (key r =? k)%float) l.

(** [chosen] is the [n] items of [l] with the lowest keys (all of them when
    [l] has no more than [n]), in ascending order, items with the same key
    being in the order of [l]: [chosen] begins a rearrangement of [l] that is
    ascending and keeps that order. *)
Definition lowest_first {A : Type} (key : A -> float) (n : nat)
    (l chosen : list A) : Prop :=
  List.length chosen = Nat.min n (List.length l)
  /\ exists others,
       Permutation (chosen ++ others) l
       /\ StronglySorted (fun a b => (key a <=? key b)%float = true)
            (chosen ++ others)
       /\ forall k, with_key key k (chosen ++ others) = with_key key k l.




(** The score a record is ranked with for a metric: the score of its first
    entry under the name of the metric, and 0.0 for a record that has no
    such entry. *)
Definition rank_score (metric_name : string) (r : ReportFile.line) : float :=
  match find (fun entry => String.eqb (fst entry) metric_name)
          (ReportFile.metrics r) with
  | Some entry => Metrics.score (snd entry)
  | None => 0%float
  end.

(** The record has a score for the metric. *)
Definition has_metric (metric_name : string) (r : ReportFile.line) : bool :=
  existsb (fun entry => String.eqb (fst entry) metric_name)
    (ReportFile.metrics r).

(** The text of the answer of a line, cut to 200 characters. *)
Definition answer_shown (r : ReportFile.line) : option string :=
  option_map (substring 0 200) (ReportFile.answer r).

(** The line of a record with the given scores of its metrics and overall
    score, an answer and no token data. *)
Definition line_of (name : string) (metric_scores : list (string * float))
    (overall : float) : ReportFile.line :=
  {| ReportFile.record_id := name;
     ReportFile.question := "question of " ++ name;
     ReportFile.answer := Some ("answer to " ++ name)%string;
     ReportFile.metrics :=
       map (fun ms => (fst ms, Metrics.MetricResult (snd ms) "" [snd ms]))
         metric_scores;
     ReportFile.overall_score := overall;
     ReportFile.tokens :=
       TokenUsage.Row TokenUsage.Null TokenUsage.Null TokenUsage.Null |}.

(** The lines of two records that do not share a metric: the first has the
    metric [a] alone, the second the metric [b] alone. *)
Definition two_metrics_lines : list ReportFile.line :=
  [line_of "r1" [("a", 0.8%float)] 0.8; line_of "r2" [("b", 0.6%float)] 0.6].

(** The lines of three records, the first and the last with the same
    scores. *)
Definition three_lines : list ReportFile.line :=
  [line_of "r1" [("correctness", 0.5%float)] 0.5;
   line_of "r2" [("correctness", 0.25%float)] 0.25;
   line_of "r3" [("correctness", 0.5%float)] 0.5].

(** The lines of four records whose scores of [correctness] are not in the
    order of their overall scores. *)
Definition four_lines : list ReportFile.line :=
  [line_of "r1" [("correctness", 0.9%float)] 0.5;
   line_of "r2" [("correctness", 0.5%float)] 0.25;
   line_of "r3" [("correctness", 0.5%float)] 0.5;
   line_of "r4" [("correctness", 0.1%float)] 0.9].


(** The answer of the line is a text. *)
Definition has_answer (r : ReportFile.line) : bool :=
  match ReportFile.answer r with Some _ => true | None => false end.



End ReportingSpec.

(** ** The run, in the words of its description *)

Module RunnerSpec.




Definition record (name : string) : Runner.DatasetRecord :=
  {| Runner.id := name; Runner.question := "question of " ++ name;
     Runner.expected_answer := "" |}.









End RunnerSpec.

(** * Contexts, prompts, token usage and run folders *)

(** ** rag_app/utils.py *)

Module Utils.

(** [text[:stop]]: a negative [stop] counts from the end. *)
Definition slice_to (stop : Z) (text : string) : string :=
  if (0 <=? stop)%Z
  then substring 0 (Z.to_nat stop) text
  else substring 0 (Z.to_nat (Z.of_nat (String.length text) + stop)) text.

Definition truncate_text (text : string) (max_length : Z) : string :=
  if (Z.of_nat (String.length text) <=? max_length)%Z
  then text
  else slice_to max_length text ++ "...".

End Utils.

(** ** The contexts of a record, in eval/runner.py *)

Module RunnerContexts.

Definition MAX_CONTEXT_CHARS : Z := 1500.

(** The contexts given to the metrics: the first [max_contexts_for_eval],
    all of them when that setting is 0. *)
Definition contexts_for_eval (settings : Judges.Settings)
    (contexts : list string) : list string :=
  match Judges.max_contexts_for_eval settings with
  | 0 => contexts
  | S k => firstn (S k) contexts
  end.

(** The contexts written in the line of the record. *)
Definition persisted_contexts (contexts : list string) : list string :=
  map (fun ctx => Utils.truncate_text ctx MAX_CONTEXT_CHARS) contexts.

End RunnerContexts.

(** ** Scores within bounds *)

Module Bounds.

(** A float from 0 to 1 (so not NaN). *)
Definition unit_interval (x : float) : Prop :=
  (0 <=? x)%float = true /\ (x <=? 1)%float = true.

(** A service whose replies score NaN, 7.5 and -2, in turn. *)
Definition wild_scores : Judges.world :=
  Protocol.scoring [nan; 7.5; -2]%float.

End Bounds.

(** ** rag_app/prompt_manager.py

    A prompt is a JSON object read through [get]: a key that is missing and
    a key that holds null are the same.  A file of prompts is missing, or
    does not load as JSON, or holds a list of prompts.  The clock and the
    success of a write are given from outside: a write that fails is one
    whose file cannot be opened for writing, which leaves the file as it
    was. *)

Module PromptManager.

Record prompt : Type := Prompt {
  title : option string;
  content : option string;
  description : option string;
  created_at : option string;
  modified_at : option string;
  metric : option string;
  type : option string
}.

Inductive file : Type :=
| Missing
| Unreadable
| Stored (prompts : list prompt).

Record storage : Type := Storage {
  rag_prompts_file : file;
  eval_prompts_file : file
}.

(** [self._rag_prompts_file if category == "rag" else
     self._eval_prompts_file] *)
Definition file_of (st : storage) (category : string) : file :=
  if String.eqb category "rag" then rag_prompts_file st
  else eval_prompts_file st.

(** Writing the list [prompts] in the file of [category]. *)
Definition write (st : storage) (category : string) (prompts : list prompt)
    : storage :=
  if String.eqb category "rag"
  then {| rag_prompts_file := Stored prompts;
          eval_prompts_file := eval_prompts_file st |}
  else {| rag_prompts_file := rag_prompts_file st;
          eval_prompts_file := Stored prompts |}.

Definition list_prompts (st : storage) (category : string) : list prompt :=
  match file_of st category with
  | Stored prompts => prompts
  | Missing | Unreadable => []
  end.

Definition option_eqb (a b : option string) : bool :=
  match a, b with
  | Some x, Some y => String.eqb x y
  | None, None => true
  | _, _ => false
  end.

(** The test the three methods share: title and metric for the category
    "eval", the title alone for any other. *)
Definition matches (category title : string) (metric : option string)
    (p : prompt) : bool :=
  if String.eqb category "eval"
  then option_eqb (PromptManager.title p) (Some title)
       && option_eqb (PromptManager.metric p) metric
  else option_eqb (PromptManager.title p) (Some title).

Definition get_prompt (st : storage) (category title : string)
    (metric : option string) : option string :=
  match find (matches category title metric) (list_prompts st category) with
  | Some p => content p
  | None => None
  end.

(** The first index at which [f] holds. *)
Fixpoint index_of {A : Type} (f : A -> bool) (l : list A) : option nat :=
  match l with
  | [] => None
  | x :: l' =>
      if f x then Some 0
      else match index_of f l' with Some i => Some (S i) | None => None end
  end.

(** [prompts[i] = p] *)
Fixpoint replace_at {A : Type} (i : nat) (x : A) (l : list A) : list A :=
  match l, i with
  | [], _ => []
  | _ :: l', 0 => x :: l'
  | y :: l', S i' => y :: replace_at i' x l'
  end.

(** [new_prompt], with the two dates it is given. *)
Definition new_prompt (category title content description : string)
    (metric : option string) (prompt_type : string)
    (created modified : option string) : prompt :=
  {| title := Some title;
     content := Some content;
     description := Some description;
     created_at := created;
     modified_at := modified;
     metric := if String.eqb category "rag" then None else metric;
     type := if String.eqb category "rag" then Some prompt_type else None |}.

(** The list [save_prompt] writes: the prompt takes the place of the first
    one that matches, whose creation date it keeps, or goes last.  [now] is
    the reading of the clock the written prompt keeps: the one of
    [created_at] for a new prompt, the later one of [modified_at] for a
    prompt that takes the place of another. *)
Definition saved_prompts (now : string) (prompts : list prompt)
    (category title content description : string) (metric : option string)
    (prompt_type : string) : list prompt :=
  match index_of (matches category title metric) prompts with
  | Some existing_index =>
      replace_at existing_index
        (new_prompt category title content description metric prompt_type
           match nth_error prompts existing_index with
           | Some old => created_at old
           | None => None
           end
           (Some now))
        prompts
  | None =>
      prompts
      ++ [new_prompt category title content description metric prompt_type
            (Some now) None]
  end.

(** [save_prompt]: what it returns and the storage it leaves. *)
Definition save_prompt (st : storage) (writable : bool) (now : string)
    (category title content description : string) (metric : option string)
    (prompt_type : string) : bool * storage :=
  let prompts :=
    saved_prompts now (list_prompts st category) category title content
      description metric prompt_type in
  if writable then (true, write st category prompts) else (false, st).

Definition delete_prompt (st : storage) (writable : bool)
    (category title : string) (metric : option string) : bool * storage :=
  let prompts := list_prompts st category in
  let filtered :=
    filter (fun p => negb (matches category title metric p)) prompts in
  if Nat.eqb (List.length filtered) (List.length prompts) then (false, st)
  else if writable then (true, write st category filtered)
  else (false, st).

End PromptManager.

(** ** The prompt of a judge, in eval/judges.py *)

Module JudgePrompts.

(** The template a judge formats: the one it is given, else the prompt of
    the library under the configured title for its metric, else, when
    there is none or it is empty, the built-in template. *)
Definition prompt_template_for (st : PromptManager.storage)
    (prompt_title metric default_template : string)
    (prompt_template : option string) : string :=
  match prompt_template with
  | Some template => template
  | None =>
      match PromptManager.get_prompt st "eval" prompt_title (Some metric) with
      | Some "" | None => default_template
      | Some template => template
      end
  end.

End JudgePrompts.

(** ** api/routers/prompts.py *)

Module PromptsRouter.

(** The answer of an endpoint: the status code of the response. *)
Definition in_categories (category : string) : bool :=
  String.eqb category "rag" || String.eqb category "eval".

(** [delete_prompt]: the status code and the storage it leaves. *)
Definition delete_prompt (st : PromptManager.storage) (writable : bool)
    (category title : string) (metric : option string)
    : nat * PromptManager.storage :=
  if negb (in_categories category) then (400, st)
  else if String.eqb title "Default v1.0" then (400, st)
  else
    match PromptManager.delete_prompt st writable category title metric with
    | (true, st') => (200, st')
    | (false, st') => (404, st')
    end.

(** [save_prompt]: the status code and the storage it leaves; a metric that
    is missing or empty is refused for the category "eval". *)
Definition save_prompt (st : PromptManager.storage) (writable : bool)
    (now : string) (category title content description : string)
    (metric : option string) (prompt_type : string)
    : nat * PromptManager.storage :=
  if negb (in_categories category) then (400, st)
  else if String.eqb category "eval"
          && match metric with Some "" | None => true | Some _ => false end
  then (400, st)
  else
    match PromptManager.save_prompt st writable now category title content
            description metric prompt_type with
    | (true, st') => (200, st')
    | (false, st') => (500, st')
    end.

End PromptsRouter.

(** ** The prompt library, in the words of its users *)

Module PromptSpec.

(** Two keys name the same prompt of a category: the same title, and for
    the category "eval" the same metric. *)
Definition same_key (category title : string) (metric : option string)
    (title' : string) (metric' : option string) : bool :=
  if String.eqb category "eval"
  then String.eqb title title' && PromptManager.option_eqb metric metric'
  else String.eqb title title'.

(** The first prompt of a category stored under a key. *)
Definition lookup (st : PromptManager.storage) (category title : string)
    (metric : option string) : option PromptManager.prompt :=
  find (PromptManager.matches category title metric)
    (PromptManager.list_prompts st category).

(** The two categories do not share a file. *)
Definition same_file (category category' : string) : bool :=
  Bool.eqb (String.eqb category "rag") (String.eqb category' "rag").

(** A library with a default prompt and a custom one for [correctness]. *)
Definition library : PromptManager.storage :=
  {| PromptManager.rag_prompts_file := PromptManager.Missing;
     PromptManager.eval_prompts_file :=
       PromptManager.Stored
         [ PromptManager.Prompt (Some "Default v1.0") (Some "default text")
             (Some "") (Some "2024-01-01") None (Some "correctness") None;
           PromptManager.Prompt (Some "Strict") (Some "strict text")
             (Some "") (Some "2024-02-02") None (Some "correctness") None ] |}.

End PromptSpec.

(** ** The names of the run folders *)

Module RunNames.

(** [s.split(sep, maxsplit)] for a separator of one character. *)
Fixpoint split (sep : ascii) (maxsplit : nat) (s : string) : list string :=
  match s with
  | EmptyString => [EmptyString]
  | String c s' =>
      match maxsplit with
      | S maxsplit' =>
          if Ascii.eqb c sep then EmptyString :: split sep maxsplit' s'
          else match split sep maxsplit s' with
               | part :: parts => String c part :: parts
               | [] => [String c EmptyString]
               end
      | 0 => [s]
      end
  end.

(** The name [create_run_folder] gives the folder, in eval/runner.py, from
    the text of the clock in the format [%Y%m%d_%H%M%S]: a run name that is
    [None] or empty adds nothing. *)
Definition folder_name (timestamp : string) (run_name : option string)
    : string :=
  match run_name with
  | Some (String c name) => (timestamp ++ "_" ++ String c name)%string
  | Some EmptyString | None => timestamp
  end.

(** The timestamp and the run name [list_runs] reads from the name of a
    folder without metadata, in api/routers/eval_router.py. *)
Definition parse_run_id (run_id : string) : string * string :=
  match split "_" 2 run_id with
  | date :: time :: name :: _ => ((date ++ "_" ++ time)%string, name)
  | _ => (EmptyString, run_id)
  end.

(** A text without the character [c]. *)
Fixpoint without (c : ascii) (s : string) : bool :=
  match s with
  | EmptyString => true
  | String c' s' => negb (Ascii.eqb c' c) && without c s'
  end.

(** A text without underscore. *)
Definition no_underscore (s : string) : bool := without "_" s.

(** A text without the separator of paths. *)
Definition no_slash (s : string) : bool := without "/" s.

(** The components [pathlib] reads in a relative path: the text is cut at
    each "/", and the components that are empty or "." are dropped. *)
Definition components (path : string) : list string :=
  filter (fun c => negb (String.eqb c "" || String.eqb c "."))
    (split "/" (String.length path) path).

(** [Path("storage/runs") / folder_name], by its components: the folder
    [create_run_folder] creates, with the folders above it, when the file
    system takes the name. *)
Definition create_run_folder (timestamp : string) (run_name : option string)
    : list string :=
  ["storage"; "runs"] ++ components (folder_name timestamp run_name).

(** [run_dir.name] for the folders [list_runs] finds: the entries of
    [storage/runs], so the component that follows these two. *)
Definition listed_run_id (path : list string) : string :=
  nth 2 path EmptyString.

End RunNames.

(** ** The sources of an answer, in rag_app/rag.py *)

Module Rag.

(** A retrieved node, with the metadata the sources read. *)
Record node : Type := Node {
  text : string;
  source_path : option string;
  category : option string;
  node_score : float
}.

Record source : Type := Source {
  src_source_path : string;
  src_category : string;
  rank : nat;
  score : float;
  snippet : string
}.

(** [node.metadata.get(key, "unknown")] *)
Definition or_unknown (v : option string) : string :=
  match v with Some s => s | None => "unknown" end.

(** The list of sources, [rank] being the rank of the head of [nodes]. *)
Fixpoint sources_from (rank : nat) (nodes : list node) : list source :=
  match nodes with
  | [] => []
  | n :: nodes' =>
      {| src_source_path := or_unknown (source_path n);
         src_category := or_unknown (category n);
         rank := rank;
         score := node_score n;
         snippet := Utils.truncate_text (text n) 200 |}
      :: sources_from (S rank) nodes'
  end.

(** [sources], by [enumerate(nodes, 1)]. *)
Definition sources (nodes : list node) : list source := sources_from 1 nodes.

(** [contexts] *)
Definition contexts (nodes : list node) : list string := map text nodes.

End Rag.

(** ** The default prompts, in rag_app/prompt_manager.py *)

Module PromptDefaults.

(** The list [_initialize_eval_defaults] writes; [template] gives the
    built-in template of a metric (the constants of eval/prompts.py) and
    [clock] the successive readings of the clock. *)
Definition eval_defaults (template : string -> string) (clock : nat -> string)
    : list PromptManager.prompt :=
  [ {| PromptManager.title := Some "Default v1.0";
       PromptManager.content := Some (template "contextual_precision");
       PromptManager.description :=
         Some "Baseline contextual precision judge - evaluates relevance and ranking";
       PromptManager.created_at := Some (clock 0);
       PromptManager.modified_at := None;
       PromptManager.metric := Some "contextual_precision";
       PromptManager.type := None |};
    {| PromptManager.title := Some "Default v1.0";
       PromptManager.content := Some (template "contextual_relevance");
       PromptManager.description :=
         Some "Baseline contextual relevance judge - evaluates if contexts contain necessary information";
       PromptManager.created_at := Some (clock 1);
       PromptManager.modified_at := None;
       PromptManager.metric := Some "contextual_relevance";
       PromptManager.type := None |};
    {| PromptManager.title := Some "Default v1.0";
       PromptManager.content := Some (template "correctness");
       PromptManager.description :=
         Some "Baseline correctness judge - evaluates if answer matches expected answer";
       PromptManager.created_at := Some (clock 2);
       PromptManager.modified_at := None;
       PromptManager.metric := Some "correctness";
       PromptManager.type := None |};
    {| PromptManager.title := Some "Default v1.0";
       PromptManager.content := Some (template "faithfulness");
       PromptManager.description :=
         Some "Baseline faithfulness judge - evaluates if answer is grounded in contexts";
       PromptManager.created_at := Some (clock 3);
       PromptManager.modified_at := None;
       PromptManager.metric := Some "faithfulness";
       PromptManager.type := None |} ].

(** The list [_initialize_rag_defaults] writes. *)
Definition rag_defaults (system_prompt now : string)
    : list PromptManager.prompt :=
  [ {| PromptManager.title := Some "Default v1.0";
       PromptManager.content := Some system_prompt;
       PromptManager.description :=
         Some "Baseline RAG system prompt - cite sources, stay within context";
       PromptManager.created_at := Some now;
       PromptManager.modified_at := None;
       PromptManager.metric := None;
       PromptManager.type := Some "system" |} ].

(** [PromptManager.__init__]: a file that does not exist is created with
    its defaults, the file of the RAG prompts first; a file that exists is
    left as it is. *)
Definition init (st : PromptManager.storage) (system_prompt : string)
    (template : string -> string) (rag_now : string) (clock : nat -> string)
    : PromptManager.storage :=
  {| PromptManager.rag_prompts_file :=
       match PromptManager.rag_prompts_file st with
       | PromptManager.Missing =>
           PromptManager.Stored (rag_defaults system_prompt rag_now)
       | f => f
       end;
     PromptManager.eval_prompts_file :=
       match PromptManager.eval_prompts_file st with
       | PromptManager.Missing =>
           PromptManager.Stored (eval_defaults template clock)
       | f => f
       end |}.

(** The titles the settings give the judges by default. *)
Definition default_eval_prompt_title : string := "Default v1.0".

End PromptDefaults.

(** * Proofs *)

(** ** The order of floats *)

Ltac compare_cases :=
  repeat match goal with
  | H : context [Z.compare ?a ?b] |- _ => destruct (Z.compare_spec a b); subst
  | |- context [Z.compare ?a ?b] => destruct (Z.compare_spec a b); subst
  | H : context [Pos.compare ?a ?b] |- _ => destruct (Pos.compare_spec a b); subst
  | |- context [Pos.compare ?a ?b] => destruct (Pos.compare_spec a b); subst
  end.

Ltac sf_order :=
  simpl; try congruence; intros;
  change PosDef.Pos.compare_cont with Pos.compare_cont in *;
  repeat match goal with
  | H : context [Pos.compare_cont Eq ?a ?b] |- _ =>
      change (Pos.compare_cont Eq a b) with (Pos.compare a b) in H
  | |- context [Pos.compare_cont Eq ?a ?b] =>
      change (Pos.compare_cont Eq a b) with (Pos.compare a b)
  end;
  compare_cases; simpl in *; try congruence; try lia.

Ltac sf_cases a b c :=
  destruct a as [[]|[]| |[] ?m ?e], b as [[]|[]| |[] ?m ?e],
           c as [[]|[]| |[] ?m ?e]; sf_order.

Lemma SFcompare_lt_trans (a b c : spec_float) :
  SFcompare a b = Some Lt -> SFcompare b c = Some Lt -> SFcompare a c = Some Lt.
Proof. sf_cases a b c. Qed.

Lemma SFcompare_lt_eq (a b c : spec_float) :
  SFcompare a b = Some Lt -> SFcompare b c = Some Eq -> SFcompare a c = Some Lt.
Proof. sf_cases a b c. Qed.

Lemma SFcompare_eq_lt (a b c : spec_float) :
  SFcompare a b = Some Eq -> SFcompare b c = Some Lt -> SFcompare a c = Some Lt.
Proof. sf_cases a b c. Qed.

Lemma SFcompare_eq_trans (a b c : spec_float) :
  SFcompare a b = Some Eq -> SFcompare b c = Some Eq -> SFcompare a c = Some Eq.
Proof. sf_cases a b c. Qed.

Lemma SFcompare_gt_lt (a b : spec_float) :
  SFcompare a b = Some Gt -> SFcompare b a = Some Lt.
Proof.
  destruct a as [[]|[]| |[] ?m ?e], b as [[]|[]| |[] ?m ?e]; sf_order.
Qed.

Lemma SFcompare_none (a b : spec_float) :
  SFcompare a b = None -> SFcompare a a = None \/ SFcompare b b = None.
Proof.
  destruct a as [[]|[]| |[] ?m ?e], b as [[]|[]| |[] ?m ?e]; simpl; auto;
    discriminate.
Qed.

Lemma ltb_leb (a b : float) : (a <? b)%float = true -> (a <=? b)%float = true.
Proof.
  rewrite FloatAxioms.ltb_spec, FloatAxioms.leb_spec. unfold SFltb, SFleb.
  now destruct (SFcompare (Prim2SF a) (Prim2SF b)) as [[]|].
Qed.

Lemma leb_trans (a b c : float) :
  (a <=? b)%float = true -> (b <=? c)%float = true -> (a <=? c)%float = true.
Proof.
  rewrite !FloatAxioms.leb_spec. unfold SFleb.
  destruct (SFcompare (Prim2SF a) (Prim2SF b)) as [[]|] eqn:E1; try discriminate;
  destruct (SFcompare (Prim2SF b) (Prim2SF c)) as [[]|] eqn:E2; try discriminate;
  intros _ _.
  - now rewrite (SFcompare_eq_trans _ _ _ E1 E2).
  - now rewrite (SFcompare_eq_lt _ _ _ E1 E2).
  - now rewrite (SFcompare_lt_eq _ _ _ E1 E2).
  - now rewrite (SFcompare_lt_trans _ _ _ E1 E2).
Qed.

(** Of two floats that are not NaN, one that is not above is below or equal. *)
Lemma not_ltb_leb (a b : float) :
  (a =? a)%float = true -> (b =? b)%float = true ->
  (b <? a)%float = false -> (a <=? b)%float = true.
Proof.
  rewrite !FloatAxioms.eqb_spec, FloatAxioms.ltb_spec, FloatAxioms.leb_spec.
  unfold SFeqb, SFltb, SFleb. intros Ha Hb H.
  destruct (SFcompare (Prim2SF b) (Prim2SF a)) as [[]|] eqn:E; try discriminate.
  - destruct (SFcompare (Prim2SF a) (Prim2SF b)) as [[]|] eqn:E'; try reflexivity.
    + apply SFcompare_gt_lt in E'. congruence.
    + destruct (SFcompare_none _ _ E') as [K|K]; rewrite K in *; discriminate.
  - now rewrite (SFcompare_gt_lt _ _ E).
  - destruct (SFcompare_none _ _ E) as [K|K]; rewrite K in *; discriminate.
Qed.

(** A float below another is not equal to what that one is equal to. *)
Lemma ltb_eqb_false (a b c : float) :
  (a <? b)%float = true -> (b =? c)%float = true -> (a =? c)%float = false.
Proof.
  rewrite FloatAxioms.ltb_spec, !FloatAxioms.eqb_spec. unfold SFltb, SFeqb.
  destruct (SFcompare (Prim2SF a) (Prim2SF b)) as [[]|] eqn:E1; try discriminate.
  destruct (SFcompare (Prim2SF b) (Prim2SF c)) as [[]|] eqn:E2; try discriminate.
  intros _ _. now rewrite (SFcompare_lt_eq _ _ _ E1 E2).
Qed.

(** ** Dictionaries *)

Section DictFacts.
Context {V : Type}.
Implicit Types (d : dict V) (k : string) (v : V).

Lemma get_set_eq k v d : Dict.get k (Dict.set k v d) = Some v.
Proof.
  induction d as [|[k' v'] d IH]; simpl.
  - now rewrite String.eqb_refl.
  - destruct (String.eqb k k') eqn:E; simpl.
    + now rewrite String.eqb_refl.
    + now rewrite E.
Qed.

Lemma get_set_ne k k' v d : k <> k' -> Dict.get k' (Dict.set k v d) = Dict.get k' d.
Proof.
  intros Hne. induction d as [|[k0 v0] d IH]; simpl.
  - destruct (String.eqb k' k) eqn:E; [|reflexivity].
    apply String.eqb_eq in E. congruence.
  - destruct (String.eqb k k0) eqn:E; simpl.
    + apply String.eqb_eq in E. subst k0.
      destruct (String.eqb k' k) eqn:E'; [|reflexivity].
      apply String.eqb_eq in E'. congruence.
    + now rewrite IH.
Qed.

Lemma mem_keys k d : Dict.mem k d = existsb (String.eqb k) (Dict.keys d).
Proof.
  unfold Dict.mem. induction d as [|[k' v'] d IH]; simpl; [reflexivity|].
  destruct (String.eqb k k'); simpl; [reflexivity | exact IH].
Qed.

Lemma mem_In k d : Dict.mem k d = true <-> In k (Dict.keys d).
Proof.
  rewrite mem_keys, existsb_exists. split.
  - intros (x & Hx & E). apply String.eqb_eq in E. now subst.
  - intros H. exists k. split; [exact H | apply String.eqb_refl].
Qed.

Lemma keys_set k v d :
  Dict.keys (Dict.set k v d)
  = if Dict.mem k d then Dict.keys d else Dict.keys d ++ [k].
Proof.
  unfold Dict.mem. induction d as [|[k' v'] d IH]; simpl; [reflexivity|].
  destruct (String.eqb k k') eqn:E; simpl.
  - apply String.eqb_eq in E. now subst.
  - rewrite IH. now destruct (Dict.get k d).
Qed.

End DictFacts.

(** ** Sorting by a key *)

Section SortedFacts.
Context {A : Type} (key : A -> float).

Lemma insert_perm (x : A) (l : list A) : Permutation (Py.insert key x l) (x :: l).
Proof.
  induction l as [|y l IH]; simpl; [reflexivity|].
  destruct (key y <? key x)%float; [|reflexivity].
  rewrite IH. apply perm_swap.
Qed.

Lemma sorted_perm (l : list A) : Permutation (Py.sorted key l) l.
Proof.
  induction l as [|x l IH]; simpl; [reflexivity|].
  rewrite insert_perm. now constructor.
Qed.

Lemma sorted_length (l : list A) : List.length (Py.sorted key l) = List.length l.
Proof. apply Permutation_length, sorted_perm. Qed.

Lemma comparable_perm (l l' : list A) :
  Permutation l l' ->
  ReportingSpec.comparable key l = true -> ReportingSpec.comparable key l' = true.
Proof.
  unfold ReportingSpec.comparable. rewrite !forallb_forall. intros P H x Hx.
  apply H. now apply (Permutation_in _ (Permutation_sym P)).
Qed.

Abbreviation ascending :=
  (StronglySorted (fun a b => (key a <=? key b)%float = true)).

Lemma insert_ascending (x : A) (l : list A) :
  (key x =? key x)%float = true ->
  ReportingSpec.comparable key l = true ->
  ascending l -> ascending (Py.insert key x l).
Proof.
  intros Hx. induction l as [|y l IH]; intros Hc Hs; simpl.
  - repeat constructor.
  - simpl in Hc. apply andb_true_iff in Hc. destruct Hc as [Hy Hc].
    inversion Hs as [|? ? Hs' Hall]; subst.
    destruct (key y <? key x)%float eqn:E.
    + constructor; [now apply IH|].
      rewrite Forall_forall. intros z Hz.
      apply (Permutation_in _ (insert_perm x l)) in Hz. destruct Hz as [<-|Hz].
      * now apply ltb_leb.
      * rewrite Forall_forall in Hall. now apply Hall.
    + assert (Hxy : (key x <=? key y)%float = true) by now apply not_ltb_leb.
      constructor; [exact Hs|].
      constructor; [exact Hxy|].
      rewrite Forall_forall in *. intros z Hz.
      apply (leb_trans _ _ _ Hxy). now apply Hall.
Qed.

Lemma sorted_ascending (l : list A) :
  ReportingSpec.comparable key l = true -> ascending (Py.sorted key l).
Proof.
  induction l as [|x l IH]; simpl; intros Hc; [constructor|].
  apply andb_true_iff in Hc. destruct Hc as [Hx Hc].
  apply insert_ascending; auto.
  apply (comparable_perm l); [symmetry; apply sorted_perm | exact Hc].
Qed.

(** Stability: an item goes in front of the items with its key. *)
Lemma insert_with_key (k : float) (x : A) (l : list A) :
  ReportingSpec.with_key key k (Py.insert key x l)
  = ReportingSpec.with_key key k (x :: l).
Proof.
  unfold ReportingSpec.with_key.
  induction l as [|y l IH]; simpl; [reflexivity|].
  destruct (key y <? key x)%float eqn:E; [|reflexivity].
  simpl. rewrite IH. simpl.
  destruct (key x =? k)%float eqn:Ex; [|reflexivity].
  now rewrite (ltb_eqb_false _ _ _ E Ex).
Qed.

Lemma sorted_with_key (k : float) (l : list A) :
  ReportingSpec.with_key key k (Py.sorted key l) = ReportingSpec.with_key key k l.
Proof.
  induction l as [|x l IH]; simpl; [reflexivity|].
  rewrite insert_with_key. unfold ReportingSpec.with_key in *. simpl.
  now rewrite IH.
Qed.

(** [nsmallest] picks the lowest keys first. *)
Lemma nsmallest_lowest_first (n : nat) (l : list A) :
  ReportingSpec.comparable key l = true ->
  ReportingSpec.lowest_first key n l (Py.nsmallest key n l).
Proof.
  intros Hc. unfold ReportingSpec.lowest_first, Py.nsmallest. split.
  - now rewrite length_firstn, sorted_length.
  - exists (skipn n (Py.sorted key l)). rewrite firstn_skipn.
    split; [apply sorted_perm|]. split; [now apply sorted_ascending|].
    intros k. apply sorted_with_key.
Qed.

(** With no more than [n] items, [nsmallest] is the whole sorted list. *)
Lemma nsmallest_all (n : nat) (l : list A) :
  List.length l <= n -> Py.nsmallest key n l = Py.sorted key l.
Proof.
  intros H. unfold Py.nsmallest. apply firstn_all2. now rewrite sorted_length.
Qed.

End SortedFacts.

(** ** The overall score *)

(** The list of the weighted scores of [compute_overall_score] is the map
    of the product over the matched weights. *)
Lemma weighted_matched (mr : dict Metrics.metric_result) (w : dict float) :
  flat_map (fun mw : string * float =>
              match Dict.get (fst mw) mr with
              | Some r => [(Metrics.score r * snd mw)%float]
              | None => []
              end) w
  = map (fun mw => (OverallSpec.score_of mr (fst mw) * snd mw)%float)
      (OverallSpec.matched mr w).
Proof.
  unfold OverallSpec.matched, OverallSpec.score_of, Dict.mem.
  induction w as [|[m x] w IH]; simpl; [reflexivity|].
  destruct (Dict.get m mr) as [r|] eqn:E; simpl.
  - rewrite E. now f_equal.
  - exact IH.
Qed.

Lemma weights_matched (mr : dict Metrics.metric_result) (w : dict float) :
  flat_map (fun mw : string * float =>
              if Dict.mem (fst mw) mr then [snd mw] else []) w
  = map snd (OverallSpec.matched mr w).
Proof.
  unfold OverallSpec.matched.
  induction w as [|[m x] w IH]; simpl; [reflexivity|].
  destruct (Dict.mem m mr); simpl; now rewrite IH.
Qed.

(** The code computes the score [OverallSpec.computed] describes. *)
Lemma compute_overall_score_computed (mr : dict Metrics.metric_result)
    (w : dict float) :
  Metrics.compute_overall_score mr w = OverallSpec.computed mr w.
Proof.
  unfold Metrics.compute_overall_score, OverallSpec.computed.
  destruct w as [|mw w].
  - reflexivity.
  - rewrite weighted_matched, weights_matched. reflexivity.
Qed.

(** C1, as stated, fails: with the weights {c: 1.0}, none of which matches a
    metric of the scores {a: 0.8, b: 0.6}, the description gives the
    unweighted mean 0.7 and the code returns 0.0. *)
Lemma overall_score_no_match_is_zero :
  OverallSpec.matched OverallSpec.scores_a_b OverallSpec.weights_c = []
  /\ OverallSpec.described OverallSpec.scores_a_b OverallSpec.weights_c
     = 0.7%float
  /\ Metrics.compute_overall_score OverallSpec.scores_a_b OverallSpec.weights_c
     = 0%float
  /\ Metrics.compute_overall_score OverallSpec.scores_a_b OverallSpec.weights_c
     <> OverallSpec.described OverallSpec.scores_a_b OverallSpec.weights_c.
Proof.
  repeat split; try (vm_compute; reflexivity).
  intro H.
  apply (f_equal (fun z => (z =? 0)%float)) in H.
  vm_compute in H. discriminate H.
Qed.

(** C1, amended: without weights the score is the unweighted mean of the
    present scores (0.0 when there is none); with weights it is
    Sigma(score * weight) / Sigma(weight) over the metrics present in both
    the results and the weights when that sum of weights is above 0, and 0.0
    when it is not, so 0.0 when no weight matches a present metric.  Over the
    scores {a: 0.8, b: 0.6} it is 0.7 without weights and 0.8 with the
    weights {a: 1.0}. *)
Theorem compute_overall_score_spec :
  (forall mr, Metrics.compute_overall_score mr [] = OverallSpec.unweighted_mean mr)
  /\ Metrics.compute_overall_score [] [] = 0%float
  /\ (forall mr w, w <> [] ->
        (0 <? OverallSpec.total_weight mr w)%float = true ->
        Metrics.compute_overall_score mr w = OverallSpec.weighted_mean mr w)
  /\ (forall mr w, w <> [] ->
        (0 <? OverallSpec.total_weight mr w)%float = false ->
        Metrics.compute_overall_score mr w = 0%float)
  /\ (forall mr w, w <> [] -> OverallSpec.matched mr w = [] ->
        Metrics.compute_overall_score mr w = 0%float)
  /\ Metrics.compute_overall_score OverallSpec.scores_a_b [] = 0.7%float
  /\ Metrics.compute_overall_score OverallSpec.scores_a_b [("a", 1%float)]
     = 0.8%float.
Proof.
  repeat split; try (vm_compute; reflexivity).
  - intros mr w Hw Hpos. rewrite compute_overall_score_computed.
    unfold OverallSpec.computed. destruct w; [congruence|]. now rewrite Hpos.
  - intros mr w Hw Hpos. rewrite compute_overall_score_computed.
    unfold OverallSpec.computed. destruct w; [congruence|]. now rewrite Hpos.
  - intros mr w Hw Hm. rewrite compute_overall_score_computed.
    unfold OverallSpec.computed, OverallSpec.total_weight.
    destruct w; [congruence|]. rewrite Hm. reflexivity.
Qed.

(** ** The judge invoker *)

(** The loop over [k] attempts stops at the first usable reply and returns
    it, and gives up after [k] attempts without one. *)
Lemma attempts_spec (w : Judges.world) (k n : nat) :
  match Judges.attempts w k n with
  | (Some r, n') =>
      exists j, j < k /\ n' = n + j + 1
                /\ Judges.service w (n + j) = Judges.Parsed r
                /\ Protocol.usable (Judges.Parsed r) = true
                /\ forall i, i < j -> Protocol.usable (Judges.service w (n + i)) = false
  | (None, n') =>
      n' = n + k
      /\ forall i, i < k -> Protocol.usable (Judges.service w (n + i)) = false
  end.
Proof.
  revert n. induction k as [|k IH]; intros n; simpl.
  - split; [lia | intros i Hi; lia].
  - assert (Hskip : Protocol.usable (Judges.service w n) = false ->
              match Judges.attempts w k (S n) with
              | (Some r, n') =>
                  exists j, j < S k /\ n' = n + j + 1
                    /\ Judges.service w (n + j) = Judges.Parsed r
                    /\ Protocol.usable (Judges.Parsed r) = true
                    /\ forall i, i < j ->
                         Protocol.usable (Judges.service w (n + i)) = false
              | (None, n') =>
                  n' = n + S k
                  /\ forall i, i < S k ->
                       Protocol.usable (Judges.service w (n + i)) = false
              end).
    { intros Hbad. specialize (IH (S n)).
      destruct (Judges.attempts w k (S n)) as [[r|] n'].
      - destruct IH as (j & Hj & Hn & Hs & Hu & Hbefore).
        exists (S j). repeat split; try lia.
        + now replace (n + S j) with (S n + j) by lia.
        + exact Hu.
        + intros [|i] Hi; [now rewrite Nat.add_0_r|].
          replace (n + S i) with (S n + i) by lia. apply Hbefore. lia.
      - destruct IH as (Hn & Hall). split; [lia|].
        intros [|i] Hi; [now rewrite Nat.add_0_r|].
        replace (n + S i) with (S n + i) by lia. apply Hall. lia. }
    destruct (Judges.service w n) as [| |r] eqn:Es; try (apply Hskip; reflexivity).
    destruct (Judges.reply_score r) as [v|] eqn:Ev.
    + exists 0. rewrite Nat.add_0_r. repeat split; try lia.
      * exact Es.
      * simpl. now rewrite Ev.
    + apply Hskip. simpl. now rewrite Ev.
Qed.

(** C7: the invoker sends at most 3 requests; it returns the first reply
    that parses as JSON and has a score field, right after receiving it, and
    returns null only after 3 attempts without such a reply.  (When the
    client cannot be built it raises before any request.) *)
Theorem call_judge_api_at_most_three_attempts (w : Judges.world) (n : nat) :
  match Judges._call_judge_api w Judges.max_retries_default n with
  | (Ok (Some r), n') =>
      exists j, j < 3 /\ n' = n + j + 1
                /\ Judges.service w (n + j) = Judges.Parsed r
                /\ Protocol.usable (Judges.Parsed r) = true
                /\ forall i, i < j -> Protocol.usable (Judges.service w (n + i)) = false
  | (Ok None, n') =>
      n' = n + 3
      /\ forall i, i < 3 -> Protocol.usable (Judges.service w (n + i)) = false
  | (Raised _, n') => Judges.client_error w <> None /\ n' = n
  end
  /\ snd (Judges._call_judge_api w Judges.max_retries_default n) <= n + 3.
Proof.
  unfold Judges._call_judge_api, Judges.max_retries_default.
  destruct (Judges.client_error w) as [msg|].
  - simpl. repeat split; [discriminate | lia].
  - pose proof (attempts_spec w 3 n) as H.
    destruct (Judges.attempts w 3 n) as [[r|] n']; simpl; split; try exact H.
    + destruct H as (j & Hj & Hn & _). lia.
    + destruct H as (Hn & _). lia.
Qed.

(** A reply without score is followed by a second request, whose reply is
    returned; no third request is sent. *)
Lemma call_judge_api_retries_once :
  Judges._call_judge_api Protocol.score_missing_once Judges.max_retries_default 0
  = (Ok (Some (Judges.Reply (Some (Judges.Numeric 0.7)) None)), 2).
Proof. reflexivity. Qed.

(** ** The metric protocol *)

(** One turn of the sampling loop, by what the invocation comes to. *)
Lemma sample_loop_step (w : Judges.world) (ir : bool) (todo sn : nat)
    (acc : list float) (v : string) (n : nat) :
  Judges.sample_loop w ir (S todo) sn acc v n
  = match Protocol.invoke w n with
    | (Protocol.Scored raw r, n') =>
        Judges.sample_loop w ir todo (S sn) (acc ++ [Judges.clamp raw])
          (if ir then Judges.get_verdict r else v) n'
    | (Protocol.Crashed e, n') => (Raised e, n')
    | (inv, n') =>
        match Protocol.failure_text sn inv with
        | Some msg => (Ok (Judges.error_result msg), n')
        | None => (Raised (Exn "" ""), n')
        end
    end.
Proof.
  unfold Protocol.invoke. simpl. unfold bind.
  destruct (Judges._call_judge_api w Judges.max_retries_default n)
    as [[[r|]|e] n']; try reflexivity.
  destruct (Judges.reply_score r) as [[f|msg|msg|msg]|]; reflexivity.
Qed.

Lemma verdict_after_enabled (v : string) (l : list (float * Judges.reply)) :
  Protocol.verdict_after true v l = match l with [] => v | _ => Protocol.last_verdict l end.
Proof.
  unfold Protocol.verdict_after, Protocol.last_verdict.
  destruct l as [|p l]; [reflexivity|].
  rewrite <- fold_left_rev_right.
  destruct (rev (p :: l)) as [|[raw r] t] eqn:E.
  - apply (f_equal (@List.length _)) in E. rewrite length_rev in E. discriminate.
  - reflexivity.
Qed.

(** When all the samples left succeed the loop returns their clamped scores
    after the ones it holds, and no error. *)
Lemma sample_loop_success (w : Judges.world) (ir : bool) :
  forall k sn acc v n l n',
    Protocol.successes w k n = Some (l, n') ->
    Judges.sample_loop w ir k sn acc v n
    = (Ok {| Judges.score :=
               Judges.average (acc ++ map Judges.clamp (map fst l));
             Judges.verdict := if ir then Protocol.verdict_after ir v l else "";
             Judges.samples := acc ++ map Judges.clamp (map fst l);
             Judges.error := None |}, n').
Proof.
  induction k as [|k IH]; intros sn acc v n l n' H.
  - simpl in H. injection H as <- <-. simpl. rewrite app_nil_r.
    unfold ret. now destruct ir.
  - rewrite sample_loop_step. simpl in H.
    destruct (Protocol.invoke w n) as [[raw r| |msg|e] n1]; try discriminate.
    destruct (Protocol.successes w k n1) as [[rest n2]|] eqn:E; try discriminate.
    injection H as <- <-.
    rewrite (IH _ _ _ _ _ _ E). simpl. rewrite <- !app_assoc. simpl.
    destruct ir; reflexivity.
Qed.

(** When a sample fails after [i] successful ones the loop returns the
    error result of that sample, whatever it holds and however many samples
    were left. *)
Lemma sample_loop_failure (w : Judges.world) (ir : bool) :
  forall i rest sn acc v n l ni inv n' msg,
    Protocol.successes w i n = Some (l, ni) ->
    Protocol.invoke w ni = (inv, n') ->
    Protocol.failure_text (sn + i) inv = Some msg ->
    Judges.sample_loop w ir (i + S rest) sn acc v n
    = (Ok (Judges.error_result msg), n').
Proof.
  induction i as [|i IH]; intros rest sn acc v n l ni inv n' msg Hs Hi Hf.
  - simpl in Hs. injection Hs as <- <-. simpl Nat.add.
    rewrite sample_loop_step, Hi. rewrite Nat.add_0_r in Hf.
    destruct inv; try (simpl in Hf; discriminate Hf); now rewrite Hf.
  - simpl Nat.add. rewrite sample_loop_step. simpl in Hs.
    destruct (Protocol.invoke w n) as [[raw r| |m|e] n1]; try discriminate.
    destruct (Protocol.successes w i n1) as [[tl n2]|] eqn:E; try discriminate.
    injection Hs as <- <-.
    apply (IH rest (S sn) _ _ n1 tl n2 inv n' msg E Hi).
    now replace (S sn + i) with (sn + S i) by lia.
Qed.

(** An exception inside a sample leaves the judge as it is. *)
Lemma sample_loop_crash (w : Judges.world) (ir : bool) :
  forall i rest sn acc v n l ni e n',
    Protocol.successes w i n = Some (l, ni) ->
    Protocol.invoke w ni = (Protocol.Crashed e, n') ->
    Judges.sample_loop w ir (i + S rest) sn acc v n = (Raised e, n').
Proof.
  induction i as [|i IH]; intros rest sn acc v n l ni e n' Hs Hi.
  - simpl in Hs. injection Hs as <- <-. simpl Nat.add.
    now rewrite sample_loop_step, Hi.
  - simpl Nat.add. rewrite sample_loop_step. simpl in Hs.
    destruct (Protocol.invoke w n) as [[raw r| |m|e0] n1]; try discriminate.
    destruct (Protocol.successes w i n1) as [[tl n2]|] eqn:E; try discriminate.
    injection Hs as <- <-.
    apply (IH rest (S sn) _ _ n1 tl n2 e n' E Hi).
Qed.

(** Either all [k] samples succeed or one of them is the first not to. *)
Lemma successes_or_first_other (w : Judges.world) :
  forall k n,
    (exists l n', Protocol.successes w k n = Some (l, n') /\ List.length l = k)
    \/ (exists i rest l ni inv n',
          k = i + S rest
          /\ Protocol.successes w i n = Some (l, ni)
          /\ Protocol.invoke w ni = (inv, n')
          /\ forall raw r, inv <> Protocol.Scored raw r).
Proof.
  induction k as [|k IH]; intros n.
  - left. exists [], n. split; reflexivity.
  - destruct (Protocol.invoke w n) as [inv n1] eqn:Ei.
    assert (Hstop : (forall raw r, inv <> Protocol.Scored raw r) ->
              exists i rest l ni inv n',
                S k = i + S rest
                /\ Protocol.successes w i n = Some (l, ni)
                /\ Protocol.invoke w ni = (inv, n')
                /\ forall raw r, inv <> Protocol.Scored raw r).
    { intros Hn. exists 0, k, [], n, inv, n1. repeat split; auto. }
    destruct inv as [raw r| |msg|e]; try (right; apply Hstop; discriminate).
    destruct (IH n1) as [(l & n' & Hs & Hl)|(i & rest & l & ni & inv & n' & Hk & Hs & Hi & Hn)].
    + left. exists ((raw, r) :: l), n'. simpl. rewrite Ei, Hs. split; [reflexivity|].
      simpl. now rewrite Hl.
    + right. exists (S i), rest, ((raw, r) :: l), ni, inv, n'.
      repeat split; auto.
      * simpl. now rewrite Hk.
      * simpl. now rewrite Ei, Hs.
Qed.

(** The four judges run the same protocol. *)
Lemma judges_share_protocol :
  Judges.judge_correctness = Judges.judge_contextual_precision
  /\ Judges.judge_faithfulness = Judges.judge_contextual_precision
  /\ Judges.judge_contextual_relevance = Judges.judge_contextual_precision.
Proof. repeat split. Qed.

(** *** Clamping *)

Lemma clamp_bounds (x : float) :
  (0 <=? Judges.clamp x)%float = true /\ (Judges.clamp x <=? 1)%float = true.
Proof.
  unfold Judges.clamp, Py.max, Py.min.
  destruct (x <? 1)%float eqn:H1.
  - destruct (0 <? x)%float eqn:H0.
    + split; now apply ltb_leb.
    + split; reflexivity.
  - split; reflexivity.
Qed.

(** *** The judges *)

(** C4, as stated, fails on its last part: three samples with the raw scores
    0.2, 0.4 and 0.6 are stored as they are, and their mean in binary64 is
    the float next above 0.4, not 0.4 (nor is it 0.4 when [sum] collects its
    rounding errors, as CPython 3.12 does: the mean is then the float next
    below 0.4). *)
Lemma judge_mean_of_three_samples_is_not_0_4 :
  (exists jr,
     Judges.judge_contextual_precision (Protocol.scoring [0.2; 0.4; 0.6]%float)
       Judges.default_settings (Some 3) None 0 = (Ok jr, 3)
     /\ Judges.error jr = None
     /\ Judges.samples jr = [0.2; 0.4; 0.6]%float
     /\ Judges.score jr <> 0.4%float)
  /\ (Py.sum_compensated [0.2; 0.4; 0.6] / Py.float_of_nat 3)%float <> 0.4%float.
Proof.
  split.
  - eexists. split; [vm_compute; reflexivity|]. cbn [Judges.error Judges.samples Judges.score].
    repeat split.
    intro H. apply (f_equal (fun z => (z =? 0.4)%float)) in H.
    vm_compute in H. discriminate H.
  - intro H. apply (f_equal (fun z => (z =? 0.4)%float)) in H.
    vm_compute in H. discriminate H.
Qed.

(** C4, amended: when all [num_samples] invocations of a metric succeed,
    each raw score is stored clamped to the interval from 0 to 1 (1.5 as 1.0,
    -0.3 as 0.0) and the score of the metric is the binary64 quotient
    [sum(samples) / len(samples)] of the clamped samples; for the raw scores
    0.2, 0.4 and 0.6 it is 0.4 up to rounding: 0.4000000000000001, the float
    next above 0.4, when the samples are added from left to right. *)
Theorem judge_score_is_mean_of_clamped_samples :
  (forall w settings num_samples include_reasoning n l n',
      Protocol.successes w
        (Judges.num_samples_or_default settings num_samples) n = Some (l, n') ->
      exists jr,
        Judges.judge_contextual_precision w settings num_samples
          include_reasoning n = (Ok jr, n')
        /\ Judges.error jr = None
        /\ Judges.samples jr = map Judges.clamp (map fst l)
        /\ Judges.score jr = Judges.average (Judges.samples jr))
  /\ (forall xs, xs <> [] ->
        Judges.average xs
        = (Py.sum xs / Py.float_of_nat (List.length xs))%float)
  /\ (forall x, (0 <=? Judges.clamp x)%float = true
                /\ (Judges.clamp x <=? 1)%float = true)
  /\ Judges.clamp 1.5 = 1%float
  /\ Judges.clamp (-0.3) = 0%float
  /\ (forall w settings include_reasoning n l n',
        Protocol.successes w 3 n = Some (l, n') ->
        map fst l = [0.2; 0.4; 0.6]%float ->
        exists jr,
          Judges.judge_contextual_precision w settings (Some 3)
            include_reasoning n = (Ok jr, n')
          /\ Judges.samples jr = [0.2; 0.4; 0.6]%float
          /\ Judges.score jr = 0.4000000000000001%float).
Proof.
  repeat split.
  - intros w settings ns ir n l n' H.
    unfold Judges.judge_contextual_precision, Judges.judge.
    rewrite (sample_loop_success w _ _ 0 [] "" n l n' H).
    eexists. split; [reflexivity|]. simpl. auto.
  - intros xs Hxs. destruct xs; [congruence | reflexivity].
  - apply clamp_bounds.
  - apply clamp_bounds.
  - intros w settings ir n l n' H Hl.
    unfold Judges.judge_contextual_precision, Judges.judge.
    change (Judges.num_samples_or_default settings (Some 3)) with 3.
    rewrite (sample_loop_success w _ _ 0 [] "" n l n' H).
    eexists. split; [reflexivity|]. simpl. rewrite Hl. split; reflexivity.
Qed.

(** What a judge returns: the error result of a failed sample, or a result
    without error after as many successful samples as were asked for. *)
Lemma judge_aborts_or_succeeds (w : Judges.world)
    (settings : Judges.Settings) (num_samples : option nat)
    (include_reasoning : option bool) (n : nat) :
  (forall i l ni inv n' msg,
      i < Judges.num_samples_or_default settings num_samples ->
      Protocol.successes w i n = Some (l, ni) ->
      Protocol.invoke w ni = (inv, n') ->
      Protocol.failure_text i inv = Some msg ->
      Judges.judge w settings num_samples include_reasoning n
      = (Ok (Judges.error_result msg), n'))
  /\ (forall jr n',
        Judges.judge w settings num_samples include_reasoning n = (Ok jr, n') ->
        (exists msg,
           Judges.error jr = Some msg
           /\ Judges.samples jr = [] /\ Judges.score jr = 0%float
           /\ Judges.verdict jr = ""
           /\ exists i l ni inv,
                i < Judges.num_samples_or_default settings num_samples
                /\ Protocol.successes w i n = Some (l, ni)
                /\ Protocol.invoke w ni = (inv, n')
                /\ Protocol.failure_text i inv = Some msg)
        \/ (exists l,
              Protocol.successes w
                (Judges.num_samples_or_default settings num_samples) n
              = Some (l, n')
              /\ List.length l
                 = Judges.num_samples_or_default settings num_samples
              /\ Judges.error jr = None
              /\ Judges.samples jr = map Judges.clamp (map fst l))).
Proof.
  unfold Judges.judge.
  set (k := Judges.num_samples_or_default settings num_samples).
  set (ir := Judges.include_reasoning_or_default settings include_reasoning).
  split.
  - intros i l ni inv n' msg Hi Hs Hinv Hf.
    replace k with (i + S (k - S i)) by lia.
    exact (sample_loop_failure w ir i (k - S i) 0 [] "" n l ni inv n' msg Hs Hinv Hf).
  - intros jr n' Hrun.
    destruct (successes_or_first_other w k n)
      as [(l & n1 & Hs & Hl)|(i & rest & l & ni & inv & n1 & Hk & Hs & Hinv & Hn)].
    + rewrite (sample_loop_success w ir k 0 [] "" n l n1 Hs) in Hrun.
      injection Hrun as <- <-. right. exists l. simpl. auto.
    + rewrite Hk in Hrun.
      destruct inv as [raw r| |m|e].
      * now destruct (Hn raw r).
      * rewrite (sample_loop_failure w ir i rest 0 [] "" n l ni _ n1 _ Hs Hinv eq_refl)
          in Hrun.
        injection Hrun as <- <-. left. eexists. simpl. repeat split.
        exists i, l, ni, Protocol.NoReply. repeat split; auto. lia.
      * rewrite (sample_loop_failure w ir i rest 0 [] "" n l ni _ n1 _ Hs Hinv eq_refl)
          in Hrun.
        injection Hrun as <- <-. left. eexists. simpl. repeat split.
        exists i, l, ni, (Protocol.BadScore m). repeat split; auto. lia.
      * rewrite (sample_loop_crash w ir i rest 0 [] "" n l ni e n1 Hs Hinv) in Hrun.
        discriminate Hrun.
Qed.

(** The failures the judge turns into a result: when a sample invocation
    fails after its retries because the invoker returns null, or because
    [float] raises [ValueError] or [TypeError] on the score of the reply,
    after [i] successful ones, the judge returns at once, with the request
    count that invocation left, the error result of that sample: score 0.0,
    no verdict, no samples.  And a result carries an error only then: a
    result without error holds one clamped sample per invocation, all of
    them successful. *)
Theorem judge_aborts_on_failed_sample (w : Judges.world)
    (settings : Judges.Settings) (num_samples : option nat)
    (include_reasoning : option bool) (n : nat) :
  (forall i l ni inv n' msg,
      i < Judges.num_samples_or_default settings num_samples ->
      Protocol.successes w i n = Some (l, ni) ->
      Protocol.invoke w ni = (inv, n') ->
      Protocol.failure_text i inv = Some msg ->
      Judges.judge_contextual_precision w settings num_samples
        include_reasoning n
      = (Ok {| Judges.score := 0; Judges.verdict := ""; Judges.samples := [];
               Judges.error := Some msg |}, n'))
  /\ (forall jr n',
        Judges.judge_contextual_precision w settings num_samples
          include_reasoning n = (Ok jr, n') ->
        match Judges.error jr with
        | Some msg =>
            Judges.samples jr = [] /\ Judges.score jr = 0%float
            /\ Judges.verdict jr = ""
            /\ exists i l ni inv,
                 i < Judges.num_samples_or_default settings num_samples
                 /\ Protocol.successes w i n = Some (l, ni)
                 /\ Protocol.invoke w ni = (inv, n')
                 /\ Protocol.failure_text i inv = Some msg
        | None =>
            exists l,
              Protocol.successes w
                (Judges.num_samples_or_default settings num_samples) n
              = Some (l, n')
              /\ List.length l
                 = Judges.num_samples_or_default settings num_samples
              /\ Judges.samples jr = map Judges.clamp (map fst l)
        end).
Proof.
  destruct (judge_aborts_or_succeeds w settings num_samples include_reasoning n)
    as [Habort Hcases].
  split.
  - exact Habort.
  - intros jr n' Hrun.
    destruct (Hcases jr n' Hrun)
      as [(msg & He & Hs & Hsc & Hv & Hex)|(l & Hs & Hl & He & Hsm)].
    + rewrite He. auto.
    + rewrite He. exists l. auto.
Qed.

(** The three samples 0.2, 0.4 and 0.6, from the first request on. *)
Lemma judge_score_is_mean_of_clamped_samples_witness :
  exists jr,
    Judges.judge_contextual_precision (Protocol.scoring [0.2; 0.4; 0.6]%float)
      Judges.default_settings (Some 3) None 0 = (Ok jr, 3)
    /\ Judges.samples jr = [0.2; 0.4; 0.6]%float
    /\ Judges.score jr = 0.4000000000000001%float.
Proof.
  destruct judge_score_is_mean_of_clamped_samples as (_ & _ & _ & _ & _ & H).
  apply (H (Protocol.scoring [0.2; 0.4; 0.6]%float) Judges.default_settings None 0
           [(0.2%float, Judges.Reply (Some (Judges.Numeric 0.2)) None);
            (0.4%float, Judges.Reply (Some (Judges.Numeric 0.4)) None);
            (0.6%float, Judges.Reply (Some (Judges.Numeric 0.6)) None)] 3);
    reflexivity.
Defined.

(** Three samples are asked for and the second invocation gets no JSON in
    its three attempts: the judge returns after 4 requests, with the error of
    the sample 2 and without the score 0.9 of the first sample. *)
Lemma judge_aborts_on_failed_sample_witness :
  Judges.judge_contextual_precision Protocol.one_good_reply
    Judges.default_settings (Some 3) None 0
  = (Ok {| Judges.score := 0; Judges.verdict := ""; Judges.samples := [];
           Judges.error :=
             Some "Judge failed to return valid JSON after retries (sample 2)" |},
     4).
Proof.
  apply (proj1 (judge_aborts_on_failed_sample Protocol.one_good_reply
                  Judges.default_settings (Some 3) None 0)
           1 [(0.9%float, Judges.Reply (Some (Judges.Numeric 0.9)) None)] 1
           Protocol.NoReply 4).
  - simpl. lia.
  - reflexivity.
  - reflexivity.
  - reflexivity.
Defined.

(** C5, on the code: a reply whose score is an integer beyond the floats
    is a reply whose score is not convertible to a number, and the judge
    does not return the error result for it: [float] raises
    [OverflowError], which the clause [except (ValueError, TypeError)] lets
    through, so the judge raises, each of the four judges alike.  A score
    that is a text which is not a number, the failure the clause does
    catch, gives the error result.  The caller [compute_metrics] catches
    the exception and records the score 0.0 with the text of the
    exception. *)
Theorem judge_raises_on_integer_score_beyond_floats :
  Protocol.invoke Protocol.integer_beyond_floats 0
  = (Protocol.Crashed (Exn "OverflowError" "int too large to convert to float"),
     1)
  /\ Judges.judge_contextual_precision Protocol.integer_beyond_floats
       Judges.default_settings None None 0
     = (Raised (Exn "OverflowError" "int too large to convert to float"), 1)
  /\ (forall jr n',
        Judges.judge_contextual_precision Protocol.integer_beyond_floats
          Judges.default_settings None None 0 <> (Ok jr, n'))
  /\ (forall judge_func,
        In judge_func (Dict.values Metrics.METRIC_REGISTRY) ->
        judge_func Protocol.integer_beyond_floats Judges.default_settings None
          None 0
        = (Raised (Exn "OverflowError" "int too large to convert to float"), 1))
  /\ Judges.judge_contextual_precision Protocol.text_score
       Judges.default_settings None None 0
     = (Ok (Judges.error_result
              "Invalid score format in judge response: could not convert string to float: 'high'"),
        1)
  /\ Metrics.compute_metrics Protocol.integer_beyond_floats
       Judges.default_settings (Some ["correctness"]) 0
     = (Ok [("correctness",
             MetricsSpec.failed_entry "Error: "
               "int too large to convert to float")], 1).
Proof.
  split; [reflexivity|]. split; [reflexivity|]. split.
  - intros jr n' H. discriminate H.
  - split.
    + intros judge_func H. simpl in H.
      destruct H as [<-|[<-|[<-|[<-|[]]]]]; reflexivity.
    + split; reflexivity.
Qed.

(** C9: when all the samples of a metric succeed and reasoning is enabled,
    the verdict of the result is the verdict of the last sample (the empty
    string when that reply has none); when reasoning is disabled, the
    verdict of a result is the empty string. *)
Theorem judge_verdict_is_last_sample (w : Judges.world)
    (settings : Judges.Settings) (num_samples : option nat)
    (include_reasoning : option bool) (n : nat) :
  (forall l n',
      Protocol.successes w
        (Judges.num_samples_or_default settings num_samples) n = Some (l, n') ->
      exists jr,
        Judges.judge_contextual_precision w settings num_samples
          include_reasoning n = (Ok jr, n')
        /\ Judges.verdict jr
           = if Judges.include_reasoning_or_default settings include_reasoning
             then Protocol.last_verdict l
             else "")
  /\ (forall jr n',
        Judges.include_reasoning_or_default settings include_reasoning = false ->
        Judges.judge_contextual_precision w settings num_samples
          include_reasoning n = (Ok jr, n') ->
        Judges.verdict jr = "").
Proof.
  split.
  - intros l n' H. unfold Judges.judge_contextual_precision, Judges.judge.
    rewrite (sample_loop_success w _ _ 0 [] "" n l n' H).
    eexists. split; [reflexivity|]. simpl.
    destruct (Judges.include_reasoning_or_default settings include_reasoning);
      [|reflexivity].
    rewrite verdict_after_enabled. now destruct l.
  - intros jr n' Hir Hrun.
    destruct (proj2 (judge_aborts_or_succeeds w settings num_samples
                       include_reasoning n) jr n' Hrun) as [H|H].
    + destruct H as (msg & _ & _ & _ & Hv & _). exact Hv.
    + destruct H as (l & Hs & _).
      unfold Judges.judge_contextual_precision, Judges.judge in Hrun.
      rewrite (sample_loop_success w _ _ 0 [] "" n l n' Hs), Hir in Hrun.
      now injection Hrun as <-.
Qed.

(** Three samples with the verdicts "first", "second" and "third": the
    result carries "third". *)
Lemma judge_verdict_is_last_sample_witness :
  exists jr,
    Judges.judge_contextual_precision Protocol.three_verdicts
      Judges.default_settings (Some 3) (Some true) 0 = (Ok jr, 3)
    /\ Judges.verdict jr = "third".
Proof.
  exact (proj1 (judge_verdict_is_last_sample Protocol.three_verdicts
                  Judges.default_settings (Some 3) (Some true) 0)
           [(0.5%float, Judges.Reply (Some (Judges.Numeric 0.5)) (Some "first"));
            (0.5%float, Judges.Reply (Some (Judges.Numeric 0.5)) (Some "second"));
            (0.5%float, Judges.Reply (Some (Judges.Numeric 0.5)) (Some "third"))]
           3 eq_refl).
Defined.

(** ** The metric aggregator *)

(** Whatever the judge does, the [try] block yields an entry. *)
Lemma run_judge_total (w : Judges.world) (s : Judges.Settings)
    (jf : Metrics.judge_function) (n : nat) :
  exists r n', Metrics.run_judge w s jf n = (Ok r, n').
Proof.
  unfold Metrics.run_judge.
  destruct (jf w s None None n) as [[jr|e] n'].
  - destruct (Judges.error jr); eauto.
  - eauto.
Qed.

Lemma run_judge_raised (w : Judges.world) (s : Judges.Settings)
    (jf : Metrics.judge_function) (n : nat) (e : exn) (n' : nat) :
  jf w s None None n = (Raised e, n') ->
  Metrics.run_judge w s jf n
  = (Ok (MetricsSpec.failed_entry "Error: " (exn_text e)), n').
Proof. intros H. unfold Metrics.run_judge. now rewrite H. Qed.

Lemma run_judge_error (w : Judges.world) (s : Judges.Settings)
    (jf : Metrics.judge_function) (n : nat) (jr : Judges.judge_result)
    (msg : string) (n' : nat) :
  jf w s None None n = (Ok jr, n') ->
  Judges.error jr = Some msg ->
  Metrics.run_judge w s jf n
  = (Ok (MetricsSpec.failed_entry "Judge Error: " msg), n').
Proof. intros H E. unfold Metrics.run_judge. now rewrite H, E. Qed.

Lemma metrics_loop_total (w : Judges.world) (s : Judges.Settings) :
  forall names d n, exists d' n', Metrics.metrics_loop w s names d n = (Ok d', n').
Proof.
  induction names as [|name names IH]; intros d n; cbn [Metrics.metrics_loop].
  - unfold ret. eauto.
  - destruct (Dict.get name Metrics.METRIC_REGISTRY) as [jf|]; [|apply IH].
    unfold bind. destruct (run_judge_total w s jf n) as (r & n1 & ->). apply IH.
Qed.

Lemma metrics_loop_app (w : Judges.world) (s : Judges.Settings) :
  forall a b d n d1 n1,
    Metrics.metrics_loop w s a d n = (Ok d1, n1) ->
    Metrics.metrics_loop w s (a ++ b) d n = Metrics.metrics_loop w s b d1 n1.
Proof.
  induction a as [|name a IH]; intros b d n d1 n1 H; cbn [Metrics.metrics_loop app] in *.
  - unfold ret in H. now injection H as <- <-.
  - destruct (Dict.get name Metrics.METRIC_REGISTRY) as [jf|]; [|now apply IH].
    unfold bind in *. destruct (Metrics.run_judge w s jf n) as [[r|e] n2].
    + now apply IH.
    + discriminate H.
Qed.

(** A name the loop does not meet keeps its entry. *)
Lemma metrics_loop_get_other (w : Judges.world) (s : Judges.Settings)
    (name : string) :
  forall names d n d' n',
    ~ In name names ->
    Metrics.metrics_loop w s names d n = (Ok d', n') ->
    Dict.get name d' = Dict.get name d.
Proof.
  induction names as [|k names IH]; intros d n d' n' Hn H; cbn [Metrics.metrics_loop] in *.
  - unfold ret in H. now injection H as <- <-.
  - destruct (Dict.get k Metrics.METRIC_REGISTRY) as [jf|].
    + unfold bind in H. destruct (Metrics.run_judge w s jf n) as [[r|e] n2];
        [|discriminate H].
      rewrite (IH _ _ _ _ (fun Hin => Hn (or_intror Hin)) H).
      apply get_set_ne. intros ->. apply Hn. now left.
    + apply (IH _ _ _ _ (fun Hin => Hn (or_intror Hin)) H).
Qed.

(** The keys the loop leaves: each known name once, in order. *)
Lemma metrics_loop_keys (w : Judges.world) (s : Judges.Settings) :
  forall names d n d' n',
    Metrics.metrics_loop w s names d n = (Ok d', n') ->
    Dict.keys d' = MetricsSpec.keys_after names (Dict.keys d).
Proof.
  unfold MetricsSpec.keys_after, MetricsSpec.known.
  induction names as [|k names IH]; intros d n d' n' H; cbn [Metrics.metrics_loop fold_left] in *.
  - unfold ret in H. now injection H as <- <-.
  - destruct (Dict.get k Metrics.METRIC_REGISTRY) as [jf|] eqn:E.
    + assert (Hk : Dict.mem k Metrics.METRIC_REGISTRY = true)
        by (unfold Dict.mem; now rewrite E).
      unfold bind in H. destruct (Metrics.run_judge w s jf n) as [[r|e] n2];
        [|discriminate H].
      rewrite (IH _ _ _ _ H), keys_set, <- mem_keys, Hk.
      now destruct (Dict.mem k d).
    + assert (Hk : Dict.mem k Metrics.METRIC_REGISTRY = false)
        by (unfold Dict.mem; now rewrite E).
      rewrite Hk. apply (IH _ _ _ _ H).
Qed.

Lemma keys_after_In (names : list string) :
  forall ks name,
    In name (MetricsSpec.keys_after names ks)
    <-> In name ks \/ (In name names /\ MetricsSpec.known name = true).
Proof.
  unfold MetricsSpec.keys_after.
  induction names as [|k names IH]; intros ks name; simpl.
  - tauto.
  - rewrite IH. destruct (MetricsSpec.known k) eqn:Ek; simpl.
    + destruct (existsb (String.eqb k) ks) eqn:Ex; simpl.
      * apply existsb_exists in Ex. destruct Ex as (x & Hx & E).
        apply String.eqb_eq in E. subst x.
        intuition (subst; auto).
      * rewrite in_app_iff. simpl. intuition (subst; auto).
    + intuition (subst; auto; congruence).
Qed.

Lemma keys_after_NoDup (names : list string) :
  forall ks, NoDup ks -> NoDup (MetricsSpec.keys_after names ks).
Proof.
  unfold MetricsSpec.keys_after.
  induction names as [|k names IH]; intros ks H; simpl; [exact H|].
  apply IH. destruct (MetricsSpec.known k && negb (existsb (String.eqb k) ks)) eqn:E;
    [|exact H].
  apply andb_true_iff in E. destruct E as [_ E]. apply negb_true_iff in E.
  apply NoDup_app; [exact H | repeat constructor; intros [] |].
  intros x Hx [Hk|[]]. subst x.
  assert (existsb (String.eqb k) ks = true); [|congruence].
  apply existsb_exists. exists k. split; [exact Hx | apply String.eqb_refl].
Qed.

(** C6: [compute_metrics] returns, and its result has an entry for exactly
    the requested names the registry knows (for one unknown name next to two
    known ones, the two known ones).  The entry of a metric whose judge, on
    its last run, raises or returns an error has the score 0.0, no samples
    and a reason that is not empty and ends with the text of the error; the
    other metrics are computed all the same, as with a service that fails
    the first of two judges, or without a client, every judge raising. *)
Theorem compute_metrics_isolates_failures :
  (forall w settings selected_metrics n,
      exists results n',
        Metrics.compute_metrics w settings selected_metrics n = (Ok results, n')
        /\ Dict.well_formed results
        /\ (forall name,
              In name (Dict.keys results)
              <-> In name (Metrics.selection selected_metrics)
                  /\ MetricsSpec.known name = true)
        /\ (forall pre name post judge_func d1 n1,
              Metrics.selection selected_metrics = pre ++ name :: post ->
              ~ In name post ->
              Dict.get name Metrics.METRIC_REGISTRY = Some judge_func ->
              Metrics.metrics_loop w settings pre [] n = (Ok d1, n1) ->
              (forall e n2,
                  judge_func w settings None None n1 = (Raised e, n2) ->
                  Dict.get name results
                  = Some (MetricsSpec.failed_entry "Error: " (exn_text e)))
              /\ (forall jr msg n2,
                    judge_func w settings None None n1 = (Ok jr, n2) ->
                    Judges.error jr = Some msg ->
                    Dict.get name results
                    = Some (MetricsSpec.failed_entry "Judge Error: " msg))))
  /\ (forall text,
        Metrics.score (MetricsSpec.failed_entry "Error: " text) = 0%float
        /\ Metrics.reason (MetricsSpec.failed_entry "Error: " text) <> ""
        /\ Metrics.score (MetricsSpec.failed_entry "Judge Error: " text) = 0%float
        /\ Metrics.reason (MetricsSpec.failed_entry "Judge Error: " text) <> "")
  /\ (forall w settings n,
        exists results n',
          Metrics.compute_metrics w settings
            (Some ["correctness"; "no_such_metric"; "faithfulness"]) n
          = (Ok results, n')
          /\ Dict.keys results = ["correctness"; "faithfulness"])
  /\ Metrics.compute_metrics MetricsSpec.first_judge_fails
       Judges.default_settings
       (Some ["correctness"; "no_such_metric"; "faithfulness"]) 0
     = (Ok [("correctness",
             MetricsSpec.failed_entry "Judge Error: "
               "Judge failed to return valid JSON after retries (sample 1)");
            ("faithfulness", Metrics.MetricResult 0.9 "" [0.9%float])], 4)
  /\ Metrics.compute_metrics MetricsSpec.no_client Judges.default_settings
       (Some ["correctness"; "faithfulness"]) 0
     = (Ok [("correctness",
             MetricsSpec.failed_entry "Error: "
               "The api_key client option must be set");
            ("faithfulness",
             MetricsSpec.failed_entry "Error: "
               "The api_key client option must be set")], 0).
Proof.
  split; [|split; [|split; [|split]]].
  - intros w s sel n. unfold Metrics.compute_metrics.
    destruct (metrics_loop_total w s (Metrics.selection sel) [] n)
      as (results & n' & Hrun).
    exists results, n'. split; [exact Hrun|].
    pose proof (metrics_loop_keys w s _ _ _ _ _ Hrun) as Hkeys.
    split; [|split].
    + unfold Dict.well_formed. rewrite Hkeys.
      apply keys_after_NoDup. constructor.
    + intros name. rewrite Hkeys, keys_after_In. simpl. tauto.
    + intros pre name post jf d1 n1 Hsel Hpost Hjf Hpre.
      rewrite Hsel in Hrun.
      rewrite (metrics_loop_app w s pre (name :: post) [] n d1 n1 Hpre) in Hrun.
      cbn [Metrics.metrics_loop] in Hrun. rewrite Hjf in Hrun.
      unfold bind in Hrun.
      split.
      * intros e n2 Hj. rewrite (run_judge_raised w s jf n1 e n2 Hj) in Hrun.
        rewrite (metrics_loop_get_other w s name post _ _ _ _ Hpost Hrun).
        apply get_set_eq.
      * intros jr msg n2 Hj He.
        rewrite (run_judge_error w s jf n1 jr msg n2 Hj He) in Hrun.
        rewrite (metrics_loop_get_other w s name post _ _ _ _ Hpost Hrun).
        apply get_set_eq.
  - intros text. repeat split; discriminate.
  - intros w s n. unfold Metrics.compute_metrics.
    destruct (metrics_loop_total w s
                (Metrics.selection
                   (Some ["correctness"; "no_such_metric"; "faithfulness"])) [] n)
      as (results & n' & Hrun).
    exists results, n'. split; [exact Hrun|].
    now rewrite (metrics_loop_keys w s _ _ _ _ _ Hrun).
  - vm_compute. reflexivity.
  - vm_compute. reflexivity.
Qed.

(** C10: a call without selected metrics, with [None] or with an empty list
    evaluates the four default metrics, as a call that names them does. *)
Theorem compute_metrics_default_selection (w : Judges.world)
    (settings : Judges.Settings) (n : nat) :
  Metrics.compute_metrics w settings None n
  = Metrics.compute_metrics w settings (Some Metrics.DEFAULT_METRICS) n
  /\ Metrics.compute_metrics w settings (Some []) n
     = Metrics.compute_metrics w settings (Some Metrics.DEFAULT_METRICS) n
  /\ exists results n',
       Metrics.compute_metrics w settings (Some []) n = (Ok results, n')
       /\ Dict.keys results
          = ["contextual_precision"; "contextual_relevance"; "correctness";
             "faithfulness"].
Proof.
  split; [reflexivity|]. split; [reflexivity|].
  unfold Metrics.compute_metrics.
  destruct (metrics_loop_total w settings (Metrics.selection (Some [])) [] n)
    as (results & n' & Hrun).
  exists results, n'. split; [exact Hrun|].
  now rewrite (metrics_loop_keys w settings _ _ _ _ _ Hrun).
Qed.

(** ** The summary *)

Section DictOfNames.
Context {V : Type} (f : string -> V).

Lemma fold_set_get (m : string) :
  forall names (d : dict V),
    Dict.get m (fold_left (fun d k => Dict.set k (f k) d) names d)
    = if existsb (String.eqb m) names then Some (f m) else Dict.get m d.
Proof.
  induction names as [|k names IH]; intros d; simpl; [reflexivity|].
  rewrite IH. destruct (existsb (String.eqb m) names); simpl.
  - now rewrite orb_true_r.
  - rewrite orb_false_r. destruct (String.eqb m k) eqn:E.
    + apply String.eqb_eq in E. subst. apply get_set_eq.
    + apply String.eqb_neq in E. apply get_set_ne. congruence.
Qed.

Lemma fold_set_keys :
  forall names (d : dict V),
    NoDup (Dict.keys d ++ names) ->
    Dict.keys (fold_left (fun d k => Dict.set k (f k) d) names d)
    = Dict.keys d ++ names.
Proof.
  induction names as [|k names IH]; intros d H; simpl.
  - now rewrite app_nil_r.
  - assert (Hk : Dict.mem k d = false).
    { destruct (Dict.mem k d) eqn:E; [|reflexivity].
      apply mem_In in E. apply NoDup_remove_2 in H. destruct H.
      apply in_or_app. now left. }
    rewrite IH; rewrite keys_set, Hk, <- app_assoc; simpl; auto.
Qed.

Lemma dict_of_names_get (names : list string) (m : string) :
  Dict.get m (Reporting.dict_of_names f names)
  = if existsb (String.eqb m) names then Some (f m) else None.
Proof. unfold Reporting.dict_of_names. now rewrite fold_set_get. Qed.

Lemma dict_of_names_keys (names : list string) :
  NoDup names -> Dict.keys (Reporting.dict_of_names f names) = names.
Proof. intros H. unfold Reporting.dict_of_names. now rewrite fold_set_keys. Qed.

End DictOfNames.

Lemma existsb_eqb_In (m : string) (names : list string) :
  existsb (String.eqb m) names = true <-> In m names.
Proof.
  rewrite existsb_exists. split.
  - intros (x & Hx & E). apply String.eqb_eq in E. now subst.
  - intros H. exists m. split; [exact H | apply String.eqb_refl].
Qed.

Lemma existsb_eqb_not_In (m : string) (names : list string) :
  existsb (String.eqb m) names = false <-> ~ In m names.
Proof.
  rewrite <- existsb_eqb_In. destruct (existsb (String.eqb m) names);
    split; congruence.
Qed.

(** Adding to the sum of a metric. *)
Lemma add_score_get_eq (m : string) (x s : float) (sums : dict float) :
  Dict.get m sums = Some s ->
  Dict.get m (Reporting.add_score m x sums) = Some (s + x)%float.
Proof. intros H. unfold Reporting.add_score. rewrite H. apply get_set_eq. Qed.

Lemma add_score_get_ne (m k : string) (x : float) (sums : dict float) :
  k <> m ->
  Dict.get m (Reporting.add_score k x sums) = Dict.get m sums.
Proof.
  intros H. unfold Reporting.add_score.
  destruct (Dict.get k sums); [now apply get_set_ne | reflexivity].
Qed.

(** The inner loop, over the metric names, for one record. *)
Lemma inner_loop_get_other (m : string) (r : Reporting.eval_record) :
  forall names sums,
    ~ In m names ->
    Dict.get m
      (fold_left
         (fun sums k => Reporting.add_score k (Reporting.metric_score k r) sums)
         names sums)
    = Dict.get m sums.
Proof.
  induction names as [|k names IH]; intros sums H; simpl; [reflexivity|].
  rewrite IH by (intro; apply H; now right).
  apply add_score_get_ne. intros ->. apply H. now left.
Qed.

Lemma inner_loop_get (m : string) (r : Reporting.eval_record) :
  forall names sums s,
    NoDup names -> In m names -> Dict.get m sums = Some s ->
    Dict.get m
      (fold_left
         (fun sums k => Reporting.add_score k (Reporting.metric_score k r) sums)
         names sums)
    = Some (s + Reporting.metric_score m r)%float.
Proof.
  induction names as [|k names IH]; intros sums s Hnd Hin Hs; simpl; [destruct Hin|].
  inversion Hnd as [|? ? Hk Hnd']; subst.
  destruct (String.eqb k m) eqn:E.
  - apply String.eqb_eq in E. subst k.
    rewrite inner_loop_get_other by exact Hk. now apply add_score_get_eq.
  - apply String.eqb_neq in E. destruct Hin as [->|Hin]; [congruence|].
    apply IH; auto. now rewrite add_score_get_ne.
Qed.

(** The two loops: the sum of a metric is the sum of its scores over the
    records, in their order, from 0.0. *)
Lemma outer_loop_get (m : string) (names : list string) :
  NoDup names -> In m names ->
  forall results sums s,
    Dict.get m sums = Some s ->
    Dict.get m
      (fold_left
         (fun sums r =>
            fold_left
              (fun sums k => Reporting.add_score k (Reporting.metric_score k r) sums)
              names sums)
         results sums)
    = Some (fold_left PrimFloat.add (map (Reporting.metric_score m) results) s).
Proof.
  intros Hnd Hin. induction results as [|r results IH]; intros sums s Hs; simpl.
  - exact Hs.
  - apply IH. now apply inner_loop_get.
Qed.

Lemma sum_metrics_get (m : string) (names : list string)
    (results : list Reporting.eval_record) :
  NoDup names -> In m names ->
  Reporting.sum_of (Reporting.sum_metrics names results) m
  = Py.sum (ReportingSpec.scores_or_zero m results).
Proof.
  intros Hnd Hin. unfold Reporting.sum_of, Reporting.sum_metrics.
  rewrite (outer_loop_get m names Hnd Hin results _ 0%float); [reflexivity|].
  rewrite dict_of_names_get.
  now rewrite (proj2 (existsb_eqb_In m names) Hin).
Qed.





(** ** The whole summary *)

Section Comprehension.
Context {A B : Type} (f : A -> result B).

Lemma comprehension_Ok (l : list A) (ys : list B) :
  ReportFile.comprehension f l = Ok ys -> Forall2 (fun x y => f x = Ok y) l ys.
Proof.
  revert ys. induction l as [|x l IH]; simpl; intros ys H.
  - injection H as <-. constructor.
  - destruct (f x) as [y|e] eqn:Ex; [|discriminate H].
    destruct (ReportFile.comprehension f l) as [ys'|e]; [|discriminate H].
    injection H as <-. constructor; auto.
Qed.

Lemma comprehension_returns (l : list A) :
  (forall x, In x l -> exists y, f x = Ok y) ->
  exists ys, ReportFile.comprehension f l = Ok ys.
Proof.
  induction l as [|x l IH]; simpl; intros H; [now eexists|].
  destruct (H x (or_introl eq_refl)) as [y ->].
  destruct IH as [ys ->]; [intros z Hz; apply H; now right|]. now eexists.
Qed.


End Comprehension.

Lemma answer_prefix_Ok (r : ReportFile.line) (a : string) :
  ReportFile.answer_prefix r = Ok a ->
  ReportingSpec.has_answer r = true
  /\ ReportingSpec.answer_shown r = Some a.
Proof.
  unfold ReportFile.answer_prefix, ReportingSpec.has_answer,
    ReportingSpec.answer_shown.
  destruct (ReportFile.answer r) as [t|]; [|discriminate].
  intros H. injection H as <-. split; reflexivity.
Qed.

Lemma answer_prefix_returns (r : ReportFile.line) :
  ReportingSpec.has_answer r = true <-> exists a, ReportFile.answer_prefix r = Ok a.
Proof.
  unfold ReportFile.answer_prefix, ReportingSpec.has_answer.
  destruct (ReportFile.answer r) as [t|]; split; intros H;
    try discriminate H; try reflexivity.
  - now eexists.
  - destruct H as [a H]. discriminate H.
Qed.

(** The score of the code and the score of the description are one. *)
Lemma metric_score_rank_score (m : string) (r : ReportFile.line) :
  ReportFile.metric_score m r = ReportingSpec.rank_score m r.
Proof.
  unfold ReportFile.metric_score, ReportingSpec.rank_score.
  induction (ReportFile.metrics r) as [|[k v] d IH]; simpl; [reflexivity|].
  rewrite (String.eqb_sym k m). now destruct (String.eqb m k).
Qed.

Lemma mem_has_metric (m : string) (r : ReportFile.line) :
  Dict.mem m (ReportFile.metrics r) = ReportingSpec.has_metric m r.
Proof.
  unfold Dict.mem, ReportingSpec.has_metric.
  induction (ReportFile.metrics r) as [|[k v] d IH]; simpl; [reflexivity|].
  rewrite (String.eqb_sym k m). now destruct (String.eqb m k).
Qed.

(** An entry of a worst record, by its fields. *)
Lemma overall_entry_Ok (r : ReportFile.line) (e : Reporting.worst_overall_entry) :
  ReportFile.overall_entry r = Ok e ->
  Reporting.wo_record_id e = ReportFile.record_id r
  /\ Reporting.wo_question e = ReportFile.question r
  /\ Reporting.wo_overall_score e = ReportFile.overall_score r
  /\ Some (Reporting.wo_answer e) = ReportingSpec.answer_shown r.
Proof.
  unfold ReportFile.overall_entry.
  destruct (ReportFile.answer_prefix r) as [a|x] eqn:Ea; [|discriminate].
  intros H. injection H as <-. simpl.
  destruct (answer_prefix_Ok r a Ea) as [_ ->]. auto.
Qed.

Lemma metric_entry_Ok (m : string) (r : ReportFile.line)
    (e : Reporting.worst_metric_entry) :
  ReportFile.metric_entry m r = Ok e ->
  Reporting.wm_record_id e = ReportFile.record_id r
  /\ Reporting.wm_question e = ReportFile.question r
  /\ Reporting.wm_score e = ReportingSpec.rank_score m r
  /\ Some (Reporting.wm_answer e) = ReportingSpec.answer_shown r.
Proof.
  unfold ReportFile.metric_entry.
  destruct (ReportFile.answer_prefix r) as [a|x] eqn:Ea; [|discriminate].
  intros H. injection H as <-. simpl.
  destruct (answer_prefix_Ok r a Ea) as [_ ->].
  rewrite metric_score_rank_score. auto.
Qed.

Lemma entry_returns (r : ReportFile.line) :
  ReportingSpec.has_answer r = true ->
  (exists e, ReportFile.overall_entry r = Ok e)
  /\ forall m, exists e, ReportFile.metric_entry m r = Ok e.
Proof.
  intros H. apply answer_prefix_returns in H. destruct H as [a Ha].
  unfold ReportFile.overall_entry, ReportFile.metric_entry. rewrite Ha.
  split; [|intros m]; now eexists.
Qed.

Lemma entry_raises (r : ReportFile.line) :
  ReportingSpec.has_answer r = false ->
  ReportFile.overall_entry r
  = Raised (Exn "TypeError" "'NoneType' object is not subscriptable")
  /\ forall m,
       ReportFile.metric_entry m r
       = Raised (Exn "TypeError" "'NoneType' object is not subscriptable").
Proof.
  unfold ReportingSpec.has_answer, ReportFile.overall_entry,
    ReportFile.metric_entry, ReportFile.answer_prefix.
  destruct (ReportFile.answer r); [discriminate|]. auto.
Qed.

(** Entries read field by field are the fields of the records, in order. *)
Lemma Forall2_map_eq {A B C : Type} (R : A -> B -> Prop) (f : B -> C)
    (g : A -> C) (l : list A) (l' : list B) :
  (forall x y, R x y -> f y = g x) -> Forall2 R l l' -> map f l' = map g l.
Proof.
  intros H F. induction F as [|x y l l' Hxy F IH]; simpl; [reflexivity|].
  now rewrite (H x y Hxy), IH.
Qed.


(** The loop over the metric names: what it leaves under each name. *)
Lemma worst_by_metric_loop_Ok (results : list ReportFile.line) :
  forall names acc d,
    ReportFile.worst_by_metric_loop names results acc = Ok d ->
    (forall m, In m names ->
       exists entries,
         ReportFile.comprehension (ReportFile.metric_entry m)
           (ReportFile.worst_metric_records m results) = Ok entries
         /\ Dict.get m d = Some entries)
    /\ (forall m, ~ In m names -> Dict.get m d = Dict.get m acc).
Proof.
  induction names as [|k names IH]; simpl; intros acc d H.
  - injection H as <-. split; [intros m []|reflexivity].
  - destruct (ReportFile.comprehension (ReportFile.metric_entry k)
                (ReportFile.worst_metric_records k results)) as [es|e] eqn:Ek;
      [|discriminate H].
    destruct (IH _ _ H) as [Hin Hout]. split.
    + intros m Hm. destruct (in_dec string_dec m names) as [Hn|Hn].
      * now apply Hin.
      * destruct Hm as [<-|Hm]; [|contradiction].
        exists es. split; [exact Ek|]. rewrite (Hout k Hn). apply get_set_eq.
    + intros m Hm. rewrite Hout by tauto. apply get_set_ne. tauto.
Qed.

Lemma worst_by_metric_loop_returns (results : list ReportFile.line) :
  forall names acc,
    (forall m, In m names ->
       forallb ReportingSpec.has_answer
         (ReportFile.worst_metric_records m results) = true) ->
    exists d, ReportFile.worst_by_metric_loop names results acc = Ok d.
Proof.
  induction names as [|k names IH]; simpl; intros acc H; [now eexists|].
  destruct (comprehension_returns (ReportFile.metric_entry k)
              (ReportFile.worst_metric_records k results)) as [es ->].
  - intros r Hr. apply entry_returns.
    pose proof (H k (or_introl eq_refl)) as Hk.
    rewrite forallb_forall in Hk. now apply Hk.
  - apply IH. intros m Hm. apply H. now right.
Qed.


(** What a summary that is returned was made of. *)
Lemma generate_summary_Ok (first : ReportFile.line)
    (rest : list ReportFile.line) (s : ReportFile.summary_dict) :
  ReportFile.generate_summary (Some (first :: rest)) = Ok s ->
  ReportFile.total_questions s = S (List.length rest)
  /\ ReportFile.metric_averages s
     = Reporting.dict_of_names
         (fun m =>
            (Reporting.sum_of
               (Reporting.sum_metrics (Dict.keys (ReportFile.metrics first))
                  (map ReportFile.scores (first :: rest))) m
             / Py.float_of_nat (S (List.length rest)))%float)
         (Dict.keys (ReportFile.metrics first))
  /\ ReportFile.average_overall_score s
     = (Py.sum (map ReportFile.overall_score (first :: rest))
        / Py.float_of_nat (S (List.length rest)))%float
  /\ TokenUsage.token_averages (map ReportFile.tokens (first :: rest))
     = Ok (ReportFile.token_averages s)
  /\ ReportFile.worst_by_metric_loop (Dict.keys (ReportFile.metrics first))
       (first :: rest) [] = Ok (ReportFile.worst_by_metric s)
  /\ ReportFile.comprehension ReportFile.overall_entry
       (ReportFile.worst_overall_records (first :: rest))
     = Ok (ReportFile.worst_overall s).
Proof.
  unfold ReportFile.generate_summary.
  destruct (TokenUsage.token_averages (map ReportFile.tokens (first :: rest)))
    as [t|e]; [|discriminate].
  destruct (ReportFile.worst_by_metric_loop (Dict.keys (ReportFile.metrics first))
              (first :: rest) []) as [d|e]; [|discriminate].
  destruct (ReportFile.comprehension ReportFile.overall_entry
              (ReportFile.worst_overall_records (first :: rest))) as [es|e];
    [|discriminate].
  intros H. injection H as <-. simpl. repeat split; reflexivity.
Qed.


Lemma nsmallest_ext {A : Type} (key key' : A -> float) (n : nat) (l : list A) :
  (forall x, key x = key' x) -> Py.nsmallest key n l = Py.nsmallest key' n l.
Proof.
  intros H. unfold Py.nsmallest. f_equal.
  induction l as [|x l IH]; simpl; [reflexivity|]. rewrite IH.
  generalize (Py.sorted key' l). intros s.
  induction s as [|y s IHs]; simpl; [reflexivity|].
  rewrite !H. now rewrite IHs.
Qed.

Lemma worst_metric_records_rank_score (m : string)
    (results : list ReportFile.line) :
  ReportFile.worst_metric_records m results
  = Py.nsmallest (ReportingSpec.rank_score m) 3 results.
Proof. apply nsmallest_ext. intros r. apply metric_score_rank_score. Qed.

(** *** The statistics of the summary

    The dictionary [ReportFile.generate_summary] returns has the statistics
    that [Reporting.generate_summary] computes from the scores of the
    lines. *)

Lemma insert_map {A B : Type} (f : A -> B) (key : B -> float) (x : A)
    (l : list A) :
  Py.insert key (f x) (map f l) = map f (Py.insert (fun a => key (f a)) x l).
Proof.
  induction l as [|y l IH]; simpl; [reflexivity|].
  destruct (key (f y) <? key (f x))%float; simpl; [now rewrite IH | reflexivity].
Qed.

Lemma nsmallest_map {A B : Type} (f : A -> B) (key : B -> float) (n : nat)
    (l : list A) :
  Py.nsmallest key n (map f l) = map f (Py.nsmallest (fun a => key (f a)) n l).
Proof.
  unfold Py.nsmallest. rewrite <- firstn_map. f_equal.
  induction l as [|x l IH]; simpl; [reflexivity|].
  now rewrite IH, insert_map.
Qed.

Lemma overall_entry_scores (r : ReportFile.line)
    (e : Reporting.worst_overall_entry) :
  ReportFile.overall_entry r = Ok e ->
  Reporting.overall_entry (ReportFile.scores r) = e.
Proof.
  unfold ReportFile.overall_entry, ReportFile.answer_prefix,
    Reporting.overall_entry, ReportFile.scores.
  destruct (ReportFile.answer r); [|discriminate].
  intros H. now injection H as <-.
Qed.

Lemma metric_entry_scores (m : string) (r : ReportFile.line)
    (e : Reporting.worst_metric_entry) :
  ReportFile.metric_entry m r = Ok e ->
  Reporting.metric_entry m (ReportFile.scores r) = e.
Proof.
  unfold ReportFile.metric_entry, ReportFile.answer_prefix,
    Reporting.metric_entry, ReportFile.scores.
  destruct (ReportFile.answer r); [|discriminate].
  intros H. now injection H as <-.
Qed.

Lemma worst_overall_scores (results : list ReportFile.line)
    (entries : list Reporting.worst_overall_entry) :
  ReportFile.comprehension ReportFile.overall_entry
    (ReportFile.worst_overall_records results) = Ok entries ->
  map Reporting.overall_entry
    (Reporting.worst_overall_records (map ReportFile.scores results))
  = entries.
Proof.
  intros H. apply comprehension_Ok in H.
  unfold Reporting.worst_overall_records. rewrite nsmallest_map, map_map.
  rewrite <- (map_id entries) at 1. symmetry.
  apply (fun F => Forall2_map_eq _ (fun e => e) _ _ _ F H).
  intros r e Hr. symmetry. now apply overall_entry_scores.
Qed.

Lemma worst_metric_scores (m : string) (results : list ReportFile.line)
    (entries : list Reporting.worst_metric_entry) :
  ReportFile.comprehension (ReportFile.metric_entry m)
    (ReportFile.worst_metric_records m results) = Ok entries ->
  map (Reporting.metric_entry m)
    (Reporting.worst_metric_records m (map ReportFile.scores results))
  = entries.
Proof.
  intros H. apply comprehension_Ok in H.
  unfold Reporting.worst_metric_records. rewrite nsmallest_map, map_map.
  rewrite <- (map_id entries) at 1. symmetry.
  apply (fun F => Forall2_map_eq _ (fun e => e) _ _ _ F H).
  intros r e Hr. symmetry. now apply metric_entry_scores.
Qed.

Lemma worst_by_metric_loop_fold (results : list ReportFile.line) :
  forall names acc d,
    ReportFile.worst_by_metric_loop names results acc = Ok d ->
    d = fold_left
          (fun d m =>
             Dict.set m
               (map (Reporting.metric_entry m)
                  (Reporting.worst_metric_records m
                     (map ReportFile.scores results))) d)
          names acc.
Proof.
  induction names as [|k names IH]; simpl; intros acc d H.
  - now injection H as <-.
  - destruct (ReportFile.comprehension (ReportFile.metric_entry k)
                (ReportFile.worst_metric_records k results)) as [es|e] eqn:Ek;
      [|discriminate H].
    rewrite (worst_metric_scores k results es Ek). now apply IH.
Qed.

Lemma summary_dict_statistics (results : list ReportFile.line)
    (s : ReportFile.summary_dict) :
  ReportFile.generate_summary (Some results) = Ok s ->
  Reporting.generate_summary (Some (map ReportFile.scores results))
  = Ok (ReportFile.statistics s).
Proof.
  destruct results as [|first rest]; [discriminate|]. intros Hs.
  destruct (generate_summary_Ok first rest s Hs)
    as (Ht & Ha & Ho & _ & Hloop & Hentries).
  unfold ReportFile.statistics. rewrite Ht, Ha, Ho.
  rewrite <- (worst_overall_scores _ _ Hentries).
  rewrite (worst_by_metric_loop_fold _ _ _ _ Hloop).
  cbn [map Reporting.generate_summary]. unfold Reporting.dict_of_names.
  cbn [List.length]. rewrite length_map, map_map. reflexivity.
Qed.

(** C8, as stated, fails on its second half: in a log of two records, the
    first with the metric [a] alone (score 0.8) and the second with the
    metric [b] alone (score 0.6), the summary selects no worst record for
    [b], which is a metric of the second record only; and for [a] it puts
    first the record [r2], which has no score of [a], ranked as if it had
    the score 0.0, before the one record that has a score of [a]. *)
Lemma worst_by_metric_ranks_absent_scores_as_zero :
  exists s,
    ReportFile.generate_summary (Some ReportingSpec.two_metrics_lines) = Ok s
    /\ map (ReportingSpec.has_metric "b") ReportingSpec.two_metrics_lines
       = [false; true]
    /\ Dict.get "b" (ReportFile.worst_by_metric s) = None
    /\ map (ReportingSpec.has_metric "a") ReportingSpec.two_metrics_lines
       = [true; false]
    /\ option_map (map Reporting.wm_record_id)
         (Dict.get "a" (ReportFile.worst_by_metric s))
       = Some ["r2"; "r1"]
    /\ option_map (map Reporting.wm_score)
         (Dict.get "a" (ReportFile.worst_by_metric s))
       = Some [0%float; 0.8%float].
Proof.
  eexists. split; [vm_compute; reflexivity|].
  repeat split; vm_compute; reflexivity.
Qed.

(** C8, amended: in a summary that is returned, for a log whose scores can
    be compared, the worst records overall are the 5 records with the
    lowest overall scores (all the records of a log of 5 or fewer, so of a
    log of 3), in ascending order, records with the same score in the order
    of the log.  The summary has worst records for the metrics of the first
    record of the log and for no other metric; for each of these metrics
    they are the 3 records with the lowest scores of that metric in the same
    order, a record that lacks the metric being ranked with the score
    0.0.  The entries show the id, the question, the score and the first
    200 characters of the answer of these records. *)
Theorem worst_records_lowest_first (first : ReportFile.line)
    (rest : list ReportFile.line) (s : ReportFile.summary_dict) :
  ReportingSpec.comparable ReportFile.overall_score (first :: rest) = true ->
  forallb
    (fun m => ReportingSpec.comparable (ReportingSpec.rank_score m) (first :: rest))
    (Dict.keys (ReportFile.metrics first)) = true ->
  ReportFile.generate_summary (Some (first :: rest)) = Ok s ->
  (exists chosen,
     ReportingSpec.lowest_first ReportFile.overall_score 5 (first :: rest) chosen
     /\ (List.length (first :: rest) <= 5 -> Permutation chosen (first :: rest))
     /\ map Reporting.wo_record_id (ReportFile.worst_overall s)
        = map ReportFile.record_id chosen
     /\ map Reporting.wo_question (ReportFile.worst_overall s)
        = map ReportFile.question chosen
     /\ map Reporting.wo_overall_score (ReportFile.worst_overall s)
        = map ReportFile.overall_score chosen
     /\ map (fun e => Some (Reporting.wo_answer e)) (ReportFile.worst_overall s)
        = map ReportingSpec.answer_shown chosen)
  /\ (forall m,
        In m (Dict.keys (ReportFile.metrics first)) ->
        exists chosen entries,
          Dict.get m (ReportFile.worst_by_metric s) = Some entries
          /\ ReportingSpec.lowest_first (ReportingSpec.rank_score m) 3
               (first :: rest) chosen
          /\ map Reporting.wm_record_id entries
             = map ReportFile.record_id chosen
          /\ map Reporting.wm_question entries = map ReportFile.question chosen
          /\ map Reporting.wm_score entries
             = map (ReportingSpec.rank_score m) chosen
          /\ map (fun e => Some (Reporting.wm_answer e)) entries
             = map ReportingSpec.answer_shown chosen)
  /\ (forall m,
        ~ In m (Dict.keys (ReportFile.metrics first)) ->
        Dict.get m (ReportFile.worst_by_metric s) = None).
Proof.
  intros Hoverall Hmetrics Hs.
  destruct (generate_summary_Ok first rest s Hs)
    as (_ & _ & _ & _ & Hloop & Hentries).
  apply comprehension_Ok in Hentries.
  pose proof (worst_by_metric_loop_Ok _ _ _ _ Hloop) as [Hin Hout].
  split; [|split].
  - exists (ReportFile.worst_overall_records (first :: rest)).
    split; [now apply nsmallest_lowest_first|]. split.
    + intros Hlen. unfold ReportFile.worst_overall_records, Reporting.TOP_N_WORST.
      rewrite nsmallest_all by exact Hlen. apply sorted_perm.
    + repeat split; apply (fun H => Forall2_map_eq _ _ _ _ _ H Hentries);
        intros r e H; now destruct (overall_entry_Ok r e H) as (? & ? & ? & ?).
  - intros m Hm. destruct (Hin m Hm) as (entries & Hes & Hget).
    apply comprehension_Ok in Hes.
    exists (ReportFile.worst_metric_records m (first :: rest)), entries.
    split; [exact Hget|]. split.
    + rewrite worst_metric_records_rank_score. apply nsmallest_lowest_first.
      rewrite forallb_forall in Hmetrics. now apply Hmetrics.
    + repeat split; apply (fun H => Forall2_map_eq _ _ _ _ _ H Hes);
        intros r e H; now destruct (metric_entry_Ok m r e H) as (? & ? & ? & ?).
  - intros m Hm. now rewrite (Hout m Hm).
Qed.

(** Four records whose scores of [correctness] are not in the order of
    their overall scores: the worst overall are [r2], then [r1] and [r3],
    which have the same score, in the order of the log, then [r4]; the
    worst for [correctness] are [r4], then [r2] and [r3], and [r1] is left
    out.  And of a log of three records, all three are the worst overall,
    in ascending order. *)
Lemma worst_records_lowest_first_witness :
  (exists s3,
     ReportFile.generate_summary (Some ReportingSpec.three_lines) = Ok s3
     /\ map Reporting.wo_record_id (ReportFile.worst_overall s3)
        = ["r2"; "r1"; "r3"]
     /\ map Reporting.wo_overall_score (ReportFile.worst_overall s3)
        = [0.25%float; 0.5%float; 0.5%float])
  /\ exists s,
    ReportFile.generate_summary (Some ReportingSpec.four_lines) = Ok s
    /\ map Reporting.wo_record_id (ReportFile.worst_overall s)
       = ["r2"; "r1"; "r3"; "r4"]
    /\ option_map (map Reporting.wm_record_id)
         (Dict.get "correctness" (ReportFile.worst_by_metric s))
       = Some ["r4"; "r2"; "r3"]
    /\ option_map (map Reporting.wm_score)
         (Dict.get "correctness" (ReportFile.worst_by_metric s))
       = Some [0.1%float; 0.5%float; 0.5%float]
    /\ (exists chosen,
          ReportingSpec.lowest_first ReportFile.overall_score 5
            ReportingSpec.four_lines chosen
          /\ map Reporting.wo_record_id (ReportFile.worst_overall s)
             = map ReportFile.record_id chosen)
    /\ (exists chosen entries,
          Dict.get "correctness" (ReportFile.worst_by_metric s) = Some entries
          /\ ReportingSpec.lowest_first
               (ReportingSpec.rank_score "correctness") 3
               ReportingSpec.four_lines chosen
          /\ map Reporting.wm_record_id entries
             = map ReportFile.record_id chosen).
Proof.
  split; [eexists; repeat split; vm_compute; reflexivity|].
  eexists. split; [vm_compute; reflexivity|].
  split; [vm_compute; reflexivity|].
  split; [vm_compute; reflexivity|].
  split; [vm_compute; reflexivity|].
  edestruct (worst_records_lowest_first
               (ReportingSpec.line_of "r1" [("correctness", 0.9%float)] 0.5)
               [ReportingSpec.line_of "r2" [("correctness", 0.5%float)] 0.25;
                ReportingSpec.line_of "r3" [("correctness", 0.5%float)] 0.5;
                ReportingSpec.line_of "r4" [("correctness", 0.1%float)] 0.9])
    as [(chosen & Hl & _ & Hids & _) [Hm _]];
    [vm_compute; reflexivity | vm_compute; reflexivity
     | vm_compute; reflexivity |].
  split.
  - exists chosen. split; [exact Hl | exact Hids].
  - destruct (Hm "correctness" (or_introl eq_refl))
      as (chosen' & entries & Hget & Hl' & Hids' & _).
    exists chosen', entries. split; [exact Hget|]. split; [exact Hl' | exact Hids'].
Defined.




(** ** The run *)








(** * More of the code: proofs *)

(** ** Strings *)

Lemma substring_0_length (n : nat) (s : string) :
  String.length (substring 0 n s) = Nat.min n (String.length s).
Proof.
  revert s. induction n as [|n IH]; intros [|c s]; simpl; auto.
Qed.

Lemma substring_0_all (n : nat) (s : string) :
  String.length s <= n -> substring 0 n s = s.
Proof.
  revert s. induction n as [|n IH]; intros [|c s] H; simpl in *; auto; try lia.
  f_equal. apply IH. lia.
Qed.

Lemma substring_0_append (n : nat) (s t : string) :
  n <= String.length s -> substring 0 n (s ++ t) = substring 0 n s.
Proof.
  revert s. induction n as [|n IH]; intros [|c s] H; simpl in *; auto; try lia.
  - now destruct t.
  - f_equal. apply IH. lia.
Qed.

Lemma substring_0_idem (n : nat) (s : string) :
  substring 0 n (substring 0 n s) = substring 0 n s.
Proof.
  apply substring_0_all. rewrite substring_0_length. lia.
Qed.

Lemma append_length (s t : string) :
  String.length (s ++ t) = String.length s + String.length t.
Proof. induction s as [|c s IH]; simpl; auto. Qed.

(** ** Truncated texts *)

Lemma truncate_text_short (text : string) (max_length : Z) :
  (Z.of_nat (String.length text) <= max_length)%Z ->
  Utils.truncate_text text max_length = text.
Proof.
  intros H. unfold Utils.truncate_text.
  destruct (Z.leb_spec (Z.of_nat (String.length text)) max_length);
    [reflexivity|lia].
Qed.

Lemma truncate_text_long (text : string) (max_length : Z) :
  (max_length < Z.of_nat (String.length text))%Z ->
  Utils.truncate_text text max_length
  = (Utils.slice_to max_length text ++ "...")%string.
Proof.
  intros H. unfold Utils.truncate_text.
  destruct (Z.leb_spec (Z.of_nat (String.length text)) max_length);
    [lia|reflexivity].
Qed.

(** X1: [truncate_text] returns a text of at most [max_length] characters as
    it is, and cuts a longer one to [max_length] characters (to all but the
    last [-max_length] when [max_length] is negative) followed by three
    dots: the result of a cut is 3 characters longer than the limit, so a
    text one or two characters over a limit that is not negative comes back
    longer than it was. *)
Theorem truncate_text_length (text : string) (max_length : Z) :
  ((Z.of_nat (String.length text) <= max_length)%Z ->
   Utils.truncate_text text max_length = text)
  /\ ((max_length < Z.of_nat (String.length text))%Z ->
      Utils.truncate_text text max_length
      = (Utils.slice_to max_length text ++ "...")%string
      /\ Z.of_nat (String.length (Utils.truncate_text text max_length))
         = (Z.max 0 (if 0 <=? max_length then max_length
                     else Z.of_nat (String.length text) + max_length) + 3)%Z)
  /\ ((0 <= max_length)%Z ->
      Z.of_nat (String.length text) = (max_length + 1)%Z
      \/ Z.of_nat (String.length text) = (max_length + 2)%Z ->
      String.length text
      < String.length (Utils.truncate_text text max_length)).
Proof.
  assert (Hcut : (max_length < Z.of_nat (String.length text))%Z ->
            Utils.truncate_text text max_length
            = (Utils.slice_to max_length text ++ "...")%string
            /\ Z.of_nat (String.length (Utils.truncate_text text max_length))
               = (Z.max 0 (if 0 <=? max_length then max_length
                           else Z.of_nat (String.length text) + max_length)
                  + 3)%Z).
  { intros H. unfold Utils.truncate_text.
    destruct (Z.leb_spec (Z.of_nat (String.length text)) max_length); [lia|].
    split; [reflexivity|].
    rewrite append_length. unfold Utils.slice_to.
    destruct (Z.leb_spec 0 max_length); rewrite substring_0_length; simpl; lia. }
  split; [|split; [exact Hcut|]].
  - intros H. unfold Utils.truncate_text.
    destruct (Z.leb_spec (Z.of_nat (String.length text)) max_length); [reflexivity|lia].
  - intros Hm Hlen. destruct Hcut as [_ Hl]; [lia|].
    destruct (Z.leb_spec 0 max_length); lia.
Qed.

(** X2: with a limit that is not negative, truncating a truncated text
    changes nothing. *)
Theorem truncate_text_idempotent (text : string) (max_length : Z) :
  (0 <= max_length)%Z ->
  Utils.truncate_text (Utils.truncate_text text max_length) max_length
  = Utils.truncate_text text max_length.
Proof.
  intros Hm.
  destruct (Z.leb_spec (Z.of_nat (String.length text)) max_length) as [H|H].
  - rewrite (truncate_text_short text max_length H).
    apply truncate_text_short, H.
  - rewrite (truncate_text_long text) by exact H.
    unfold Utils.slice_to. destruct (Z.leb_spec 0 max_length); [|lia].
    rewrite truncate_text_long
      by (rewrite append_length, substring_0_length; simpl; lia).
    unfold Utils.slice_to. destruct (Z.leb_spec 0 max_length); [|lia].
    rewrite substring_0_append by (rewrite substring_0_length; lia).
    now rewrite substring_0_idem.
Qed.

(** A text of 7 characters and the limit 5. *)
Lemma truncate_text_idempotent_witness :
  Utils.truncate_text (Utils.truncate_text "context" 5) 5 = "conte..."
  /\ Utils.truncate_text "context" 5 = "conte...".
Proof.
  split; [|reflexivity].
  rewrite (truncate_text_idempotent "context" 5); [reflexivity | lia].
Defined.

(** X3: the line of a record keeps as many contexts as were retrieved, none
    of them longer than 1503 characters, while the metrics see a prefix of
    the retrieved contexts, of [max_contexts_for_eval] contexts at most when
    that setting is not 0. *)
Theorem record_contexts (settings : Judges.Settings) (contexts : list string) :
  List.length (RunnerContexts.persisted_contexts contexts) = List.length contexts
  /\ Forall (fun ctx => String.length ctx <= 1503)
       (RunnerContexts.persisted_contexts contexts)
  /\ (exists rest,
        contexts = RunnerContexts.contexts_for_eval settings contexts ++ rest)
  /\ (Judges.max_contexts_for_eval settings <> 0 ->
      List.length (RunnerContexts.contexts_for_eval settings contexts)
      = Nat.min (Judges.max_contexts_for_eval settings) (List.length contexts)).
Proof.
  unfold RunnerContexts.persisted_contexts, RunnerContexts.contexts_for_eval.
  split; [apply length_map|]. split; [|split].
  - rewrite Forall_map, Forall_forall. intros ctx _.
    unfold Utils.truncate_text, RunnerContexts.MAX_CONTEXT_CHARS.
    destruct (Z.leb_spec (Z.of_nat (String.length ctx)) 1500); [lia|].
    rewrite append_length. unfold Utils.slice_to.
    change (0 <=? 1500)%Z with true. cbv iota.
    rewrite substring_0_length. simpl String.length. lia.
  - destruct (Judges.max_contexts_for_eval settings) as [|k].
    + exists []. now rewrite app_nil_r.
    + exists (skipn (S k) contexts). now rewrite firstn_skipn.
  - intros Hk. destruct (Judges.max_contexts_for_eval settings) as [|k];
      [congruence|]. apply length_firstn.
Qed.

(** ** Requests to the service *)

(** X4: whatever the bound [max_retries], the invoker sends at most that
    many requests, stops at the first reply that parses as JSON and has a
    score, and returns null after [max_retries] requests without one; with
    the bound 0 it returns null without a request. *)
Theorem call_judge_api_any_bound (w : Judges.world) (max_retries n : nat) :
  Judges.client_error w = None ->
  (exists r n',
     Judges._call_judge_api w max_retries n = (Ok r, n')
     /\ n <= n' <= n + max_retries
     /\ match r with
        | Some reply =>
            0 < n' - n
            /\ Judges.service w (n' - 1) = Judges.Parsed reply
            /\ Protocol.usable (Judges.Parsed reply) = true
            /\ forall i, n <= i < n' - 1 ->
                 Protocol.usable (Judges.service w i) = false
        | None =>
            n' = n + max_retries
            /\ forall i, n <= i < n' ->
                 Protocol.usable (Judges.service w i) = false
        end)
  /\ Judges._call_judge_api w 0 n = (Ok None, n).
Proof.
  intros Hc. unfold Judges._call_judge_api. rewrite Hc. split; [|reflexivity].
  pose proof (attempts_spec w max_retries n) as H.
  destruct (Judges.attempts w max_retries n) as [[r|] n'].
  - destruct H as (j & Hj & Hn & Hs & Hu & Hb). exists (Some r), n'.
    split; [reflexivity|]. split; [lia|]. split; [lia|].
    replace (n' - 1) with (n + j) by lia. split; [exact Hs|]. split; [exact Hu|].
    intros i Hi. replace i with (n + (i - n)) by lia. apply Hb. lia.
  - destruct H as (Hn & Hb). exists None, n'.
    split; [reflexivity|]. split; [lia|]. split; [exact Hn|].
    intros i Hi. replace i with (n + (i - n)) by lia. apply Hb. lia.
Qed.

(** The service of [Protocol.score_missing_once] and the bound 1: the one
    request gets a reply without score. *)
Lemma call_judge_api_any_bound_witness :
  Judges._call_judge_api Protocol.score_missing_once 1 0 = (Ok None, 1)
  /\ Judges._call_judge_api Protocol.score_missing_once 0 5 = (Ok None, 5).
Proof.
  destruct (call_judge_api_any_bound Protocol.score_missing_once 1 0 eq_refl)
    as [_ _].
  destruct (call_judge_api_any_bound Protocol.score_missing_once 0 5 eq_refl)
    as [_ H0].
  split; [reflexivity | exact H0].
Defined.



(** The judges of the registry are the sampling protocol. *)
Lemma registry_judges (name : string) (jf : Metrics.judge_function) :
  Dict.get name Metrics.METRIC_REGISTRY = Some jf -> jf = Judges.judge.
Proof.
  unfold Metrics.METRIC_REGISTRY. simpl.
  repeat match goal with
         | |- context [String.eqb ?a ?b] => destruct (String.eqb a b)
         end;
    intros H; try discriminate H; now injection H as <-.
Qed.







(** ** Samples *)

Lemma judge_samples_unit_interval (w : Judges.world) (s : Judges.Settings)
    (ns : option nat) (ir : option bool) (n : nat) (jr : Judges.judge_result)
    (n' : nat) :
  Judges.judge w s ns ir n = (Ok jr, n') ->
  Forall Bounds.unit_interval (Judges.samples jr).
Proof.
  intros H.
  destruct (proj2 (judge_aborts_or_succeeds w s ns ir n) jr n' H)
    as [(msg & _ & -> & _)|(l & _ & _ & _ & ->)].
  - constructor.
  - rewrite Forall_map, Forall_forall. intros x _. apply clamp_bounds.
Qed.

Lemma run_judge_samples_unit_interval (w : Judges.world)
    (s : Judges.Settings) (n : nat) (r : Metrics.metric_result) (n' : nat) :
  Metrics.run_judge w s Judges.judge n = (Ok r, n') ->
  Forall Bounds.unit_interval (Metrics.samples r).
Proof.
  unfold Metrics.run_judge.
  destruct (Judges.judge w s None None n) as [[jr|e] n1] eqn:E.
  - pose proof (judge_samples_unit_interval w s None None n jr n1 E) as Hs.
    destruct (Judges.error jr); intros H; injection H as <- _; simpl;
      [constructor | exact Hs].
  - intros H. injection H as <- _. constructor.
Qed.

Lemma set_values_Forall {V : Type} (P : V -> Prop) (k : string) (v : V)
    (d : dict V) :
  P v -> Forall P (Dict.values d) -> Forall P (Dict.values (Dict.set k v d)).
Proof.
  intros Hv. unfold Dict.values.
  induction d as [|[k' v'] d IH]; simpl; intros H.
  - repeat constructor. exact Hv.
  - inversion H; subst. destruct (String.eqb k k'); simpl; constructor; auto.
Qed.

Lemma metrics_loop_samples (w : Judges.world) (s : Judges.Settings) :
  forall names d n d' n',
    Forall (fun r => Forall Bounds.unit_interval (Metrics.samples r))
      (Dict.values d) ->
    Metrics.metrics_loop w s names d n = (Ok d', n') ->
    Forall (fun r => Forall Bounds.unit_interval (Metrics.samples r))
      (Dict.values d').
Proof.
  induction names as [|name names IH]; intros d n d' n' Hd H;
    cbn [Metrics.metrics_loop] in H.
  - unfold ret in H. now injection H as <- _.
  - destruct (Dict.get name Metrics.METRIC_REGISTRY) as [jf|] eqn:E.
    + apply registry_judges in E. subst jf. unfold bind in H.
      destruct (Metrics.run_judge w s Judges.judge n) as [[r|e] n1] eqn:Er;
        [|discriminate H].
      apply (IH _ _ _ _ (set_values_Forall _ name r d
                           (run_judge_samples_unit_interval w s n r n1 Er) Hd) H).
    + apply (IH _ _ _ _ Hd H).
Qed.

(** X6: whatever the service replies, every sample kept in the results of
    [compute_metrics] is a float from 0 to 1; none is NaN, a NaN score being
    stored as 1.0. *)
Theorem compute_metrics_samples_in_unit_interval (w : Judges.world)
    (settings : Judges.Settings) (selected_metrics : option (list string))
    (n : nat) (results : dict Metrics.metric_result) (n' : nat) :
  Metrics.compute_metrics w settings selected_metrics n = (Ok results, n') ->
  (forall name r x,
      Dict.get name results = Some r -> In x (Metrics.samples r) ->
      (0 <=? x)%float = true /\ (x <=? 1)%float = true /\ (x =? x)%float = true)
  /\ Judges.clamp nan = 1%float.
Proof.
  intros H. split; [|reflexivity].
  pose proof (metrics_loop_samples w settings _ [] n results n'
                (Forall_nil _) H) as Hall.
  intros name r x Hr Hx.
  assert (Hin : In r (Dict.values results)).
  { clear -Hr. unfold Dict.values. induction results as [|[k v] d IH];
      simpl in *; [discriminate|].
    destruct (String.eqb name k); [injection Hr as ->; now left | right; auto]. }
  rewrite Forall_forall in Hall. specialize (Hall r Hin).
  rewrite Forall_forall in Hall. destruct (Hall x Hx) as [H0 H1].
  repeat split; auto.
  rewrite FloatAxioms.eqb_spec. rewrite FloatAxioms.leb_spec in H0.
  unfold SFleb in H0. unfold SFeqb.
  destruct (Prim2SF x) as [[]|[]| |[] m e]; simpl in *; try discriminate;
    try reflexivity.
  now rewrite Z.compare_refl, Pos.compare_cont_refl.
Qed.

(** Three samples whose raw scores are NaN, 7.5 and -2. *)
Lemma compute_metrics_samples_in_unit_interval_witness :
  Metrics.compute_metrics Bounds.wild_scores
    {| Judges.judge_num_samples := 3; Judges.include_metric_reasons := false;
       Judges.overall_score_weights := []; Judges.max_contexts_for_eval := 3 |}
    (Some ["correctness"]) 0
  = (Ok [("correctness",
          Metrics.MetricResult (2 / 3) "" [1; 1; 0]%float)], 3)
  /\ (0 <=? 1)%float = true.
Proof.
  split; [vm_compute; reflexivity|].
  refine (proj1 (proj1 (compute_metrics_samples_in_unit_interval
                   Bounds.wild_scores
                   {| Judges.judge_num_samples := 3;
                      Judges.include_metric_reasons := false;
                      Judges.overall_score_weights := [];
                      Judges.max_contexts_for_eval := 3 |}
                   (Some ["correctness"]) 0
                   [("correctness",
                     Metrics.MetricResult (2 / 3) "" [1; 1; 0]%float)] 3 _)
                 "correctness" _ 1%float eq_refl (or_introl eq_refl))).
  vm_compute. reflexivity.
Defined.

(** ** The records of a run *)

Lemma limit_records_firstn (num_questions : option Z)
    (records : list Runner.DatasetRecord) :
  exists k,
    k <= List.length records
    /\ Runner.limit_records num_questions records = firstn k records.
Proof.
  unfold Runner.limit_records, Runner.slice_to.
  destruct num_questions as [k|].
  - destruct (Z.eqb_spec k 0).
    + exists (List.length records). split; [lia | now rewrite firstn_all].
    + destruct (Z.ltb_spec k (Z.of_nat (List.length records))).
      * destruct (Z.leb_spec 0 k); eexists; (split; [|reflexivity]); lia.
      * exists (List.length records). split; [lia | now rewrite firstn_all].
  - exists (List.length records). split; [lia | now rewrite firstn_all].
Qed.

(** X7: the records a run evaluates are records of the dataset from its
    first on, in its order: all of them when [num_questions] is [None], 0,
    or not below the size of the dataset; the first [num_questions] when
    that number is at least 1 and below the size; and, [num_questions]
    being any integer, the records without the last [-num_questions] of
    them when it is negative, so none when [-num_questions] is the size of
    the dataset or more: a run asked for -1 question of a dataset of one
    record evaluates nothing. *)
Theorem limit_records_prefix (num_questions : option Z)
    (records : list Runner.DatasetRecord) :
  (exists rest,
     records = Runner.limit_records num_questions records ++ rest)
  /\ match num_questions with
     | None => Runner.limit_records num_questions records = records
     | Some k =>
         ((k = 0 \/ Z.of_nat (List.length records) <= k)%Z ->
          Runner.limit_records num_questions records = records)
         /\ ((0 < k < Z.of_nat (List.length records))%Z ->
             Runner.limit_records num_questions records
             = firstn (Z.to_nat k) records
             /\ List.length (Runner.limit_records num_questions records)
                = Z.to_nat k)
         /\ ((k < 0)%Z ->
             Runner.limit_records num_questions records
             = firstn (List.length records - Z.to_nat (- k)) records
             /\ List.length (Runner.limit_records num_questions records)
                = List.length records - Z.to_nat (- k))
     end
  /\ (forall record,
        Runner.limit_records (Some (-1)%Z) [record] = []).
Proof.
  split; [|split].
  - destruct (limit_records_firstn num_questions records) as (k & _ & ->).
    exists (skipn k records). now rewrite firstn_skipn.
  - destruct num_questions as [k|]; [|reflexivity].
    unfold Runner.limit_records, Runner.slice_to. split; [|split].
    + intros [->|H]; [reflexivity|].
      destruct (Z.eqb_spec k 0); [reflexivity|].
      destruct (Z.ltb_spec k (Z.of_nat (List.length records))); [lia|reflexivity].
    + intros [H0 H1].
      destruct (Z.eqb_spec k 0); [lia|].
      destruct (Z.ltb_spec k (Z.of_nat (List.length records))); [|lia].
      destruct (Z.leb_spec 0 k); [|lia].
      split; [reflexivity|]. rewrite length_firstn. lia.
    + intros H.
      destruct (Z.eqb_spec k 0); [lia|].
      destruct (Z.ltb_spec k (Z.of_nat (List.length records))); [|lia].
      destruct (Z.leb_spec 0 k); [lia|].
      assert (E : Z.to_nat (Z.of_nat (List.length records) + k)
                  = List.length records - Z.to_nat (- k)) by lia.
      rewrite E. split; [reflexivity|]. rewrite length_firstn. lia.
  - reflexivity.
Qed.



(** ** The prompt library *)

Lemma option_eqb_eq (a b : option string) :
  PromptManager.option_eqb a b = true <-> a = b.
Proof.
  destruct a as [x|], b as [y|]; simpl; try (split; congruence).
  rewrite String.eqb_eq. split; congruence.
Qed.

Lemma option_eqb_refl (a : option string) : PromptManager.option_eqb a a = true.
Proof. now apply option_eqb_eq. Qed.

(** A prompt answers to one key of its category only. *)
Lemma matches_same_key (category title title' : string)
    (metric metric' : option string) (p : PromptManager.prompt) :
  PromptManager.matches category title metric p = true ->
  PromptManager.matches category title' metric' p = true ->
  PromptSpec.same_key category title metric title' metric' = true.
Proof.
  unfold PromptManager.matches, PromptSpec.same_key.
  destruct (String.eqb category "eval").
  - rewrite !andb_true_iff, !option_eqb_eq, String.eqb_eq.
    intros [Ht Hm] [Ht' Hm']. split; congruence.
  - rewrite !option_eqb_eq, String.eqb_eq. congruence.
Qed.

Lemma new_prompt_matches (category title content description : string)
    (metric : option string) (prompt_type : string)
    (created modified : option string) :
  PromptManager.matches category title metric
    (PromptManager.new_prompt category title content description metric
       prompt_type created modified) = true.
Proof.
  unfold PromptManager.matches, PromptManager.new_prompt. simpl.
  rewrite String.eqb_refl.
  destruct (String.eqb category "eval") eqn:E; [|reflexivity].
  apply String.eqb_eq in E. subst category. simpl. apply option_eqb_refl.
Qed.

Section FirstMatch.
Context {A : Type} (f : A -> bool).

Lemma index_of_None (l : list A) :
  PromptManager.index_of f l = None <-> find f l = None.
Proof.
  induction l as [|x l IH]; simpl; [tauto|].
  destruct (f x); [split; discriminate|].
  destruct (PromptManager.index_of f l) as [j|].
  - split; [discriminate|]. intros H. apply IH in H. discriminate H.
  - split; [|reflexivity]. intros _. now apply IH.
Qed.

Lemma index_of_Some (l : list A) (i : nat) :
  PromptManager.index_of f l = Some i ->
  exists x, nth_error l i = Some x /\ find f l = Some x /\ f x = true.
Proof.
  revert i. induction l as [|x l IH]; intros i; simpl; [discriminate|].
  destruct (f x) eqn:E.
  - intros H. injection H as <-. exists x. auto.
  - destruct (PromptManager.index_of f l) as [j|]; [|discriminate].
    intros H. injection H as <-. apply (IH j eq_refl).
Qed.

Lemma find_replace_first (l : list A) (i : nat) (y : A) :
  PromptManager.index_of f l = Some i -> f y = true ->
  find f (PromptManager.replace_at i y l) = Some y.
Proof.
  revert i. induction l as [|x l IH]; intros i; simpl; [discriminate|].
  destruct (f x) eqn:E.
  - intros H Hy. injection H as <-. simpl. now rewrite Hy.
  - destruct (PromptManager.index_of f l) as [j|]; [|discriminate].
    intros H Hy. injection H as <-. simpl. rewrite E. now apply IH.
Qed.

Lemma find_append_new (l : list A) (y : A) :
  find f l = None -> f y = true -> find f (l ++ [y]) = Some y.
Proof.
  induction l as [|x l IH]; simpl; intros H Hy; [now rewrite Hy|].
  destruct (f x); [discriminate | auto].
Qed.

Lemma replace_at_length (l : list A) (i : nat) (y : A) :
  List.length (PromptManager.replace_at i y l) = List.length l.
Proof.
  revert i. induction l as [|x l IH]; intros [|i]; simpl; auto.
Qed.

(** A test that does not hold of the item replaced nor of the new one finds
    what it found. *)
Lemma find_replace_other (g : A -> bool) (l : list A) (i : nat) (y : A) :
  (forall x, nth_error l i = Some x -> g x = false) -> g y = false ->
  find g (PromptManager.replace_at i y l) = find g l.
Proof.
  revert i. induction l as [|x l IH]; intros [|i] Hx Hy; simpl; auto.
  - rewrite Hy. now rewrite (Hx x eq_refl).
  - destruct (g x); [reflexivity|]. apply IH; auto.
Qed.

Lemma find_append_other (g : A -> bool) (l : list A) (y : A) :
  g y = false -> find g (l ++ [y]) = find g l.
Proof.
  intros Hy. induction l as [|x l IH]; simpl; [now rewrite Hy|].
  now destruct (g x).
Qed.

Lemma find_filter_other (g : A -> bool) (l : list A) :
  (forall x, g x = true -> f x = false) ->
  find g (filter (fun x => negb (f x)) l) = find g l.
Proof.
  intros H. induction l as [|x l IH]; simpl; [reflexivity|].
  destruct (g x) eqn:Eg.
  - rewrite (H x Eg). simpl. now rewrite Eg.
  - destruct (f x); simpl; [|rewrite Eg]; exact IH.
Qed.

Lemma find_filter_same (l : list A) :
  find f (filter (fun x => negb (f x)) l) = None.
Proof.
  induction l as [|x l IH]; simpl; [reflexivity|].
  destruct (f x) eqn:E; simpl; [|rewrite E]; exact IH.
Qed.

Lemma filter_length_eq (l : list A) :
  List.length (filter (fun x => negb (f x)) l) = List.length l
  <-> find f l = None.
Proof.
  induction l as [|x l IH]; simpl; [tauto|].
  pose proof (filter_length_le (fun x => negb (f x)) l) as Hle.
  destruct (f x); simpl.
  - split; [lia | discriminate].
  - rewrite <- IH. lia.
Qed.

End FirstMatch.

Lemma list_prompts_write (st : PromptManager.storage) (category : string)
    (prompts : list PromptManager.prompt) (category' : string) :
  PromptManager.list_prompts (PromptManager.write st category prompts) category'
  = if PromptSpec.same_file category category' then prompts
    else PromptManager.list_prompts st category'.
Proof.
  unfold PromptManager.list_prompts, PromptManager.write, PromptManager.file_of,
    PromptSpec.same_file.
  destruct (String.eqb category "rag"), (String.eqb category' "rag"); reflexivity.
Qed.

Lemma same_file_refl (category : string) :
  PromptSpec.same_file category category = true.
Proof. unfold PromptSpec.same_file. now destruct (String.eqb category "rag"). Qed.

Lemma other_key_no_match (category title title' : string)
    (metric metric' : option string) (p : PromptManager.prompt) :
  PromptSpec.same_key category title metric title' metric' = false ->
  PromptManager.matches category title metric p = true ->
  PromptManager.matches category title' metric' p = false.
Proof.
  intros Hk Hp.
  destruct (PromptManager.matches category title' metric' p) eqn:E;
    [|reflexivity].
  rewrite (matches_same_key _ _ _ _ _ _ Hp E) in Hk. discriminate Hk.
Qed.

(** What a lookup finds in the list [save_prompt] writes. *)
Lemma saved_prompts_find_same (now : string)
    (prompts : list PromptManager.prompt)
    (category title content description : string) (metric : option string)
    (prompt_type : string) :
  exists created modified,
    find (PromptManager.matches category title metric)
      (PromptManager.saved_prompts now prompts category title content
         description metric prompt_type)
    = Some (PromptManager.new_prompt category title content description
              metric prompt_type created modified)
    /\ match find (PromptManager.matches category title metric) prompts with
       | Some old =>
           created = PromptManager.created_at old /\ modified = Some now
           /\ List.length
                (PromptManager.saved_prompts now prompts category title
                   content description metric prompt_type)
              = List.length prompts
       | None =>
           created = Some now /\ modified = None
           /\ PromptManager.saved_prompts now prompts category title content
                description metric prompt_type
              = prompts
                ++ [PromptManager.new_prompt category title content
                      description metric prompt_type (Some now) None]
       end.
Proof.
  unfold PromptManager.saved_prompts.
  destruct (PromptManager.index_of
              (PromptManager.matches category title metric) prompts)
    as [i|] eqn:Ei.
  - destruct (index_of_Some _ _ _ Ei) as (old & Hnth & Hfind & Hold).
    rewrite Hnth, Hfind. eexists _, _. split.
    + apply find_replace_first; [exact Ei | apply new_prompt_matches].
    + split; [reflexivity|]. split; [reflexivity|]. apply replace_at_length.
  - apply index_of_None in Ei. rewrite Ei. eexists _, _. split.
    + apply find_append_new; [exact Ei | apply new_prompt_matches].
    + auto.
Qed.

Lemma saved_prompts_find_other (now : string)
    (prompts : list PromptManager.prompt)
    (category title content description : string) (metric : option string)
    (prompt_type : string) (title' : string) (metric' : option string) :
  PromptSpec.same_key category title metric title' metric' = false ->
  find (PromptManager.matches category title' metric')
    (PromptManager.saved_prompts now prompts category title content
       description metric prompt_type)
  = find (PromptManager.matches category title' metric') prompts.
Proof.
  intros Hk. unfold PromptManager.saved_prompts.
  destruct (PromptManager.index_of
              (PromptManager.matches category title metric) prompts)
    as [i|] eqn:Ei.
  - destruct (index_of_Some _ _ _ Ei) as (old & Hnth & _ & Hold).
    apply find_replace_other.
    + intros x Hx. rewrite Hnth in Hx. injection Hx as <-.
      apply (other_key_no_match _ _ _ _ _ _ Hk Hold).
    + apply (other_key_no_match _ _ _ _ _ _ Hk), new_prompt_matches.
  - apply find_append_other.
    apply (other_key_no_match _ _ _ _ _ _ Hk), new_prompt_matches.
Qed.

(** A save that succeeds is found again. *)
Lemma save_prompt_found (st : PromptManager.storage) (now : string)
    (category title content description : string) (metric : option string)
    (prompt_type : string) :
  exists st',
    PromptManager.save_prompt st true now category title content description
      metric prompt_type = (true, st')
    /\ PromptManager.get_prompt st' category title metric = Some content.
Proof.
  unfold PromptManager.save_prompt. eexists. split; [reflexivity|].
  unfold PromptManager.get_prompt.
  rewrite list_prompts_write, same_file_refl.
  destruct (saved_prompts_find_same now
              (PromptManager.list_prompts st category) category title content
              description metric prompt_type) as (c & m & -> & _).
  reflexivity.
Qed.

(** X9: a prompt that [save_prompt] reports as saved is the one
    [get_prompt] returns for its category, title and metric, whatever the
    library held, also in place of prompts stored twice under that key; a
    save that cannot open its file for writing returns false and leaves the
    library as it was. *)
Theorem save_prompt_then_get (st : PromptManager.storage) (now : string)
    (category title content description : string) (metric : option string)
    (prompt_type : string) :
  (exists st',
     PromptManager.save_prompt st true now category title content description
       metric prompt_type = (true, st')
     /\ PromptManager.get_prompt st' category title metric = Some content)
  /\ PromptManager.save_prompt st false now category title content description
       metric prompt_type = (false, st).
Proof.
  split; [|reflexivity].
  unfold PromptManager.save_prompt. eexists. split; [reflexivity|].
  unfold PromptManager.get_prompt.
  rewrite list_prompts_write, same_file_refl.
  destruct (saved_prompts_find_same now
              (PromptManager.list_prompts st category) category title content
              description metric prompt_type) as (c & m & -> & _).
  reflexivity.
Qed.

(** X10: saving a prompt changes no lookup under another key of its
    category (another title, or for the category "eval" another metric),
    and nothing in the file of the other category. *)
Theorem save_prompt_keeps_others (st : PromptManager.storage)
    (writable : bool) (now : string)
    (category title content description : string) (metric : option string)
    (prompt_type : string) :
  (forall title' metric',
      PromptSpec.same_key category title metric title' metric' = false ->
      PromptManager.get_prompt
        (snd (PromptManager.save_prompt st writable now category title content
                description metric prompt_type))
        category title' metric'
      = PromptManager.get_prompt st category title' metric')
  /\ (forall category',
        PromptSpec.same_file category category' = false ->
        PromptManager.list_prompts
          (snd (PromptManager.save_prompt st writable now category title
                  content description metric prompt_type))
          category'
        = PromptManager.list_prompts st category').
Proof.
  unfold PromptManager.save_prompt.
  destruct writable; simpl; [|split; reflexivity].
  split.
  - intros title' metric' Hk. unfold PromptManager.get_prompt.
    rewrite list_prompts_write, same_file_refl.
    now rewrite saved_prompts_find_other.
  - intros category' Hf. now rewrite list_prompts_write, Hf.
Qed.

(** What [delete_prompt] does, by whether a prompt is stored under the key. *)
Lemma delete_prompt_cases (st : PromptManager.storage) (writable : bool)
    (category title : string) (metric : option string) :
  match PromptSpec.lookup st category title metric with
  | None =>
      PromptManager.delete_prompt st writable category title metric
      = (false, st)
  | Some _ =>
      if writable
      then exists st',
          PromptManager.delete_prompt st true category title metric
          = (true, st')
          /\ PromptManager.get_prompt st' category title metric = None
      else PromptManager.delete_prompt st false category title metric
           = (false, st)
  end.
Proof.
  unfold PromptSpec.lookup, PromptManager.delete_prompt.
  pose proof (filter_length_eq (PromptManager.matches category title metric)
                (PromptManager.list_prompts st category)) as Hlen.
  destruct (find (PromptManager.matches category title metric)
              (PromptManager.list_prompts st category)) as [p|] eqn:Ef.
  - destruct (Nat.eqb_spec
                (List.length
                   (filter
                      (fun p0 =>
                         negb (PromptManager.matches category title metric p0))
                      (PromptManager.list_prompts st category)))
                (List.length (PromptManager.list_prompts st category)))
      as [E|E].
    + apply Hlen in E. discriminate E.
    + destruct writable; [|reflexivity].
      eexists. split; [reflexivity|].
      unfold PromptManager.get_prompt.
      now rewrite list_prompts_write, same_file_refl, find_filter_same.
  - rewrite (proj2 Hlen eq_refl), Nat.eqb_refl. reflexivity.
Qed.

(** X11: [delete_prompt] returns false and leaves the library as it was
    when no prompt of the category is stored under the key, or when its
    file cannot be opened for writing; otherwise it returns true, no prompt is left under the
    key, however many there were, and the lookups under the other keys of
    the category are what they were. *)
Theorem delete_prompt_removes_key (st : PromptManager.storage)
    (writable : bool) (category title : string) (metric : option string) :
  match PromptSpec.lookup st category title metric with
  | None =>
      PromptManager.delete_prompt st writable category title metric
      = (false, st)
  | Some _ =>
      if writable
      then exists st',
          PromptManager.delete_prompt st true category title metric
          = (true, st')
          /\ PromptSpec.lookup st' category title metric = None
          /\ PromptManager.get_prompt st' category title metric = None
          /\ forall title' metric',
               PromptSpec.same_key category title metric title' metric'
               = false ->
               PromptManager.get_prompt st' category title' metric'
               = PromptManager.get_prompt st category title' metric'
      else PromptManager.delete_prompt st false category title metric
           = (false, st)
  end.
Proof.
  unfold PromptSpec.lookup, PromptManager.delete_prompt.
  pose proof (filter_length_eq (PromptManager.matches category title metric)
                (PromptManager.list_prompts st category)) as Hlen.
  destruct (find (PromptManager.matches category title metric)
              (PromptManager.list_prompts st category)) as [p|] eqn:Ef.
  - destruct (Nat.eqb_spec
                (List.length
                   (filter
                      (fun p0 =>
                         negb (PromptManager.matches category title metric p0))
                      (PromptManager.list_prompts st category)))
                (List.length (PromptManager.list_prompts st category)))
      as [E|E].
    + apply Hlen in E. discriminate E.
    + destruct writable; [|reflexivity].
      eexists. split; [reflexivity|].
      unfold PromptManager.get_prompt.
      rewrite list_prompts_write, same_file_refl, find_filter_same.
      split; [reflexivity|]. split; [reflexivity|].
      intros title' metric' Hk. rewrite find_filter_other; [reflexivity|].
      intros x Hx.
      destruct (PromptManager.matches category title metric x) eqn:Em;
        [|reflexivity].
      rewrite (matches_same_key _ _ _ _ _ _ Em Hx) in Hk. discriminate Hk.
  - rewrite (proj2 Hlen eq_refl), Nat.eqb_refl. reflexivity.
Qed.

(** X12: a prompt saved under a key that was in use takes the place of the
    first prompt under that key, keeps its creation date and gets the date
    of the save as its modification date, the library holding as many
    prompts as before; a prompt saved under a new key goes last, with the
    date of the save as its creation date and no modification date. *)
Theorem save_prompt_keeps_creation_date (st : PromptManager.storage)
    (now : string) (category title content description : string)
    (metric : option string) (prompt_type : string) :
  exists st' saved,
    PromptManager.save_prompt st true now category title content description
      metric prompt_type = (true, st')
    /\ PromptSpec.lookup st' category title metric = Some saved
    /\ PromptManager.content saved = Some content
    /\ match PromptSpec.lookup st category title metric with
       | Some old =>
           PromptManager.created_at saved = PromptManager.created_at old
           /\ PromptManager.modified_at saved = Some now
           /\ List.length (PromptManager.list_prompts st' category)
              = List.length (PromptManager.list_prompts st category)
       | None =>
           PromptManager.created_at saved = Some now
           /\ PromptManager.modified_at saved = None
           /\ PromptManager.list_prompts st' category
              = PromptManager.list_prompts st category ++ [saved]
       end.
Proof.
  unfold PromptManager.save_prompt, PromptSpec.lookup.
  destruct (saved_prompts_find_same now
              (PromptManager.list_prompts st category) category title content
              description metric prompt_type) as (c & m & Hfind & Hcase).
  eexists _, _. split; [reflexivity|].
  rewrite list_prompts_write, same_file_refl. split; [exact Hfind|].
  split; [reflexivity|].
  destruct (find (PromptManager.matches category title metric)
              (PromptManager.list_prompts st category)) as [old|].
  - destruct Hcase as (-> & -> & Hl). auto.
  - destruct Hcase as (-> & -> & Hl). auto.
Qed.

(** X13: when the file of a category does not load as JSON, or does not
    exist, the library reads as empty, and a save that succeeds leaves a
    file that holds the saved prompt alone: what the file held is lost. *)
Theorem save_prompt_over_unreadable_file (st : PromptManager.storage)
    (now : string) (category title content description : string)
    (metric : option string) (prompt_type : string) :
  PromptManager.file_of st category = PromptManager.Unreadable
  \/ PromptManager.file_of st category = PromptManager.Missing ->
  PromptManager.list_prompts st category = []
  /\ PromptManager.get_prompt st category title metric = None
  /\ exists st',
       PromptManager.save_prompt st true now category title content
         description metric prompt_type = (true, st')
       /\ PromptManager.file_of st' category
          = PromptManager.Stored
              [PromptManager.new_prompt category title content description
                 metric prompt_type (Some now) None].
Proof.
  intros Hfile.
  assert (Hl : PromptManager.list_prompts st category = []).
  { unfold PromptManager.list_prompts. now destruct Hfile as [-> | ->]. }
  split; [exact Hl|]. split.
  - unfold PromptManager.get_prompt. now rewrite Hl.
  - unfold PromptManager.save_prompt. rewrite Hl. eexists.
    split; [reflexivity|].
    unfold PromptManager.write, PromptManager.file_of.
    destruct (String.eqb category "rag"); reflexivity.
Qed.

(** A library whose file of evaluation prompts does not load. *)
Lemma save_prompt_over_unreadable_file_witness :
  exists st',
    PromptManager.save_prompt
      {| PromptManager.rag_prompts_file := PromptManager.Missing;
         PromptManager.eval_prompts_file := PromptManager.Unreadable |}
      true "2024-03-03" "eval" "Strict" "strict text" "" (Some "correctness")
      "system" = (true, st')
    /\ PromptManager.list_prompts st' "eval"
       = [PromptManager.Prompt (Some "Strict") (Some "strict text") (Some "")
            (Some "2024-03-03") None (Some "correctness") None].
Proof.
  destruct (save_prompt_over_unreadable_file
              {| PromptManager.rag_prompts_file := PromptManager.Missing;
                 PromptManager.eval_prompts_file := PromptManager.Unreadable |}
              "2024-03-03" "eval" "Strict" "strict text" ""
              (Some "correctness") "system" (or_introl eq_refl))
    as (_ & _ & st' & Hsave & Hfile).
  exists st'. split; [exact Hsave|].
  unfold PromptManager.list_prompts. rewrite Hfile. reflexivity.
Defined.

(** X14: the endpoint that deletes prompts refuses the title
    "Default v1.0" and any category but "rag" and "eval" with the status
    400, answers 404 when nothing was deleted and 200 otherwise; whatever
    it is asked, the prompts with the title "Default v1.0" stay as they
    are, those of the other titles of the request's category included. *)
Theorem delete_endpoint_keeps_default_prompts (st : PromptManager.storage)
    (writable : bool) (category title : string) (metric : option string) :
  (title = "Default v1.0" \/ PromptsRouter.in_categories category = false ->
   PromptsRouter.delete_prompt st writable category title metric = (400, st))
  /\ (forall category',
        filter
          (fun p =>
             PromptManager.option_eqb (PromptManager.title p)
               (Some "Default v1.0"))
          (PromptManager.list_prompts
             (snd (PromptsRouter.delete_prompt st writable category title
                     metric))
             category')
        = filter
            (fun p =>
               PromptManager.option_eqb (PromptManager.title p)
                 (Some "Default v1.0"))
            (PromptManager.list_prompts st category'))
  /\ (forall category' metric',
        PromptManager.get_prompt
          (snd (PromptsRouter.delete_prompt st writable category title metric))
          category' "Default v1.0" metric'
        = PromptManager.get_prompt st category' "Default v1.0" metric').
Proof.
  assert (Hkeep : forall p,
            title <> "Default v1.0" ->
            PromptManager.option_eqb (PromptManager.title p)
              (Some "Default v1.0") = true ->
            PromptManager.matches category title metric p = false).
  { intros p Ht Hp. apply option_eqb_eq in Hp.
    unfold PromptManager.matches. rewrite Hp.
    cbn [PromptManager.option_eqb].
    destruct (String.eqb_spec "Default v1.0" title) as [E|E]; [congruence|].
    now destruct (String.eqb category "eval"). }
  assert (Hlist : forall category',
            title <> "Default v1.0" ->
            filter
              (fun p =>
                 PromptManager.option_eqb (PromptManager.title p)
                   (Some "Default v1.0"))
              (PromptManager.list_prompts
                 (snd (PromptManager.delete_prompt st writable category title
                         metric))
                 category')
            = filter
                (fun p =>
                   PromptManager.option_eqb (PromptManager.title p)
                     (Some "Default v1.0"))
                (PromptManager.list_prompts st category')).
  { intros category' Ht. unfold PromptManager.delete_prompt.
    destruct (Nat.eqb _ _); [reflexivity|]. destruct writable; [|reflexivity].
    simpl. rewrite list_prompts_write.
    destruct (PromptSpec.same_file category category') eqn:Ef; [|reflexivity].
    assert (El : PromptManager.list_prompts st category
                 = PromptManager.list_prompts st category').
    { unfold PromptManager.list_prompts, PromptManager.file_of.
      unfold PromptSpec.same_file in Ef.
      now destruct (String.eqb category "rag"), (String.eqb category' "rag"). }
    rewrite <- El. clear El.
    induction (PromptManager.list_prompts st category) as [|p l IH];
      simpl; [reflexivity|].
    destruct (PromptManager.option_eqb (PromptManager.title p)
                (Some "Default v1.0")) eqn:Ep.
    - rewrite (Hkeep p Ht Ep). simpl. rewrite Ep. now f_equal.
    - destruct (PromptManager.matches category title metric p); simpl;
        [|rewrite Ep]; exact IH. }
  assert (Hget : forall l l' category' metric',
            filter
              (fun p =>
                 PromptManager.option_eqb (PromptManager.title p)
                   (Some "Default v1.0")) l
            = filter
                (fun p =>
                   PromptManager.option_eqb (PromptManager.title p)
                     (Some "Default v1.0")) l' ->
            find (PromptManager.matches category' "Default v1.0" metric') l
            = find (PromptManager.matches category' "Default v1.0" metric') l').
  { intros l l' category' metric' H.
    assert (Hf : forall l0,
              find (PromptManager.matches category' "Default v1.0" metric') l0
              = find (PromptManager.matches category' "Default v1.0" metric')
                  (filter
                     (fun p =>
                        PromptManager.option_eqb (PromptManager.title p)
                          (Some "Default v1.0")) l0)).
    { induction l0 as [|p l0 IH0]; simpl; [reflexivity|].
      destruct (PromptManager.option_eqb (PromptManager.title p)
                  (Some "Default v1.0")) eqn:Ep; simpl.
      - now rewrite IH0.
      - unfold PromptManager.matches at 1. rewrite Ep.
        rewrite andb_false_l. now destruct (String.eqb category' "eval"). }
    now rewrite (Hf l), (Hf l'), H. }
  unfold PromptsRouter.delete_prompt.
  split; [|split].
  - intros [-> | Hc].
    + now destruct (negb (PromptsRouter.in_categories category)).
    + now rewrite Hc.
  - intros category'.
    destruct (negb (PromptsRouter.in_categories category)); [reflexivity|].
    destruct (String.eqb_spec title "Default v1.0") as [E|E]; [reflexivity|].
    specialize (Hlist category' E).
    now destruct (PromptManager.delete_prompt st writable category title metric)
      as [[|] st'].
  - intros category' metric'. unfold PromptManager.get_prompt.
    destruct (negb (PromptsRouter.in_categories category)); [reflexivity|].
    destruct (String.eqb_spec title "Default v1.0") as [E|E]; [reflexivity|].
    specialize (Hlist category' E).
    destruct (PromptManager.delete_prompt st writable category title metric)
      as [[|] st']; simpl in *; now rewrite (Hget _ _ category' metric' Hlist).
Qed.

(** X15: a judge that is given no template formats the prompt of the
    library stored under its configured title for its metric, so the prompt
    just saved under them when that prompt is not empty; it formats the
    built-in template when the library has no such prompt, as after that
    prompt is deleted, or when the prompt is empty; a template it is given
    goes before both. *)
Theorem judge_formats_saved_prompt (st : PromptManager.storage)
    (now prompt_title content description metric prompt_type
       default_template : string) :
  content <> "" ->
  (exists st',
     PromptManager.save_prompt st true now "eval" prompt_title content
       description (Some metric) prompt_type = (true, st')
     /\ JudgePrompts.prompt_template_for st' prompt_title metric
          default_template None = content
     /\ exists st'',
          PromptManager.delete_prompt st' true "eval" prompt_title
            (Some metric) = (true, st'')
          /\ JudgePrompts.prompt_template_for st'' prompt_title metric
               default_template None = default_template)
  /\ (PromptManager.get_prompt st "eval" prompt_title (Some metric) = None
      \/ PromptManager.get_prompt st "eval" prompt_title (Some metric)
         = Some "" ->
      JudgePrompts.prompt_template_for st prompt_title metric default_template
        None = default_template)
  /\ (forall template,
        JudgePrompts.prompt_template_for st prompt_title metric
          default_template (Some template) = template).
Proof.
  intros Hc. split; [|split].
  - unfold PromptManager.save_prompt. eexists. split; [reflexivity|].
    set (st' := PromptManager.write st "eval" _).
    assert (Hfind : exists c m,
              PromptSpec.lookup st' "eval" prompt_title (Some metric)
              = Some (PromptManager.new_prompt "eval" prompt_title content
                        description (Some metric) prompt_type c m)).
    { unfold PromptSpec.lookup, st'.
      rewrite list_prompts_write, same_file_refl.
      destruct (saved_prompts_find_same now
                  (PromptManager.list_prompts st "eval") "eval" prompt_title
                  content description (Some metric) prompt_type)
        as (c & m & H & _).
      now exists c, m. }
    destruct Hfind as (c & m & Hfind). split.
    + unfold JudgePrompts.prompt_template_for, PromptManager.get_prompt.
      unfold PromptSpec.lookup in Hfind. rewrite Hfind. simpl.
      destruct content; [congruence | reflexivity].
    + pose proof (delete_prompt_cases st' true "eval" prompt_title
                    (Some metric)) as Hd.
      rewrite Hfind in Hd. destruct Hd as (st'' & Hdel & Hget).
      exists st''. split; [exact Hdel|].
      unfold JudgePrompts.prompt_template_for. now rewrite Hget.
  - intros [H|H]; unfold JudgePrompts.prompt_template_for; now rewrite H.
  - reflexivity.
Qed.

(** The library of two prompts of [correctness]: a save under the title
    "Strict" changes the template of the judge of [correctness] with that
    title, and not the template of the judge of [faithfulness]. *)
Lemma judge_formats_saved_prompt_witness :
  exists st',
    PromptManager.save_prompt PromptSpec.library true "2024-03-03" "eval"
      "Strict" "stricter text" "" (Some "correctness") "system" = (true, st')
    /\ JudgePrompts.prompt_template_for st' "Strict" "correctness"
         "built-in text" None = "stricter text"
    /\ JudgePrompts.prompt_template_for st' "Strict" "faithfulness"
         "built-in text" None = "built-in text".
Proof.
  destruct (judge_formats_saved_prompt PromptSpec.library "2024-03-03"
              "Strict" "stricter text" "" "correctness" "system"
              "built-in text") as ((st' & Hsave & Hget & _) & _ & _).
  - discriminate.
  - exists st'. split; [exact Hsave|]. split; [exact Hget|].
    injection Hsave as <-. reflexivity.
Defined.

(** ** Token averages *)

Lemma sum_ints_None (xs : list (option Z)) :
  forall acc, In None xs -> exists e, TokenUsage.sum_ints xs acc = Raised e.
Proof.
  induction xs as [|[x|] xs IH]; intros acc H; simpl.
  - destruct H.
  - destruct H as [H|H]; [discriminate | now apply IH].
  - eauto.
Qed.

Lemma sum_ints_Ok (xs : list (option Z)) :
  forall acc total, TokenUsage.sum_ints xs acc = Ok total -> ~ In None xs.
Proof.
  intros acc total H Hin. destruct (sum_ints_None xs acc Hin) as (e & He).
  congruence.
Qed.

Lemma average_Null (field : TokenUsage.row -> TokenUsage.token_field)
    (rows : list TokenUsage.row) (r : TokenUsage.row) :
  In r rows -> field r = TokenUsage.Null ->
  exists e, TokenUsage.average field rows = Raised e.
Proof.
  intros Hr Hn. unfold TokenUsage.average.
  destruct (sum_ints_None
              (map (fun r0 => TokenUsage.get_or_zero (field r0)) rows) 0%Z)
    as (e & ->); [|eauto].
  apply in_map_iff. exists r. now rewrite Hn.
Qed.

Lemma average_Ok (field : TokenUsage.row -> TokenUsage.token_field)
    (rows : list TokenUsage.row) (x : float) :
  TokenUsage.average field rows = Ok x ->
  forall r, In r rows -> field r <> TokenUsage.Null.
Proof.
  intros H r Hr Hn. destruct (average_Null field rows r Hr Hn) as (e & He).
  congruence.
Qed.

(** X16: the token averages of the summary are computed over the lines that
    report [total_tokens] and over them alone: they are absent, not 0, when
    no line reports it, and a line that does not report it changes
    nothing.  Among the lines that report it a missing count of prompt or
    completion tokens counts as 0, and a null one makes the summary
    raise. *)
Theorem token_averages_over_reporting_lines (rows : list TokenUsage.row) :
  TokenUsage.token_averages rows
  = TokenUsage.token_averages (TokenUsage.results_with_tokens rows)
  /\ (TokenUsage.results_with_tokens rows = [] ->
      TokenUsage.token_averages rows = Ok (TokenUsage.Averages None None None))
  /\ (forall r,
        In r (TokenUsage.results_with_tokens rows) ->
        TokenUsage.prompt_tokens r = TokenUsage.Null
        \/ TokenUsage.completion_tokens r = TokenUsage.Null ->
        exists e, TokenUsage.token_averages rows = Raised e)
  /\ (forall a,
        TokenUsage.token_averages rows = Ok a ->
        TokenUsage.results_with_tokens rows <> [] ->
        (exists p c t,
           a = TokenUsage.Averages (Some p) (Some c) (Some t)
           /\ TokenUsage.average TokenUsage.prompt_tokens
                (TokenUsage.results_with_tokens rows) = Ok p
           /\ TokenUsage.average TokenUsage.completion_tokens
                (TokenUsage.results_with_tokens rows) = Ok c
           /\ TokenUsage.average TokenUsage.total_tokens
                (TokenUsage.results_with_tokens rows) = Ok t)
        /\ forall r,
             In r (TokenUsage.results_with_tokens rows) ->
             TokenUsage.prompt_tokens r <> TokenUsage.Null
             /\ TokenUsage.completion_tokens r <> TokenUsage.Null)
  /\ TokenUsage.token_averages TokenUsage.three_rows
     = Ok (TokenUsage.Averages (Some 15%float) (Some 2.5%float)
             (Some 20%float)).
Proof.
  assert (Hidem : TokenUsage.results_with_tokens
                    (TokenUsage.results_with_tokens rows)
                  = TokenUsage.results_with_tokens rows).
  { unfold TokenUsage.results_with_tokens.
    induction rows as [|r rows IH]; simpl; [reflexivity|].
    destruct (TokenUsage.reported (TokenUsage.total_tokens r)) eqn:E; simpl;
      [rewrite E, IH|]; auto. }
  split; [|split; [|split; [|split]]].
  - unfold TokenUsage.token_averages. now rewrite Hidem.
  - intros H. unfold TokenUsage.token_averages. now rewrite H.
  - intros r Hr Hnull. unfold TokenUsage.token_averages.
    destruct (TokenUsage.results_with_tokens rows) as [|r0 l] eqn:E;
      [destruct Hr|]. rewrite <- E in *.
    destruct (TokenUsage.average TokenUsage.prompt_tokens
                (TokenUsage.results_with_tokens rows)) as [p|e] eqn:Ep;
      [|eauto].
    destruct Hnull as [Hn|Hn];
      [destruct (average_Ok _ _ _ Ep r Hr Hn)|].
    destruct (average_Null TokenUsage.completion_tokens _ r Hr Hn) as (e & ->).
    eauto.
  - intros a Ha Hne. unfold TokenUsage.token_averages in Ha.
    destruct (TokenUsage.results_with_tokens rows) as [|r0 l] eqn:E;
      [congruence|]. rewrite <- E in *.
    destruct (TokenUsage.average TokenUsage.prompt_tokens
                (TokenUsage.results_with_tokens rows)) as [p|e] eqn:Ep;
      [|discriminate].
    destruct (TokenUsage.average TokenUsage.completion_tokens
                (TokenUsage.results_with_tokens rows)) as [c|e] eqn:Ec;
      [|discriminate].
    destruct (TokenUsage.average TokenUsage.total_tokens
                (TokenUsage.results_with_tokens rows)) as [t|e] eqn:Et;
      [|discriminate].
    injection Ha as <-. split.
    + exists p, c, t. auto.
    + intros r Hr. split.
      * apply (average_Ok _ _ _ Ep r Hr).
      * apply (average_Ok _ _ _ Ec r Hr).
  - vm_compute. reflexivity.
Qed.

(** ** Run folders *)

Lemma split_no_separator (sep : ascii) (k : nat) (a : string) :
  RunNames.without sep a = true -> RunNames.split sep k a = [a].
Proof.
  revert k. induction a as [|c a IH]; intros k H; simpl in *; [reflexivity|].
  apply andb_true_iff in H. destruct H as [Hc Ha].
  destruct k as [|k]; [reflexivity|].
  apply negb_true_iff in Hc. rewrite Hc. now rewrite (IH (S k) Ha).
Qed.

Lemma split_at_first (sep : ascii) (k : nat) (a rest : string) :
  RunNames.without sep a = true ->
  RunNames.split sep (S k) (a ++ String sep rest)
  = a :: RunNames.split sep k rest.
Proof.
  induction a as [|c a IH]; intros H.
  - cbn [append RunNames.split]. now rewrite Ascii.eqb_refl.
  - simpl in H. apply andb_true_iff in H. destruct H as [Hc Ha].
    apply negb_true_iff in Hc.
    change ((String c a ++ String sep rest)%string)
      with (String c (a ++ String sep rest)).
    cbn [RunNames.split]. rewrite Hc. now rewrite (IH Ha).
Qed.

Lemma append_assoc (a b c : string) :
  ((a ++ b) ++ c = a ++ (b ++ c))%string.
Proof. induction a as [|x a IH]; simpl; [reflexivity | now rewrite IH]. Qed.

Lemma without_append (sep : ascii) (a b : string) :
  RunNames.without sep (a ++ b)
  = RunNames.without sep a && RunNames.without sep b.
Proof.
  induction a as [|c a IH]; simpl; [reflexivity|].
  now rewrite IH, andb_assoc.
Qed.

(** A text that has an underscore is a name [pathlib] keeps. *)
Lemma underscore_name_kept (a b : string) :
  (String.eqb (a ++ String "_" b) "" || String.eqb (a ++ String "_" b) ".")
  = false.
Proof.
  destruct a as [|c [|c' a]]; cbn [append]; try reflexivity.
  - simpl. now destruct (Ascii.eqb c "."); simpl.
  - simpl. destruct (Ascii.eqb c "."); reflexivity.
Qed.

(** The folder of a name without "/" is an entry of [storage/runs]. *)
Lemma components_one (a b : string) :
  RunNames.no_slash (a ++ String "_" b) = true ->
  RunNames.components (a ++ String "_" b) = [(a ++ String "_" b)%string].
Proof.
  intros H. unfold RunNames.components.
  rewrite (split_no_separator "/" _ _ H). simpl filter.
  now rewrite underscore_name_kept.
Qed.

(** The first component of a name that has a "/" is the text before it. *)
Lemma components_first (a b rest : string) :
  RunNames.no_slash (a ++ String "_" b) = true ->
  exists more,
    RunNames.components ((a ++ String "_" b) ++ String "/" rest)
    = (a ++ String "_" b)%string :: more.
Proof.
  intros H. unfold RunNames.components.
  assert (Hlen : exists k,
            String.length ((a ++ String "_" b) ++ String "/" rest) = S k).
  { rewrite append_length. simpl. exists (String.length (a ++ String "_" b)
                                           + String.length rest). lia. }
  destruct Hlen as [k ->].
  rewrite (split_at_first "/" k _ rest H). simpl filter.
  rewrite underscore_name_kept. now eexists.
Qed.

Lemma parse_run_id_named (date time name : string) :
  RunNames.no_underscore date = true ->
  RunNames.no_underscore time = true ->
  RunNames.parse_run_id (date ++ String "_" (time ++ String "_" name))
  = ((date ++ "_" ++ time)%string, name).
Proof.
  intros Hd Ht. unfold RunNames.parse_run_id.
  rewrite (split_at_first "_" 1 date _ Hd).
  rewrite (split_at_first "_" 0 time _ Ht).
  now destruct name.
Qed.

(** X17: on a system whose paths are cut at "/", the folder
    [create_run_folder] makes from a timestamp and a run name that is not
    empty and has no "/" is an entry of [storage/runs], and [list_runs]
    reads its name back into that timestamp and that run name, underscores
    of the run name included.  The folder made without run name is named
    by the timestamp alone, and is read back as a run named after the
    folder, with an empty timestamp.  A run name with a "/" makes folders
    one in the other, and [list_runs] reads as the run name what comes
    before the first "/". *)
Theorem run_name_round_trip (date time : string) :
  RunNames.no_underscore date = true ->
  RunNames.no_underscore time = true ->
  RunNames.no_slash date = true ->
  RunNames.no_slash time = true ->
  (forall c name,
      RunNames.no_slash (String c name) = true ->
      RunNames.create_run_folder (date ++ "_" ++ time) (Some (String c name))
      = ["storage"; "runs";
         (date ++ "_" ++ time ++ "_" ++ String c name)%string]
      /\ RunNames.parse_run_id
           (RunNames.listed_run_id
              (RunNames.create_run_folder (date ++ "_" ++ time)
                 (Some (String c name))))
         = ((date ++ "_" ++ time)%string, String c name))
  /\ (forall run_name,
        run_name = None \/ run_name = Some EmptyString ->
        RunNames.create_run_folder (date ++ "_" ++ time) run_name
        = ["storage"; "runs"; (date ++ "_" ++ time)%string]
        /\ RunNames.parse_run_id
             (RunNames.listed_run_id
                (RunNames.create_run_folder (date ++ "_" ++ time) run_name))
           = (EmptyString, (date ++ "_" ++ time)%string))
  /\ (forall before rest,
        RunNames.no_slash before = true ->
        RunNames.parse_run_id
          (RunNames.listed_run_id
             (RunNames.create_run_folder (date ++ "_" ++ time)
                (Some (before ++ "/" ++ rest)%string)))
        = ((date ++ "_" ++ time)%string, before)).
Proof.
  intros Hd Ht Hsd Hst.
  assert (Hts : RunNames.no_slash (date ++ String "_" time) = true).
  { unfold RunNames.no_slash in *. rewrite without_append. simpl.
    now rewrite Hsd, Hst. }
  split; [|split].
  - intros c name Hn.
    assert (Hfolder : RunNames.folder_name (date ++ "_" ++ time)
                        (Some (String c name))
                      = (date ++ String "_" (time ++ String "_" (String c name)))%string).
    { unfold RunNames.folder_name. rewrite append_assoc. reflexivity. }
    assert (Hall : RunNames.no_slash
                     (date ++ String "_" (time ++ String "_" (String c name)))
                   = true).
    { unfold RunNames.no_slash in *. rewrite without_append.
      cbn [RunNames.without]. rewrite without_append.
      cbn [RunNames.without]. cbn [RunNames.without] in Hn.
      rewrite Hsd, Hst, Hn. reflexivity. }
    unfold RunNames.create_run_folder. rewrite Hfolder.
    rewrite (components_one date _ Hall). split.
    + reflexivity.
    + cbn [app RunNames.listed_run_id nth].
      now apply parse_run_id_named.
  - intros run_name Hr.
    assert (Hfolder : RunNames.folder_name (date ++ "_" ++ time) run_name
                      = (date ++ String "_" time)%string)
      by (destruct Hr as [->| ->]; reflexivity).
    unfold RunNames.create_run_folder. rewrite Hfolder.
    rewrite (components_one date time Hts). split; [reflexivity|].
    cbn [app RunNames.listed_run_id nth]. unfold RunNames.parse_run_id.
    rewrite (split_at_first "_" 1 date time Hd).
    now rewrite (split_no_separator "_" 1 time Ht).
  - intros before rest Hb.
    assert (Hfolder : RunNames.folder_name (date ++ "_" ++ time)
                        (Some (before ++ "/" ++ rest)%string)
                      = ((date ++ String "_" (time ++ String "_" before))
                         ++ String "/" rest)%string).
    { unfold RunNames.folder_name.
      destruct before as [|c before]; cbn [append];
        rewrite !append_assoc; cbn [append];
        rewrite ?append_assoc; reflexivity. }
    assert (Hall : RunNames.no_slash
                     (date ++ String "_" (time ++ String "_" before)) = true).
    { unfold RunNames.no_slash in *. rewrite without_append.
      cbn [RunNames.without]. rewrite without_append.
      cbn [RunNames.without]. rewrite Hsd, Hst, Hb. reflexivity. }
    unfold RunNames.create_run_folder. rewrite Hfolder.
    destruct (components_first date _ rest Hall) as [more ->].
    cbn [app RunNames.listed_run_id nth].
    now apply parse_run_id_named.
Qed.

(** The run named "nightly_run" started on 2024-01-01 at 12:00:00, and the
    run named "nightly/run". *)
Lemma run_name_round_trip_witness :
  RunNames.create_run_folder "20240101_120000" (Some "nightly_run")
  = ["storage"; "runs"; "20240101_120000_nightly_run"]
  /\ RunNames.parse_run_id "20240101_120000_nightly_run"
     = ("20240101_120000", "nightly_run")
  /\ RunNames.parse_run_id "20240101_120000" = ("", "20240101_120000")
  /\ RunNames.create_run_folder "20240101_120000" (Some "nightly/run")
     = ["storage"; "runs"; "20240101_120000_nightly"; "run"]
  /\ RunNames.parse_run_id
       (RunNames.listed_run_id
          (RunNames.create_run_folder "20240101_120000" (Some "nightly/run")))
     = ("20240101_120000", "nightly").
Proof.
  destruct (run_name_round_trip "20240101" "120000" eq_refl eq_refl eq_refl
              eq_refl) as (Hname & Hnone & Hslash).
  split; [exact (proj1 (Hname "n"%char "ightly_run" eq_refl))|].
  split; [exact (proj2 (Hname "n"%char "ightly_run" eq_refl))|].
  split; [exact (proj2 (Hnone None (or_introl eq_refl)))|].
  split; [reflexivity|].
  exact (Hslash "nightly" "run" eq_refl).
Defined.

(** ** The sources of an answer *)

Lemma sources_from_spec (nodes : list Rag.node) :
  forall r,
    List.length (Rag.sources_from r nodes) = List.length nodes
    /\ map Rag.rank (Rag.sources_from r nodes) = seq r (List.length nodes)
    /\ map Rag.snippet (Rag.sources_from r nodes)
       = map (fun n => Utils.truncate_text (Rag.text n) 200) nodes
    /\ map Rag.score (Rag.sources_from r nodes) = map Rag.node_score nodes.
Proof.
  induction nodes as [|n nodes IH]; intros r; simpl; [auto|].
  destruct (IH (S r)) as (Hl & Hr & Hs & Hsc).
  repeat split; congruence.
Qed.

(** X18: the sources of an answer are as many as its contexts, one for each
    retrieved node and in the order of retrieval; they are ranked 1, 2, 3
    and so on, each carries the score of its node, and its snippet is the
    text of the matching context cut to 200 characters, so no longer than
    203. *)
Theorem sources_ranked_from_one (nodes : list Rag.node) :
  List.length (Rag.sources nodes) = List.length (Rag.contexts nodes)
  /\ map Rag.rank (Rag.sources nodes) = seq 1 (List.length nodes)
  /\ map Rag.snippet (Rag.sources nodes)
     = map (fun ctx => Utils.truncate_text ctx 200) (Rag.contexts nodes)
  /\ map Rag.score (Rag.sources nodes) = map Rag.node_score nodes
  /\ Forall (fun s => String.length (Rag.snippet s) <= 203) (Rag.sources nodes).
Proof.
  unfold Rag.sources, Rag.contexts.
  destruct (sources_from_spec nodes 1) as (Hl & Hr & Hs & Hsc).
  split; [now rewrite length_map|]. split; [exact Hr|].
  split; [now rewrite map_map|]. split; [exact Hsc|].
  rewrite <- (Forall_map Rag.snippet
                (fun s => String.length s <= 203)), Hs.
  rewrite Forall_map, Forall_forall. intros n _.
  destruct (Z.leb_spec (Z.of_nat (String.length (Rag.text n))) 200) as [H|H].
  - rewrite truncate_text_short by exact H. lia.
  - rewrite truncate_text_long by exact H. rewrite append_length.
    unfold Utils.slice_to. change (0 <=? 200)%Z with true. cbv iota.
    rewrite substring_0_length. simpl String.length. lia.
Qed.

(** ** The default prompts *)

(** X19: in a library created from nothing, each of the four default
    metrics has a prompt under the default title "Default v1.0", whose
    content is the built-in template of the metric, and the RAG category has
    its system prompt; creating the library twice changes nothing, and a
    file that exists is left as it is, even when it does not load. *)
Theorem init_stores_default_prompts (st : PromptManager.storage)
    (system_prompt : string) (template : string -> string) (rag_now : string)
    (clock : nat -> string) :
  (PromptManager.eval_prompts_file st = PromptManager.Missing ->
   forall metric,
     In metric Metrics.DEFAULT_METRICS ->
     PromptManager.get_prompt
       (PromptDefaults.init st system_prompt template rag_now clock)
       "eval" PromptDefaults.default_eval_prompt_title (Some metric)
     = Some (template metric))
  /\ (PromptManager.rag_prompts_file st = PromptManager.Missing ->
      forall metric,
        PromptManager.get_prompt
          (PromptDefaults.init st system_prompt template rag_now clock)
          "rag" "Default v1.0" metric
        = Some system_prompt)
  /\ (forall system_prompt' template' rag_now' clock',
        PromptDefaults.init
          (PromptDefaults.init st system_prompt template rag_now clock)
          system_prompt' template' rag_now' clock'
        = PromptDefaults.init st system_prompt template rag_now clock)
  /\ (forall category,
        PromptManager.file_of st category <> PromptManager.Missing ->
        PromptManager.file_of
          (PromptDefaults.init st system_prompt template rag_now clock)
          category
        = PromptManager.file_of st category).
Proof.
  split; [|split; [|split]].
  - intros Hfile metric Hin.
    unfold PromptManager.get_prompt, PromptManager.list_prompts,
      PromptManager.file_of, PromptDefaults.init. simpl.
    rewrite Hfile.
    simpl in Hin. destruct Hin as [<-|[<-|[<-|[<-|[]]]]]; reflexivity.
  - intros Hfile metric.
    unfold PromptManager.get_prompt, PromptManager.list_prompts,
      PromptManager.file_of, PromptDefaults.init. simpl.
    rewrite Hfile. reflexivity.
  - intros sp' t' n' c'. unfold PromptDefaults.init. simpl.
    destruct (PromptManager.rag_prompts_file st),
      (PromptManager.eval_prompts_file st); reflexivity.
  - intros category Hfile. unfold PromptManager.file_of in *.
    unfold PromptDefaults.init.
    destruct (String.eqb category "rag"); simpl;
      [destruct (PromptManager.rag_prompts_file st)
      |destruct (PromptManager.eval_prompts_file st)];
      congruence.
Qed.

(** A library created from nothing. *)
Lemma init_stores_default_prompts_witness :
  PromptManager.get_prompt
    (PromptDefaults.init
       (PromptManager.Storage PromptManager.Missing PromptManager.Missing)
       "system prompt" (fun metric => ("template of " ++ metric)%string)
       "2024-01-01" (fun _ => "2024-01-01"))
    "eval" "Default v1.0" (Some "faithfulness")
  = Some "template of faithfulness".
Proof.
  apply (proj1 (init_stores_default_prompts
                  (PromptManager.Storage PromptManager.Missing
                     PromptManager.Missing)
                  "system prompt" (fun metric => ("template of " ++ metric)%string)
                  "2024-01-01" (fun _ => "2024-01-01")) eq_refl).
  simpl. auto.
Defined.

(** ** The report grows *)



(** ** The summary a run writes *)

(** X22: the dictionary [generate_summary] returns for the lines of a report
    counts the lines, gives an average to the metrics of the first line and
    to no other, the average of such a metric being the sum of its scores
    over all the lines, a line without the metric counting for 0.0, divided
    by the number of lines; its average overall score is the sum of the
    overall scores divided by that number, and its token averages are those
    of the token counts of the lines.  These are the statistics computed
    from the scores of the lines alone. *)
Theorem summary_dict_averages (first : ReportFile.line)
    (rest : list ReportFile.line) (s : ReportFile.summary_dict) :
  Dict.well_formed (ReportFile.metrics first) ->
  ReportFile.generate_summary (Some (first :: rest)) = Ok s ->
  ReportFile.total_questions s = S (List.length rest)
  /\ Dict.keys (ReportFile.metric_averages s)
     = Dict.keys (ReportFile.metrics first)
  /\ (forall m,
        In m (Dict.keys (ReportFile.metrics first)) ->
        Dict.get m (ReportFile.metric_averages s)
        = Some (Py.sum (map (ReportingSpec.rank_score m) (first :: rest))
                / Py.float_of_nat (S (List.length rest)))%float)
  /\ (forall m,
        ~ In m (Dict.keys (ReportFile.metrics first)) ->
        Dict.get m (ReportFile.metric_averages s) = None)
  /\ ReportFile.average_overall_score s
     = (Py.sum (map ReportFile.overall_score (first :: rest))
        / Py.float_of_nat (S (List.length rest)))%float
  /\ TokenUsage.token_averages (map ReportFile.tokens (first :: rest))
     = Ok (ReportFile.token_averages s)
  /\ Reporting.generate_summary (Some (map ReportFile.scores (first :: rest)))
     = Ok (ReportFile.statistics s).
Proof.
  intros Hwf Hs.
  destruct (generate_summary_Ok first rest s Hs)
    as (Ht & Ha & Ho & Htok & _ & _).
  split; [exact Ht|]. rewrite Ha.
  split; [now apply dict_of_names_keys|]. split; [|split; [|split; [|split]]].
  - intros m Hm. rewrite dict_of_names_get.
    rewrite (proj2 (existsb_eqb_In _ _) Hm).
    rewrite (sum_metrics_get m _ _ Hwf Hm).
    unfold ReportingSpec.scores_or_zero. rewrite map_map.
    do 3 f_equal. apply map_ext. intros r.
    apply (metric_score_rank_score m r).
  - intros m Hm. rewrite dict_of_names_get.
    now rewrite (proj2 (existsb_eqb_not_In _ _) Hm).
  - exact Ho.
  - exact Htok.
  - now apply summary_dict_statistics.
Qed.

(** The log of three records with the scores 0.5, 0.25 and 0.5 of
    [correctness] and no token data. *)
Lemma summary_dict_averages_witness :
  exists s,
    ReportFile.generate_summary (Some ReportingSpec.three_lines) = Ok s
    /\ ReportFile.total_questions s = 3
    /\ Dict.get "correctness" (ReportFile.metric_averages s)
       = Some (1.25 / 3)%float
    /\ ReportFile.token_averages s = TokenUsage.Averages None None None.
Proof.
  eexists. split; [vm_compute; reflexivity|].
  edestruct (summary_dict_averages
               (ReportingSpec.line_of "r1" [("correctness", 0.5%float)] 0.5)
               [ReportingSpec.line_of "r2" [("correctness", 0.25%float)] 0.25;
                ReportingSpec.line_of "r3" [("correctness", 0.5%float)] 0.5])
    as (Ht & _ & Hin & _ & _ & Htok & _).
  - unfold Dict.well_formed. simpl. repeat constructor. intros [].
  - vm_compute. reflexivity.
  - split; [exact Ht|]. split.
    + rewrite (Hin "correctness" (or_introl eq_refl)). vm_compute. reflexivity.
    + vm_compute. reflexivity.
Defined.

(** ** The endpoints of the prompt library *)

(** X21: the endpoints that save and delete prompts change the library
    only when they answer 200: a refused category, a prompt of the category
    "eval" without metric (400), a file that cannot be opened for writing (500 for a save) and a
    prompt that is not there (404 for a delete) leave it as it was; after a
    save answered with 200 the prompt is the one [get_prompt] returns. *)
Theorem prompt_endpoints_change_on_success_only (st : PromptManager.storage)
    (writable : bool) (now category title content description : string)
    (metric : option string) (prompt_type : string) :
  (fst (PromptsRouter.save_prompt st writable now category title content
          description metric prompt_type) <> 200 ->
   snd (PromptsRouter.save_prompt st writable now category title content
          description metric prompt_type) = st)
  /\ (fst (PromptsRouter.save_prompt st writable now category title content
             description metric prompt_type) = 200 ->
      PromptsRouter.in_categories category = true
      /\ (category = "eval" -> exists m, metric = Some m /\ m <> "")
      /\ PromptManager.get_prompt
           (snd (PromptsRouter.save_prompt st writable now category title
                   content description metric prompt_type))
           category title metric = Some content)
  /\ (fst (PromptsRouter.delete_prompt st writable category title metric)
      <> 200 ->
      snd (PromptsRouter.delete_prompt st writable category title metric) = st)
  /\ (fst (PromptsRouter.delete_prompt st writable category title metric)
      = 200 ->
      title <> "Default v1.0"
      /\ PromptManager.get_prompt
           (snd (PromptsRouter.delete_prompt st writable category title metric))
           category title metric = None).
Proof.
  split; [|split; [|split]].
  - unfold PromptsRouter.save_prompt.
    destruct (negb (PromptsRouter.in_categories category)); [reflexivity|].
    destruct (String.eqb category "eval"
              && match metric with
                 | Some EmptyString | None => true
                 | Some _ => false
                 end); [reflexivity|].
    unfold PromptManager.save_prompt. destruct writable; simpl; congruence.
  - unfold PromptsRouter.save_prompt.
    destruct (PromptsRouter.in_categories category) eqn:Ec; simpl;
      [|discriminate].
    destruct (String.eqb category "eval"
              && match metric with
                 | Some EmptyString | None => true
                 | Some _ => false
                 end) eqn:Em; [discriminate|].
    destruct writable.
    + destruct (save_prompt_found st now category title content description
                  metric prompt_type) as (st' & Hs & Hg).
      rewrite Hs. simpl. intros _. split; [reflexivity|]. split; [|exact Hg].
      intros ->. rewrite String.eqb_refl in Em. simpl in Em.
      destruct metric as [[|c m]|]; try discriminate.
      exists (String c m). split; [reflexivity | discriminate].
    + unfold PromptManager.save_prompt. simpl. discriminate.
  - unfold PromptsRouter.delete_prompt.
    destruct (negb (PromptsRouter.in_categories category)); [reflexivity|].
    destruct (String.eqb title "Default v1.0"); [reflexivity|].
    pose proof (delete_prompt_cases st writable category title metric) as H.
    destruct (PromptSpec.lookup st category title metric).
    + destruct writable.
      * destruct H as (st' & -> & _). simpl. congruence.
      * now rewrite H.
    + now rewrite H.
  - unfold PromptsRouter.delete_prompt.
    destruct (negb (PromptsRouter.in_categories category)); [discriminate|].
    destruct (String.eqb_spec title "Default v1.0") as [E|E]; [discriminate|].
    pose proof (delete_prompt_cases st writable category title metric) as H.
    destruct (PromptSpec.lookup st category title metric).
    + destruct writable.
      * destruct H as (st' & -> & Hg). simpl. auto.
      * rewrite H. discriminate.
    + rewrite H. discriminate.
Qed.
